(** * Fractal-Harmonic Transform

    A shallow embedding of the transform engine, the score calculator, the
    statistical validator, the validation orchestrator, the organiser and
    the report of [code/fht_validation_suite.py], of the second transform of
    [code/mathematical_derivations.py], and of the dataset generators of
    [datasets/synthetic_validation_data.py].

    The Python code computes on binary64 numbers through numpy.  The embedding
    is written once, over an interface [Arith] of the floating-point
    operations the code uses, and [Libm] for [np.log] and [np.power], which
    numpy takes from the platform's mathematical library.  It is read at two
    instances of [Arith]:

    - [binary64]: the kernel's IEEE 754 binary64 numbers, with rounding,
      overflow, NaN and infinities as the machine has them.  Statements at
      this instance hold for every [Libm]; where a number has to be computed,
      [soft_libm], a software logarithm and power, stands for the platform's.
    - [exact]: exact arithmetic on the reals extended with the two infinities
      and NaN.  The special values behave as IEEE 754 says; finite results
      are not rounded and never overflow, and there is no negative zero.
      [np.log] is the natural logarithm and [np.power] the real power. *)

From Stdlib Require Import Floats.
From Stdlib Require Import Reals Lra Lia ZArith List Bool String.
From Stdlib Require Import Ascii DecimalString DecimalZ Znumtheory Sorted.
Import ListNotations.

(** ** The floating-point interface

    [f_of_int] converts a Python [int] to a float; [f_to_int] is Python's
    [int(x)], truncation toward zero, undefined on NaN and infinities.  The
    comparisons are IEEE comparisons: all false on NaN. *)

Class Arith (F : Type) : Type := {
  f_add : F -> F -> F;
  f_sub : F -> F -> F;
  f_mul : F -> F -> F;
  f_div : F -> F -> F;
  f_sqrt : F -> F;
  f_abs : F -> F;
  f_ltb : F -> F -> bool;
  f_leb : F -> F -> bool;
  f_eqb : F -> F -> bool;
  f_isnan : F -> bool;
  f_isinf : F -> bool;
  f_of_int : Z -> F;
  f_to_int : F -> option Z
}.

Class Libm (F : Type) : Type := {
  np_log : F -> F;
  np_power : F -> F -> F
}.

Declare Scope fl_scope.
Delimit Scope fl_scope with fl.
Infix "+" := f_add : fl_scope.
Infix "-" := f_sub : fl_scope.
Infix "*" := f_mul : fl_scope.
Infix "/" := f_div : fl_scope.
Infix "<?" := f_ltb : fl_scope.
Infix "<=?" := f_leb : fl_scope.
Infix "=?" := f_eqb : fl_scope.

(** A decimal literal [m / d] with [m] and [d] exactly representable: the
    correctly rounded quotient is the binary64 number the literal denotes
    ([0.79] is [lit 79 100], [1e-12] is [lit 1 (10^12)]). *)
Definition lit {F} `{Arith F} (m d : Z) : F := (f_of_int m / f_of_int d)%fl.

Definition is_finite {F} `{Arith F} (x : F) : bool :=
  negb (f_isnan x || f_isinf x).

(** ** The numpy functions the code calls, element by element *)

Section Numpy.
Context {F : Type} {A : Arith F}.
Local Open Scope fl_scope.

(** [np.maximum] and [np.minimum] propagate NaN. *)
Definition np_maximum (x y : F) : F :=
  if (y <=? x) || f_isnan x then x else y.

Definition np_minimum (x y : F) : F :=
  if (x <=? y) || f_isnan x then x else y.

Definition np_clip (x lo hi : F) : F := np_minimum (np_maximum x lo) hi.

Definition np_sign (x : F) : F :=
  if f_of_int 0 <? x then f_of_int 1
  else if x <? f_of_int 0 then f_of_int (-1)
  else if x =? f_of_int 0 then f_of_int 0
  else x.

Definition np_where (c : bool) (x y : F) : F := if c then x else y.

(** [np.sum]: the elements are added from left to right, starting from
    zero.  (numpy associates the additions of a long array differently, in
    blocks; the order matters to no statement below: in exact arithmetic
    the sum is the same, and the sign and overflow arguments on machine
    numbers hold for any order.) *)
Definition np_sum (l : list F) : F := fold_left f_add l (f_of_int 0).

Definition len (l : list F) : Z := Z.of_nat (List.length l).

Definition np_mean (l : list F) : F := np_sum l / f_of_int (len l).

(** [np.std]: the population standard deviation. *)
Definition np_std (l : list F) : F :=
  let m := np_mean l in
  f_sqrt (np_sum (map (fun x => (x - m) * (x - m)) l) / f_of_int (len l)).

(** [np.dot] of two centred rows, the products added from left to right
    (the library may add them in another order; see [np_sum]). *)
Definition np_dot (u v : list F) : F :=
  np_sum (map (fun p => fst p * snd p) (combine u v)).

Definition centred (l : list F) : list F :=
  let m := np_mean l in map (fun x => x - m) l.

(** The entry [0, 1] of [np.corrcoef(x, y)] for two rows of the same
    length: the covariance matrix with [ddof = 1] ([cov] multiplies the
    products by [1 / fact]), divided by the two standard deviations, then
    clipped to [-1, 1]. *)
Definition correlation_before_clip (x y : list F) : F :=
  let fact := f_of_int (len x - 1) in
  let scale := f_of_int 1 / fact in
  let X := centred x in
  let Y := centred y in
  let c00 := np_dot X X * scale in
  let c01 := np_dot X Y * scale in
  let c11 := np_dot Y Y * scale in
  let stddev0 := f_sqrt c00 in
  let stddev1 := f_sqrt c11 in
  (c01 / stddev0) / stddev1.

Definition np_corrcoef_01 (x y : list F) : F :=
  np_clip (correlation_before_clip x y) (f_of_int (-1)) (f_of_int 1).
End Numpy.

(** ** Exceptions *)

Inductive exn : Type :=
| ValueError (msg : string).

Definition result (A : Type) : Type := (exn + A)%type.
Definition Ok {A} (a : A) : result A := inr a.
Definition Raise {A} (e : exn) : result A := inl e.

(** ** Python integers turned into floats, with the overflow

    [np.array(ints, dtype=float)] turns each Python [int] into a float as
    [float(int)] does: an integer that rounds beyond the largest float is
    refused with [OverflowError].  [checked_of_int] is that conversion,
    [None] where it raises. *)

Class IntToFloat (F : Type) : Type := {
  checked_of_int : Z -> option F
}.

(** [np.array(ints, dtype=float)] on a list of Python integers: [None] when
    one of them is refused. *)
Fixpoint float_array {F : Type} {C : IntToFloat F} (ints : list Z)
  : option (list F) :=
  match ints with
  | [] => Some []
  | n :: rest =>
      match checked_of_int n, float_array rest with
      | Some x, Some xs => Some (x :: xs)
      | _, _ => None
      end
  end.

(** ** The argument [data] of a transform

    The two [transform] methods take an [ndarray] as it is and hand anything
    else to [np.array].  Three kinds of argument are told apart here: an
    [ndarray] of floats, a list of Python floats and a list of Python
    ints.  (A list that mixes the two, and arrays of other element types,
    are left out.) *)
Inductive py_data (F : Type) : Type :=
| Ndarray (a : list F)
| FloatList (l : list F)
| IntList (l : list Z).

Arguments Ndarray {F} a.
Arguments FloatList {F} l.
Arguments IntList {F} l.

(** What a call of [transform] can raise. *)
Inductive call_error : Type :=
| TypeError
| OverflowError.

(** A Python int that fits a machine integer, [int64] or [uint64]: for a
    list of such ints [np.array(data)] is an array of numbers ([int64],
    [uint64], or [float64] when both kinds occur), which [np.maximum] with
    the float [epsilon] turns into floats.  With one int outside,
    [np.array(data)] is an array of Python objects. *)
Definition machine_int (n : Z) : bool :=
  (- 2 ^ 63 <=? n)%Z && (n <? 2 ^ 64)%Z.

(** [np.array(data)] is an array of numbers. *)
Definition numeric {F : Type} (data : py_data F) : bool :=
  match data with
  | Ndarray _ | FloatList _ => true
  | IntList l => forallb machine_int l
  end.

(** [float(n)] raises [OverflowError]. *)
Definition too_large {F : Type} {C : IntToFloat F} (n : Z) : bool :=
  match checked_of_int (F := F) n with
  | Some _ => false
  | None => true
  end.

(** ** [fht_validation_suite.py]: the transform engine and the score calculator *)

Module fht_validation_suite.
Section Engine.
Context {F : Type} {A : Arith F} {L : Libm F}.
Local Open Scope fl_scope.

Record FractalHarmonicTransform : Type := {
  phi : F;
  alpha : F;
  beta : F;
  epsilon : F;
  stability_weight : F;
  breakthrough_weight : F
}.

Definition golden_ratio : F := (f_of_int 1 + f_sqrt (f_of_int 5)) / f_of_int 2.

Definition default_beta : F := f_of_int 1.
Definition default_epsilon : F := lit 1 (10 ^ 12).

(** [__init__(self, alpha=None, beta=1.0, epsilon=1e-12)] *)
Definition __init__ (alpha : option F) (beta epsilon : F)
  : FractalHarmonicTransform :=
  let phi := golden_ratio in
  {| phi := phi;
     alpha := match alpha with Some a => a | None => phi end;
     beta := beta;
     epsilon := epsilon;
     stability_weight := lit 79 100;
     breakthrough_weight := lit 21 100 |}.

Definition default_amplification : F := f_of_int 1.

(** [FractalHarmonicTransform()] *)
Definition default : FractalHarmonicTransform :=
  __init__ None default_beta default_epsilon.

(** The body of [transform] from [np.maximum] on, on an array of floats;
    [transform_call] below is the whole method. *)
Section Transform.
Variable self : FractalHarmonicTransform.

(** [data = np.maximum(data, self.epsilon)] *)
Definition clamped (data : list F) : list F :=
  map (fun x => np_maximum x (epsilon self)) data.

(** [log_term = np.log(data + self.epsilon)] *)
Definition log_term (data : list F) : list F :=
  map (fun x => np_log (x + epsilon self)) (clamped data).

(** [phi_power = np.abs(log_term) ** self.phi] *)
Definition phi_power (data : list F) : list F :=
  map (fun l => np_power (f_abs l) (phi self)) (log_term data).

(** [sign_term = np.sign(log_term)] *)
Definition sign_term (data : list F) : list F :=
  map np_sign (log_term data).

(** [self.alpha * phi_power * sign_term * amplification + self.beta] *)
Definition raw (amplification : F) (data : list F) : list F :=
  map (fun ps => alpha self * fst ps * snd ps * amplification + beta self)
      (combine (phi_power data) (sign_term data)).

(** [np.where(np.isnan(result) | np.isinf(result), self.beta, result)] *)
Definition transform (data : list F) (amplification : F) : list F :=
  map (fun r => np_where (f_isnan r || f_isinf r) (beta self) r)
      (raw amplification data).

(** The same computation read off for one element [x] of the input. *)
Definition raw1 (amplification x : F) : F :=
  let l := np_log (np_maximum x (epsilon self) + epsilon self) in
  alpha self * np_power (f_abs l) (phi self) * np_sign l * amplification
  + beta self.

Definition transform1 (amplification x : F) : F :=
  let r := raw1 amplification x in
  np_where (f_isnan r || f_isinf r) (beta self) r.
End Transform.

(** The whole method [transform(self, data, amplification)], from
    [if not isinstance(data, np.ndarray): data = np.array(data)] on.  On an
    array of Python objects [np.maximum] compares as Python does and keeps
    the objects, [data + self.epsilon] adds as Python does (an int above
    [epsilon] that is too large for a float raises [OverflowError]), and
    [np.log] then finds no loop for objects and raises [TypeError]. *)
Section Call.
Context {C : IntToFloat F}.

Definition transform_call (self : FractalHarmonicTransform) (data : py_data F)
    (amplification : F) : call_error + list F :=
  match data with
  | Ndarray a => inr (transform self a amplification)
  | FloatList l => inr (transform self l amplification)
  | IntList l =>
      if forallb machine_int l
      then match float_array l with
           | Some a => inr (transform self a amplification)
           | None => inl OverflowError
           end
      else if existsb (fun n => (1 <=? n)%Z && too_large (F := F) n) l
           then inl OverflowError
           else inl TypeError
  end.
End Call.

(** The call [FractalHarmonicTransform(alpha, beta, epsilon)]: it runs
    [__init__], whose body has no [raise] and no check of its arguments. *)
Definition new (alpha : option F) (beta epsilon : F)
  : result FractalHarmonicTransform :=
  Ok (__init__ alpha beta epsilon).

Record ScoreSet : Type := {
  consciousness_score : F;
  stability_score : F;
  breakthrough_score : F;
  correlation : F
}.

(** Python's builtin [min(a, b)]: [b] when [b < a], else [a]. *)
Definition py_min (a b : F) : F := if b <? a then b else a.

(** [np.corrcoef(original, transformed)[0, 1]]; numpy refuses to stack two
    rows of different lengths. *)
Definition np_corrcoef (original transformed : list F) : result F :=
  if (len original =? len transformed)%Z
  then Ok (np_corrcoef_01 original transformed)
  else Raise (ValueError "array dimensions must match").

Definition calculate_consciousness_score (self : FractalHarmonicTransform)
    (original transformed : list F) : result ScoreSet :=
  let stability_score :=
    np_sum (map f_abs transformed) / f_of_int (len original * 4) in
  let breakthrough_score :=
    if f_of_int 0 <? np_mean (map f_abs transformed)
    then np_std transformed / np_mean (map f_abs transformed)
    else f_of_int 0 in
  let consciousness_score :=
    stability_weight self * stability_score
    + breakthrough_weight self * breakthrough_score in
  match (if (1 <? len original)%Z then np_corrcoef original transformed
         else Ok (f_of_int 0)) with
  | inl e => Raise e
  | inr corr =>
      Ok {| consciousness_score := py_min consciousness_score (f_of_int 1);
            stability_score := stability_score;
            breakthrough_score := breakthrough_score;
            correlation := corr |}
  end.
End Engine.

(** *** The statistical validator and the orchestrator

    [validate_transformation] returns the dictionary it has just appended to
    [self.results], and [run_comprehensive_validation] then writes two more
    keys into that same dictionary.  Dictionaries therefore live in a store
    and are named by their address; [self.results] and the lists of the suite
    result hold addresses. *)

Section Validation.
Context {F : Type} {A : Arith F} {L : Libm F}.
Local Open Scope fl_scope.

Record StatisticalTests : Type := {
  pearson_correlation : F;
  pearson_p_value : F;
  spearman_correlation : F;
  spearman_p_value : F;
  ks_statistic : F;
  ks_p_value : F
}.

Record DataCharacteristics : Type := {
  dc_mean : F;
  dc_std : F;
  dc_min : F;
  dc_max : F;
  dc_range : F
}.

(** The dictionary built by [validate_transformation]; the keys
    ['pattern'] and ['size'] are absent until the orchestrator sets them. *)
Record ValidationRecord : Type := {
  dataset_size : Z;
  processing_time : F;
  metrics : ScoreSet (F := F);
  statistical_tests : StatisticalTests;
  data_characteristics : DataCharacteristics;
  pattern : option string;
  size : option Z
}.

Definition ref : Type := nat.

Record ValidationSuite : Type := {
  fht : FractalHarmonicTransform (F := F);
  results : list ref
}.

(** What a method of the suite can read and write: the store of
    dictionaries, the suite object, and the number of times the clock has
    been read. *)
Record World : Type := {
  objects : list ValidationRecord;
  suite : ValidationSuite;
  ticks : nat
}.

(** [ValidationSuite.__init__] *)
Definition ValidationSuite_init : ValidationSuite :=
  {| fht := default; results := [] |}.

Definition M (X : Type) : Type := World -> result X * World.

Definition ret {X} (x : X) : M X := fun w => (Ok x, w).

Definition bind {X Y} (m : M X) (k : X -> M Y) : M Y :=
  fun w => match m w with
           | (inr x, w') => k x w'
           | (inl e, w') => (Raise e, w')
           end.

Definition lift {X} (r : result X) : M X := fun w => (r, w).

Notation "x <- m ;; k" := (bind m (fun x => k))
  (at level 61, m at next level, right associativity).
Notation "m ;;; k" := (bind m (fun _ => k))
  (at level 61, right associativity).

(** [for x in xs: body], threading an accumulator. *)
Fixpoint for_each {X Acc} (xs : list X) (body : Acc -> X -> M Acc) (acc : Acc)
  : M Acc :=
  match xs with
  | [] => ret acc
  | x :: rest => acc' <- body acc x ;; for_each rest body acc'
  end.

(** *** What the environment provides: the wall clock, numpy's random
    generator and the three tests of [scipy.stats]. *)
Variable clock : nat -> F.
Variable np_random_uniform : Z -> F -> F -> Z -> result (list F).
Variable pearsonr : list F -> list F -> result (F * F).
Variable spearmanr : list F -> list F -> result (F * F).
Variable ks_2samp : list F -> list F -> result (F * F).

(** reading [self] *)
Definition get_self : M ValidationSuite := fun w => (Ok (suite w), w).

(** [time.time()] *)
Definition time_time : M F :=
  fun w => (Ok (clock (ticks w)),
            {| objects := objects w; suite := suite w; ticks := S (ticks w) |}).

(** [np.min] and [np.max] reduce from the first element and refuse an
    empty array. *)
Definition np_min (l : list F) : result F :=
  match l with
  | [] => Raise (ValueError "zero-size array to reduction operation minimum")
  | x :: rest => Ok (fold_left np_minimum rest x)
  end.

Definition np_max (l : list F) : result F :=
  match l with
  | [] => Raise (ValueError "zero-size array to reduction operation maximum")
  | x :: rest => Ok (fold_left np_maximum rest x)
  end.

(** **** [generate_synthetic_data] *)

(** [l[:n]] for a Python int [n]: a negative [n] counts from the end. *)
Definition py_prefix {X} (l : list X) (n : Z) : list X :=
  if (n <? 0)%Z then firstn (Z.to_nat (Z.of_nat (List.length l) + n)) l
  else firstn (Z.to_nat n) l.

(** [range(n)] *)
Definition py_range (n : Z) : list Z :=
  map Z.of_nat (seq 0 (Z.to_nat n)).

(** [range(start, stop, step)] for a positive [step]. *)
Definition py_range3 (start stop step : Z) : list Z :=
  map (fun k => (start + Z.of_nat k * step)%Z)
      (seq 0 (Z.to_nat ((stop - start + step - 1) / step))).

(** [while len(fib) < size: fib.append(fib[-1] + fib[-2])]; at most [size]
    turns are ever taken. *)
Fixpoint fib_while (fuel : nat) (size : Z) (fib : list Z) : list Z :=
  match fuel with
  | O => fib
  | S k =>
      if (Z.of_nat (List.length fib) <? size)%Z
      then fib_while k size
             (fib ++ [(last fib 0 + last (removelast fib) 0)%Z])
      else fib
  end.

(** [sieve[j] = False] *)
Fixpoint clear_at (sieve : list bool) (j : nat) : list bool :=
  match sieve, j with
  | [], _ => []
  | _ :: rest, O => false :: rest
  | b :: rest, S k => b :: clear_at rest k
  end.

Definition py_int (x : F) : result Z :=
  match f_to_int x with
  | Some z => Ok z
  | None => Raise (ValueError "cannot convert float to integer")
  end.

(** [_generate_primes] *)
Definition _generate_primes (n : Z) : result (list Z) :=
  if (n <=? 0)%Z then Ok []
  else
    match (if (6 <? n)%Z
           then py_int (f_of_int n * np_log (f_of_int n)
                        + f_of_int n * np_log (np_log (f_of_int n)))
           else Ok 20%Z) with
    | inl e => Raise e
    | inr upper_bound =>
        match py_int (f_sqrt (f_of_int upper_bound)) with
        | inl e => Raise e
        | inr root =>
            let sieve0 :=
              clear_at (clear_at (repeat true (Z.to_nat (upper_bound + 1))) 0) 1 in
            let sieve :=
              fold_left
                (fun sieve i =>
                   if nth (Z.to_nat i) sieve false
                   then fold_left (fun s j => clear_at s (Z.to_nat j))
                          (py_range3 (i * i) (upper_bound + 1) i) sieve
                   else sieve)
                (py_range3 2 (root + 1) 1) sieve0 in
            let primes :=
              map fst (filter snd (combine (py_range (Z.of_nat (List.length sieve))) sieve)) in
            Ok (py_prefix primes n)
        end
    end.

(** [np.linspace(start, stop, num)]: [num - 1] steps from [start], the last
    element set to [stop]; a single sample is [start]. *)
Definition np_linspace (start stop : F) (num : Z) : result (list F) :=
  if (num <? 0)%Z then Raise (ValueError "Number of samples must be non-negative")
  else
    let div := (num - 1)%Z in
    let delta := stop - start in
    let y := map f_of_int (py_range num) in
    let y :=
      if (0 <? div)%Z then
        let step := delta / f_of_int div in
        if step =? f_of_int 0
        then map (fun i => i / f_of_int div * delta) y
        else map (fun i => i * step) y
      else map (fun i => i * delta) y in
    let y := map (fun v => v + start) y in
    Ok (if (1 <? num)%Z then removelast y ++ [stop] else y).

(** [generate_synthetic_data].  The branch ['fibonacci'] converts the
    integers with [f_of_int]; [fibonacci_pattern] below is that branch with
    the [OverflowError] of [np.array(fib[:size], dtype=float)]. *)
Definition generate_synthetic_data (self : ValidationSuite) (size : Z)
    (pattern_type : string) : result (list F) :=
  if String.eqb pattern_type "fibonacci" then
    let fib := fib_while (Z.to_nat size) size [1; 1]%Z in
    Ok (map f_of_int (py_prefix fib size))
  else if String.eqb pattern_type "golden_ratio" then
    Ok (map (fun i => np_power (phi (fht self)) (f_of_int i)) (py_range size))
  else if String.eqb pattern_type "prime_modulo" then
    match _generate_primes (size * 2) with
    | inl e => Raise e
    | inr primes => Ok (map (fun p => f_of_int (p mod 100)) (py_prefix primes size))
    end
  else if String.eqb pattern_type "random" then
    np_random_uniform 42 (f_of_int 0) (f_of_int 100) size
  else
    np_linspace (f_of_int 1) (f_of_int 100) size.

(** **** [validate_transformation] *)

Definition append_result (r : ValidationRecord) : M ref :=
  fun w =>
    let a := List.length (objects w) in
    (Ok a,
     {| objects := objects w ++ [r];
        suite := {| fht := fht (suite w); results := results (suite w) ++ [a] |};
        ticks := ticks w |}).

Definition validate_transformation (data : list F) : M ref :=
  start_time <- time_time ;;
  self <- get_self ;;
  let transformed := transform (fht self) data default_amplification in
  metrics <- lift (calculate_consciousness_score (fht self) data transformed) ;;
  pearson <- lift (pearsonr data transformed) ;;
  spearman <- lift (spearmanr data transformed) ;;
  ks <- lift (ks_2samp data transformed) ;;
  now <- time_time ;;
  let processing_time := now - start_time in
  lo <- lift (np_min data) ;;
  hi <- lift (np_max data) ;;
  hi' <- lift (np_max data) ;;
  lo' <- lift (np_min data) ;;
  append_result
    {| dataset_size := len data;
       processing_time := processing_time;
       metrics := metrics;
       statistical_tests :=
         {| pearson_correlation := fst pearson;
            pearson_p_value := snd pearson;
            spearman_correlation := fst spearman;
            spearman_p_value := snd spearman;
            ks_statistic := fst ks;
            ks_p_value := snd ks |};
       data_characteristics :=
         {| dc_mean := np_mean data;
            dc_std := np_std data;
            dc_min := lo;
            dc_max := hi;
            dc_range := hi' - lo' |};
       pattern := None;
       size := None |}.

(** **** [run_comprehensive_validation] *)

(** [result['pattern'] = pattern; result['size'] = size] *)
Definition tag (a : ref) (p : string) (n : Z) : M unit :=
  fun w =>
    (Ok tt,
     {| objects :=
          map (fun ir =>
                 if Nat.eqb (fst ir) a
                 then {| dataset_size := dataset_size (snd ir);
                         processing_time := processing_time (snd ir);
                         metrics := metrics (snd ir);
                         statistical_tests := statistical_tests (snd ir);
                         data_characteristics := data_characteristics (snd ir);
                         pattern := Some p;
                         size := Some n |}
                 else snd ir)
              (combine (seq 0 (List.length (objects w))) (objects w));
        suite := suite w;
        ticks := ticks w |}).

(** [d[k] = v] on a dictionary kept in insertion order. *)
Fixpoint dict_set {V} (d : list (string * V)) (k : string) (v : V)
  : list (string * V) :=
  match d with
  | [] => [(k, v)]
  | (k', v') :: rest =>
      if String.eqb k' k then (k', v) :: rest else (k', v') :: dict_set rest k v
  end.

Definition patterns : list string :=
  ["fibonacci"; "golden_ratio"; "prime_modulo"; "random"]%string.

Definition default_sizes : list Z := [1000; 10000; 100000]%Z.

(** The body of the inner loop, [for size in sizes]. *)
Definition validate_pair (pattern : string) (pattern_results : list ref) (size : Z)
  : M (list ref) :=
  self <- get_self ;;
  data <- lift (generate_synthetic_data self size pattern) ;;
  result <- validate_transformation data ;;
  tag result pattern size ;;;
  ret (pattern_results ++ [result]).

Definition run_comprehensive_validation (sizes : option (list Z))
  : M (list (string * list ref)) :=
  let sizes := match sizes with Some l => l | None => default_sizes end in
  for_each patterns
    (fun comprehensive_results pattern =>
       pattern_results <- for_each sizes (validate_pair pattern) [] ;;
       ret (dict_set comprehensive_results pattern pattern_results))
    [].

(** A pair [(pattern, size)] for which, with the transform engine [f], the
    generator returns a dataset that is not empty and the three tests
    return. *)
Definition pair_returns (f : FractalHarmonicTransform) (pattern : string)
    (size : Z) : Prop :=
  exists data,
    generate_synthetic_data {| fht := f; results := [] |} size pattern = Ok data
    /\ data <> []
    /\ (exists x, pearsonr data (transform f data default_amplification) = Ok x)
    /\ (exists x, spearmanr data (transform f data default_amplification) = Ok x)
    /\ (exists x, ks_2samp data (transform f data default_amplification) = Ok x).
(** **** [_organize_results] *)

(** [d.get(k)] and [k in d] on a dictionary kept in insertion order. *)
Fixpoint dict_get {V} (d : list (string * V)) (k : string) : option V :=
  match d with
  | [] => None
  | (k', v) :: rest => if String.eqb k' k then Some v else dict_get rest k
  end.

(** [result.get('pattern', 'unknown')], for the dictionary stored at
    the address [a].  (Every address the code holds was returned by
    [validate_transformation]; an address outside the store is read as a
    dictionary without the key.) *)
Definition get_pattern (w : World) (a : ref) : string :=
  match nth_error (objects w) a with
  | Some r => match pattern r with Some p => p | None => "unknown"%string end
  | None => "unknown"%string
  end.

(** The body of the loop: [if pattern not in organized: organized[pattern] = []]
    and then [organized[pattern].append(result)]. *)
Definition organize_one (w : World) (organized : list (string * list ref))
    (result : ref) : list (string * list ref) :=
  let pattern := get_pattern w result in
  let organized :=
    match dict_get organized pattern with
    | None => dict_set organized pattern []
    | Some _ => organized
    end in
  match dict_get organized pattern with
  | Some l => dict_set organized pattern (l ++ [result])
  | None => organized
  end.

Definition _organize_results : M (list (string * list ref)) :=
  fun w => (Ok (fold_left (organize_one w) (results (suite w)) []), w).
(** **** [generate_report]

    The report is a list of lines joined by newlines.  Of the stored
    dictionaries it reads [metrics], [statistical_tests] and [size]; the
    first two are always there, [size] only once the orchestrator has set
    it, and reading it from a dictionary without it raises [KeyError].
    The pattern names are ASCII: [upper] and [len] are those of ASCII
    strings. *)

Inductive lookup_error : Type :=
| KeyError (key : string).

(** [f"{n}"] for an [int] *)
Definition py_str (n : Z) : string := NilZero.string_of_int (Z.to_int n).

Fixpoint group_thousands (reversed_digits : list ascii) : list ascii :=
  match reversed_digits with
  | a :: b :: c :: ((_ :: _) as rest) =>
      a :: b :: c :: ","%char :: group_thousands rest
  | _ => reversed_digits
  end.

(** [f"{n:,}"] for an [int] *)
Definition py_format_commas (n : Z) : string :=
  let digits := list_ascii_of_string (NilZero.string_of_uint (N.to_uint (Z.abs_N n))) in
  let grouped := string_of_list_ascii (rev (group_thousands (rev digits))) in
  if (n <? 0)%Z then String "-"%char grouped else grouped.

Definition upper_char (c : ascii) : ascii :=
  let n := nat_of_ascii c in
  if Nat.leb 97 n && Nat.leb n 122 then ascii_of_nat (n - 32) else c.

(** [s.upper()] *)
Fixpoint py_upper (s : string) : string :=
  match s with
  | EmptyString => EmptyString
  | String c rest => String (upper_char c) (py_upper rest)
  end.

(** [s * n] *)
Fixpoint str_repeat (s : string) (n : nat) : string :=
  match n with
  | O => EmptyString
  | S k => String.append s (str_repeat s k)
  end.

Definition newline : string := String (ascii_of_nat 10) EmptyString.

(** [result['size']] *)
Definition get_size (w : World) (a : ref) : lookup_error + Z :=
  match nth_error (objects w) a with
  | Some r => match size r with Some n => inr n | None => inl (KeyError "size") end
  | None => inl (KeyError "size")
  end.

(** [[r[field] for r in pattern_results]] for a key that is always there *)
Definition collect {X} (w : World) (field : ValidationRecord -> X)
    (pattern_results : list ref) : list X :=
  flat_map (fun a => match nth_error (objects w) a with
                     | Some r => [field r]
                     | None => []
                     end) pattern_results.

(** [for i, result in enumerate(pattern_results)] *)
Fixpoint detailed_results (w : World) (pattern_results : list ref)
  : lookup_error + list string :=
  match pattern_results with
  | [] => inr []
  | result :: rest =>
      match get_size w result with
      | inl e => inl e
      | inr n =>
          match detailed_results w rest with
          | inl e => inl e
          | inr lines =>
              inr ([String.append "  Size " (String.append (py_format_commas n) ":");
                    ".6f"; ".4f"; ".2f"; EmptyString]%string ++ lines)
          end
      end
  end.

(** [for pattern, pattern_results in results.items()] *)
Fixpoint pattern_sections (w : World) (results : list (string * list ref))
  : lookup_error + list string :=
  match results with
  | [] => inr []
  | (pattern, pattern_results) :: rest =>
      let consciousness_scores :=
        collect w (fun r => consciousness_score (metrics r)) pattern_results in
      let correlations :=
        collect w (fun r => pearson_correlation (statistical_tests r)) pattern_results in
      match detailed_results w pattern_results with
      | inl e => inl e
      | inr detail =>
          match pattern_sections w rest with
          | inl e => inl e
          | inr lines =>
              inr ([String.append "PATTERN: " (py_upper pattern);
                    str_repeat "-" (9 + String.length pattern);
                    ".4f"; ".4f"; EmptyString; "Detailed Results:"]%string
                   ++ detail ++ lines)
          end
      end
  end.

Definition generate_report (results : option (list (string * list ref)))
    (w : World) : lookup_error + string :=
  let results :=
    match results with
    | Some r => r
    | None => match _organize_results w with
              | (inr organized, _) => organized
              | (inl _, _) => []
              end
    end in
  let total_tests :=
    fold_left Z.add (map (fun pr => Z.of_nat (List.length (snd pr))) results) 0%Z in
  let avg_consciousness :=
    np_mean (flat_map (fun pr => collect w (fun r => consciousness_score (metrics r))
                                   (snd pr)) results) in
  match pattern_sections w results with
  | inl e => inl e
  | inr sections =>
      inr (String.concat newline
             ([str_repeat "=" 80;
               "FRACTAL-HARMONIC TRANSFORM VALIDATION REPORT";
               str_repeat "=" 80;
               EmptyString;
               "EXECUTIVE SUMMARY";
               str_repeat "-" 40;
               String.append "Total validation tests run: " (py_str total_tests);
               ".4f";
               EmptyString]%string
              ++ sections
              ++ [str_repeat "=" 80; "END OF REPORT"; str_repeat "=" 80]%string))
  end.
End Validation.
End fht_validation_suite.

(** ** An environment to run the validator in

    [scipy.stats.pearsonr] refuses fewer than two points
    ([ValueError: x and y must have length at least 2.]); this check is
    reproduced.  The numbers the three tests, the clock and the random
    generator return decide nothing in what follows: the tests and the
    generator return zeros, the clock counts its readings. *)

Section Environment.
Context {F : Type} {A : Arith F}.

Definition counting_clock (n : nat) : F := f_of_int (Z.of_nat n).

Definition zeros_uniform (seed : Z) (low high : F) (size : Z) : result (list F) :=
  if (size <? 0)%Z then Raise (ValueError "negative dimensions are not allowed")
  else Ok (repeat (f_of_int 0) (Z.to_nat size)).

Definition pearsonr_checked (x y : list F) : result (F * F) :=
  if (len x <? 2)%Z then Raise (ValueError "x and y must have length at least 2.")
  else Ok (f_of_int 0, f_of_int 0).

Definition test_zero (x y : list F) : result (F * F) :=
  Ok (f_of_int 0, f_of_int 0).

(** The state right after [suite = ValidationSuite()]. *)
Definition fresh : fht_validation_suite.World (F := F) :=
  {| fht_validation_suite.objects := [];
     fht_validation_suite.suite := fht_validation_suite.ValidationSuite_init;
     fht_validation_suite.ticks := 0 |}.
End Environment.

(** ** [mathematical_derivations.py]: the second transform *)

Module mathematical_derivations.
Section Engine.
Context {F : Type} {A : Arith F} {L : Libm F}.
Local Open Scope fl_scope.

Record FractalHarmonicTransform : Type := {
  phi : F;
  alpha : F;
  beta : F;
  epsilon : F;
  stability_weight : F;
  breakthrough_weight : F
}.

(** [__init__(self)] *)
Definition __init__ : FractalHarmonicTransform :=
  let phi := (f_of_int 1 + f_sqrt (f_of_int 5)) / f_of_int 2 in
  {| phi := phi;
     alpha := phi;
     beta := f_of_int 1;
     epsilon := lit 1 (10 ^ 12);
     stability_weight := lit 79 100;
     breakthrough_weight := lit 21 100 |}.

(** The body of [transform] from [np.maximum] on, on an array of floats;
    [transform_call] below is the whole method. *)
Section Transform.
Variable self : FractalHarmonicTransform.

Definition clamped (data : list F) : list F :=
  map (fun x => np_maximum x (epsilon self)) data.

Definition log_term (data : list F) : list F :=
  map (fun x => np_log (x + epsilon self)) (clamped data).

Definition phi_power (data : list F) : list F :=
  map (fun l => np_power (f_abs l) (phi self)) (log_term data).

Definition sign_term (data : list F) : list F :=
  map np_sign (log_term data).

(** [self.alpha * phi_power * sign_term + self.beta]: no amplification *)
Definition raw (data : list F) : list F :=
  map (fun ps => alpha self * fst ps * snd ps + beta self)
      (combine (phi_power data) (sign_term data)).

Definition transform (data : list F) : list F :=
  map (fun r => np_where (f_isnan r || f_isinf r) (beta self) r) (raw data).
End Transform.

(** The whole method [transform(self, data)], from
    [if not isinstance(data, np.ndarray): data = np.array(data, dtype=float)]
    on: every element of a list is turned into a float, as [float] does. *)
Section Call.
Context {C : IntToFloat F}.

Definition transform_call (self : FractalHarmonicTransform) (data : py_data F)
  : call_error + list F :=
  match data with
  | Ndarray a => inr (transform self a)
  | FloatList l => inr (transform self l)
  | IntList l =>
      match float_array l with
      | Some a => inr (transform self a)
      | None => inl OverflowError
      end
  end.
End Call.
End Engine.
End mathematical_derivations.

(** ** The Fibonacci pattern with the checked conversion *)

(** The branch ['fibonacci'] of [ValidationSuite.generate_synthetic_data]
    with that conversion: [None] when
    [np.array(fib[:size], dtype=float)] raises [OverflowError]. *)
Definition fibonacci_pattern {F : Type} {C : IntToFloat F} (size : Z)
  : option (list F) :=
  let fib := fht_validation_suite.fib_while (Z.to_nat size) size [1; 1]%Z in
  float_array (fht_validation_suite.py_prefix fib size).

(** ** [datasets/synthetic_validation_data.py]: the dataset generators

    The generators draw from numpy's global random generator: its state is
    threaded through the calls.  A draw of [n] numbers is [n] successive
    draws (a negative [n] is refused); the numbers drawn, [np.exp],
    [np.sin], [np.pi] and the time stamp are the environment's. *)

Module synthetic_validation_data.
Section Generator.
Context {F : Type} {A : Arith F} {L : Libm F} {C : IntToFloat F}.
Local Open Scope fl_scope.

Variable Rng : Type.
Variable np_random_seed : Z -> Rng.
Variable np_random_normal : F -> F -> Rng -> F * Rng.
Variable np_random_uniform : F -> F -> Rng -> F * Rng.
Variable np_exp : F -> F.
Variable np_sin : F -> F.
Variable np_pi : F.
Variable timestamp_now : string.

(** The exceptions of this module: numpy's [ValueError]s, the [IndexError]
    of an index outside an array, the [ZeroDivisionError] of [%] and the
    [OverflowError] of an integer too large for a float. *)
Inductive error : Type :=
| Value (e : exn)
| IndexError (msg : string)
| ZeroDivisionError (msg : string)
| OverflowError (msg : string).

Definition G (X : Type) : Type := Rng -> (error + X) * Rng.

Definition ret {X} (x : X) : G X := fun rng => (inr x, rng).

Definition raise {X} (e : error) : G X := fun rng => (inl e, rng).

Definition bind {X Y} (m : G X) (k : X -> G Y) : G Y :=
  fun rng => match m rng with
             | (inr x, rng') => k x rng'
             | (inl e, rng') => (inl e, rng')
             end.

Notation "x <- m ;; k" := (bind m (fun x => k))
  (at level 61, m at next level, right associativity).

(** a numpy call of the validation suite's model, which raises
    [ValueError] only *)
Definition numpy {X} (r : result X) : G X :=
  match r with
  | inr x => ret x
  | inl e => raise (Value e)
  end.

(** one draw *)
Definition draw (sample : Rng -> F * Rng) : G F :=
  fun rng => let (x, rng') := sample rng in (inr x, rng').

Fixpoint draws (sample : Rng -> F * Rng) (n : nat) : G (list F) :=
  match n with
  | O => ret []
  | S k => x <- draw sample ;; rest <- draws sample k ;; ret (x :: rest)
  end.

(** [np.random.normal(loc, scale, size)], [np.random.uniform(low, high, size)] *)
Definition draw_array (sample : Rng -> F * Rng) (size : Z) : G (list F) :=
  if (size <? 0)%Z
  then raise (Value (ValueError "negative dimensions are not allowed"))
  else draws sample (Z.to_nat size).

(** [np.zeros(n)] *)
Definition np_zeros (n : Z) : G (list F) :=
  if (n <? 0)%Z
  then raise (Value (ValueError "negative dimensions are not allowed"))
  else ret (repeat (f_of_int 0) (Z.to_nat n)).

(** [np.arange(start, stop)] for integers *)
Definition np_arange (start stop : Z) : list Z :=
  map (fun k => (start + Z.of_nat k)%Z) (seq 0 (Z.to_nat (stop - start))).

(** [a[-1]] *)
Definition last_element (a : list F) : G F :=
  match a with
  | [] => raise (IndexError "index -1 is out of bounds for axis 0 with size 0")
  | x :: rest => ret (last rest x)
  end.

(** [np.array(ints, dtype=float)] *)
Definition np_array_float (ints : list Z) : G (list F) :=
  match float_array ints with
  | Some data => ret data
  | None => raise (OverflowError "int too large to convert to float")
  end.

Record SyntheticDataGenerator : Type := {
  seed : Z;
  phi : F
}.

(** [__init__(self, seed=42)]: the instance, and the state [np.random.seed]
    leaves the generator in. *)
Definition __init__ (seed : Z) : SyntheticDataGenerator * Rng :=
  ({| seed := seed;
      phi := (f_of_int 1 + f_sqrt (f_of_int 5)) / f_of_int 2 |},
   np_random_seed seed).

Definition default_seed : Z := 42.

(** **** The generators *)

Definition generate_fibonacci_sequence (self : SyntheticDataGenerator)
    (length : Z) : G (list F) :=
  if (length <=? 0)%Z then ret []
  else
    let sequence :=
      fht_validation_suite.fib_while (Z.to_nat length) length [1; 1]%Z in
    np_array_float (fht_validation_suite.py_prefix sequence length).

Definition generate_golden_ratio_sequence (self : SyntheticDataGenerator)
    (length : Z) : G (list F) :=
  let powers := np_arange 1 (length + 1) in
  ret (map (fun power => np_power (phi self) (f_of_int power)) powers).

(** [_generate_primes]: the sieve of the validation suite, up to another
    bound. *)
Definition _generate_primes (self : SyntheticDataGenerator) (n : Z)
  : result (list Z) :=
  if (n <=? 0)%Z then Ok []
  else
    match (if (n <? 10)%Z
           then Ok 30%Z
           else fht_validation_suite.py_int
                  (f_of_int n * np_log (f_of_int n)
                   + f_of_int n * np_log (np_log (f_of_int n)))) with
    | inl e => Raise e
    | inr upper_bound =>
        match fht_validation_suite.py_int (f_sqrt (f_of_int upper_bound)) with
        | inl e => Raise e
        | inr root =>
            let sieve0 :=
              fht_validation_suite.clear_at
                (fht_validation_suite.clear_at
                   (repeat true (Z.to_nat (upper_bound + 1))) 0) 1 in
            let sieve :=
              fold_left
                (fun sieve i =>
                   if nth (Z.to_nat i) sieve false
                   then fold_left
                          (fun s j => fht_validation_suite.clear_at s (Z.to_nat j))
                          (fht_validation_suite.py_range3 (i * i) (upper_bound + 1) i)
                          sieve
                   else sieve)
                (fht_validation_suite.py_range3 2 (root + 1) 1) sieve0 in
            let primes :=
              map fst (filter snd
                (combine
                   (fht_validation_suite.py_range (Z.of_nat (List.length sieve)))
                   sieve)) in
            Ok (fht_validation_suite.py_prefix primes n)
        end
    end.

Definition default_modulo : Z := 100.

(** [prime % modulo] on Python integers *)
Definition py_mod (a b : Z) : error + Z :=
  if (b =? 0)%Z then inl (ZeroDivisionError "integer modulo by zero")
  else inr (a mod b)%Z.

Fixpoint residues (primes : list Z) (modulo : Z) : error + list Z :=
  match primes with
  | [] => inr []
  | prime :: rest =>
      match py_mod prime modulo with
      | inl e => inl e
      | inr r =>
          match residues rest modulo with
          | inl e => inl e
          | inr rs => inr (r :: rs)
          end
      end
  end.

Definition generate_prime_modulo_sequence (self : SyntheticDataGenerator)
    (length modulo : Z) : G (list F) :=
  primes <- numpy (_generate_primes self (length * 3)) ;;
  match residues (fht_validation_suite.py_prefix primes length) modulo with
  | inl e => raise e
  | inr rs => np_array_float rs
  end.

Definition generate_logarithmic_sequence (self : SyntheticDataGenerator)
    (length : Z) : G (list F) :=
  x_values <- numpy (fht_validation_suite.np_linspace (lit 1 10) (f_of_int 100) length) ;;
  ret (map np_log x_values).

Definition generate_exponential_sequence (self : SyntheticDataGenerator)
    (length : Z) : G (list F) :=
  x_values <- numpy (fht_validation_suite.np_linspace (lit 1 10) (f_of_int 5) length) ;;
  ret (map np_exp x_values).

(** [for i, coeff in enumerate(coefficients): result += coeff * (x_values ** i)] *)
Fixpoint add_terms (x_values : list F) (i : Z) (coefficients result : list F)
  : list F :=
  match coefficients with
  | [] => result
  | coeff :: rest =>
      add_terms x_values (i + 1) rest
        (map (fun rx => fst rx + coeff * np_power (snd rx) (f_of_int i))
             (combine result x_values))
  end.

Definition default_degree : Z := 3.

Definition generate_polynomial_sequence (self : SyntheticDataGenerator)
    (length degree : Z) : G (list F) :=
  x_values <- numpy (fht_validation_suite.np_linspace (f_of_int (-5)) (f_of_int 5) length) ;;
  coefficients <-
    draw_array (np_random_uniform (f_of_int (-2)) (f_of_int 2)) (degree + 1) ;;
  result <- np_zeros length ;;
  ret (add_terms x_values 0 coefficients result).

Definition default_frequency : F := f_of_int 1.

Definition generate_sinusoidal_sequence (self : SyntheticDataGenerator)
    (length : Z) (frequency : F) : G (list F) :=
  x_values <-
    numpy (fht_validation_suite.np_linspace (f_of_int 0) (f_of_int 4 * np_pi) length) ;;
  ret (map (fun x => np_sin (frequency * x)) x_values).

(** The inner loop of [generate_fractal_sequence]: each element but the
    last, followed by the midpoint to its successor, shifted by a draw. *)
Fixpoint interpolate (sequence : list F) : G (list F) :=
  match sequence with
  | x :: ((y :: _) as rest) =>
      variation <- draw (np_random_normal (f_of_int 0) (lit 1 10)) ;;
      new_sequence <- interpolate rest ;;
      ret (x :: ((x + y) / f_of_int 2 + variation) :: new_sequence)
  | _ => ret []
  end.

(** One turn of the outer loop. *)
Definition refine (length : Z) (sequence : list F) : G (list F) :=
  new_sequence <- interpolate sequence ;;
  final <- last_element sequence ;;
  let sequence := new_sequence ++ [final] in
  ret (if (length <? len sequence)%Z
       then fht_validation_suite.py_prefix sequence length
       else sequence).

Fixpoint refinements (iterations : nat) (length : Z) (sequence : list F)
  : G (list F) :=
  match iterations with
  | O => ret sequence
  | S k => sequence <- refine length sequence ;; refinements k length sequence
  end.

Definition default_iterations : Z := 5.

Definition generate_fractal_sequence (self : SyntheticDataGenerator)
    (length iterations : Z) : G (list F) :=
  sequence <- refinements (Z.to_nat iterations) length [f_of_int 1] ;;
  if (len sequence <? length)%Z
  then final <- last_element sequence ;;
       ret (sequence ++ repeat final (Z.to_nat (length - len sequence)))
  else ret sequence.

(** [a += b] on two arrays of one shape *)
Definition add_arrays (a b : list F) : list F :=
  map (fun xy => fst xy + snd xy) (combine a b).

Definition generate_quantum_inspired_sequence (self : SyntheticDataGenerator)
    (length : Z) : G (list F) :=
  let n_values := np_arange 0 length in
  let energies :=
    map (fun n => (f_of_int n + lit 1 2) * f_of_int 2 * np_pi) n_values in
  fluctuations <- draw_array (np_random_normal (f_of_int 0) (lit 1 10)) length ;;
  ret (add_arrays energies fluctuations).

(** [for i in range(1, length)], from [population[i - 1]]. *)
Fixpoint grow (steps : nat) (previous : F) : G (list F) :=
  match steps with
  | O => ret []
  | S k =>
      let r := lit 1 10 in
      let K := f_of_int 100 in
      let growth := r * previous * (f_of_int 1 - previous / K) in
      let current := previous + growth in
      noise <- draw (np_random_normal (f_of_int 0) (lit 5 100)) ;;
      let current := current + noise in
      rest <- grow k current ;;
      ret (current :: rest)
  end.

Definition generate_biological_sequence (self : SyntheticDataGenerator)
    (length : Z) : G (list F) :=
  population <- np_zeros length ;;
  match population with
  | [] => raise (IndexError "index 0 is out of bounds for axis 0 with size 0")
  | _ :: _ =>
      rest <- grow (Z.to_nat (length - 1)) (f_of_int 1) ;;
      ret (f_of_int 1 :: rest)
  end.
(** **** [generate_validation_suite] *)

Record DatasetInfo : Type := {
  ds_data : list F;
  ds_size : Z;
  ds_mean : F;
  ds_std : F;
  ds_min : F;
  ds_max : F
}.

Record Metadata : Type := {
  description : string;
  warning : string;
  generator_seed : Z;
  generation_date : string;
  license : string
}.

Record ValidationSuite : Type := {
  metadata : Metadata;
  datasets : list (string * list (string * DatasetInfo))
}.

(** The dictionary stored for one dataset; [np.min] and [np.max] refuse an
    empty array. *)
Definition describe (data : list F) : G DatasetInfo :=
  lo <- numpy (fht_validation_suite.np_min data) ;;
  hi <- numpy (fht_validation_suite.np_max data) ;;
  ret {| ds_data := data;
         ds_size := len data;
         ds_mean := np_mean data;
         ds_std := np_std data;
         ds_min := lo;
         ds_max := hi |}.

Definition dataset_types (self : SyntheticDataGenerator)
  : list (string * (Z -> G (list F))) :=
  [("fibonacci"%string, generate_fibonacci_sequence self);
   ("golden_ratio"%string, generate_golden_ratio_sequence self);
   ("prime_modulo"%string,
    fun size => generate_prime_modulo_sequence self size default_modulo);
   ("logarithmic"%string, generate_logarithmic_sequence self);
   ("exponential"%string, generate_exponential_sequence self);
   ("polynomial"%string, fun size => generate_polynomial_sequence self size 3);
   ("sinusoidal"%string,
    fun size => generate_sinusoidal_sequence self size default_frequency);
   ("fractal"%string,
    fun size => generate_fractal_sequence self size default_iterations);
   ("quantum_inspired"%string, generate_quantum_inspired_sequence self);
   ("biological"%string, generate_biological_sequence self)].

(** [f'size_{size}'] *)
Definition size_key (size : Z) : string :=
  String.append "size_" (fht_validation_suite.py_str size).

(** The body of the inner loop: [try: ... except Exception: ...].  What
    the generator has drawn before it raises stays drawn. *)
Definition generate_entry (generator_func : Z -> G (list F))
    (entries : list (string * DatasetInfo)) (size : Z)
  : Rng -> list (string * DatasetInfo) * Rng :=
  fun rng =>
    match (data <- generator_func size ;; describe data) rng with
    | (inr info, rng') =>
        (fht_validation_suite.dict_set entries (size_key size) info, rng')
    | (inl _, rng') => (entries, rng')
    end.

(** [for size in sizes] *)
Fixpoint for_sizes (generator_func : Z -> G (list F)) (sizes : list Z)
    (entries : list (string * DatasetInfo))
  : Rng -> list (string * DatasetInfo) * Rng :=
  fun rng =>
    match sizes with
    | [] => (entries, rng)
    | size :: rest =>
        let (entries, rng) := generate_entry generator_func entries size rng in
        for_sizes generator_func rest entries rng
    end.

(** [for dataset_name, generator_func in dataset_types.items()] *)
Fixpoint for_types (types : list (string * (Z -> G (list F)))) (sizes : list Z)
    (datasets : list (string * list (string * DatasetInfo)))
  : Rng -> list (string * list (string * DatasetInfo)) * Rng :=
  fun rng =>
    match types with
    | [] => (datasets, rng)
    | (dataset_name, generator_func) :: rest =>
        let (entries, rng) := for_sizes generator_func sizes [] rng in
        for_types rest sizes
          (fht_validation_suite.dict_set datasets dataset_name entries) rng
    end.

Definition default_sizes : list Z := [1000; 10000; 100000]%Z.

Definition generate_validation_suite (self : SyntheticDataGenerator)
    (sizes : option (list Z)) : Rng -> ValidationSuite * Rng :=
  fun rng =>
    let sizes := match sizes with Some l => l | None => default_sizes end in
    let metadata :=
      {| description := "Synthetic validation datasets for FHT research";
         warning := "These are synthetic datasets for educational purposes only";
         generator_seed := seed self;
         generation_date := timestamp_now;
         license := "Creative Commons Attribution-ShareAlike 4.0 International" |} in
    let (datasets, rng) := for_types (dataset_types self) sizes [] rng in
    ({| metadata := metadata; datasets := datasets |}, rng).
End Generator.
End synthetic_validation_data.

(** ** The instance [binary64]: the machine's numbers *)

Module Binary64.
Definition of_int (z : Z) : float :=
  match z with
  | Z0 => PrimFloat.zero
  | Zpos _ => PrimFloat.of_uint63 (Uint63.of_Z z)
  | Zneg p => PrimFloat.opp (PrimFloat.of_uint63 (Uint63.of_Z (Zpos p)))
  end.

Definition to_int (x : float) : option Z :=
  match Prim2SF x with
  | S754_zero _ => Some 0%Z
  | S754_finite s m e =>
      let a := match e with
               | Zneg k => (Zpos m / 2 ^ Zpos k)%Z
               | _ => (Zpos m * 2 ^ e)%Z
               end in
      Some (if s then (- a)%Z else a)
  | _ => None
  end.

(** NaN, or a number whose sign bit is clear. *)
Definition sf_signless (x : spec_float) : bool :=
  match x with
  | S754_nan => true
  | S754_zero s | S754_infinity s | S754_finite s _ _ => negb s
  end.

Definition signless (x : float) : bool := sf_signless (Prim2SF x).

(** A number of the closed interval [lo, hi]; NaN is in no interval. *)
Definition between (lo hi x : float) : bool :=
  PrimFloat.leb lo x && PrimFloat.leb x hi.
End Binary64.

(** *** A software [log] and [power] for binary64

    numpy hands [np.log] and [np.power] to the platform's mathematical
    library, which is not part of the repository.  The two functions below
    are a plain software version (argument reduction and a truncated series),
    good to about fourteen significant digits; they serve to run the
    transform on machine numbers where only the magnitude of the result
    matters. *)

Module SoftLibm.
Local Open Scope float_scope.

Definition ln2 : float := 0x1.62e42fefa39efp-1.
Definition sqrt_half : float := 0x1.6a09e667f3bcdp-1.

(** [s + s^3/3 + s^5/5 + ...], [n] terms *)
Fixpoint atanh_series (n : nat) (s2 : float) (k : Z) (term acc : float) : float :=
  match n with
  | O => acc
  | S n' => atanh_series n' s2 (k + 2) (term * s2) (acc + term / Binary64.of_int k)
  end.

Definition log (x : float) : float :=
  if is_nan x then x
  else if x <? 0 then nan
  else if x =? 0 then neg_infinity
  else if is_infinity x then x
  else
    let (m, e) := Z.frexp x in
    let (m, e) := if m <? sqrt_half then (m * 2, (e - 1)%Z) else (m, e) in
    let f := m - 1 in
    let s := f / (2 + f) in
    Binary64.of_int e * ln2 + 2 * atanh_series 14 (s * s) 1 s 0.

(** [1 + r + r^2/2! + ...], [n] terms *)
Fixpoint exp_series (n : nat) (r : float) (k : Z) (term acc : float) : float :=
  match n with
  | O => acc
  | S n' => exp_series n' r (k + 1) (term * r / Binary64.of_int k) (acc + term)
  end.

Definition exp (y : float) : float :=
  if is_nan y then y
  else if 710 <? y then infinity
  else if y <? -746 then 0
  else
    let q := y / ln2 + (if y <? 0 then -0.5 else 0.5) in
    let k := match Binary64.to_int q with Some k => k | None => 0%Z end in
    let r := y - Binary64.of_int k * ln2 in
    Z.ldexp (exp_series 22 r 1 1 0) k.

Definition power (x y : float) : float :=
  if y =? 0 then 1
  else if x =? 1 then 1
  else if is_nan x || is_nan y then nan
  else if x <? 0 then nan
  else if x =? 0 then (if 0 <? y then 0 else infinity)
  else exp (y * log x).
End SoftLibm.

Definition soft_libm : Libm float := {|
  np_log := SoftLibm.log;
  np_power := SoftLibm.power
|}.

(** Python ints are converted exactly up to [2^53] and rounded up to [2^63];
    larger ones are outside this instance. *)
#[export] Instance binary64 : Arith float := {|
  f_add := PrimFloat.add;
  f_sub := PrimFloat.sub;
  f_mul := PrimFloat.mul;
  f_div := PrimFloat.div;
  f_sqrt := PrimFloat.sqrt;
  f_abs := PrimFloat.abs;
  f_ltb := PrimFloat.ltb;
  f_leb := PrimFloat.leb;
  f_eqb := PrimFloat.eqb;
  f_isnan := PrimFloat.is_nan;
  f_isinf := PrimFloat.is_infinity;
  f_of_int := Binary64.of_int;
  f_to_int := Binary64.to_int
|}.

(** ** The instance [ieee]: exact arithmetic with the IEEE special values *)

Inductive ieee : Type :=
| Fin (r : R)
| Inf_pos
| Inf_neg
| Nan.

Module Exact.
Local Open Scope R_scope.

(** The sign of a real, as a comparison with zero. *)
Definition Rsgn (r : R) : comparison :=
  match total_order_T r 0 with
  | inleft (left _) => Lt
  | inleft (right _) => Eq
  | inright _ => Gt
  end.

Definition Rltb (a b : R) : bool := if Rlt_dec a b then true else false.
Definition Reqb (a b : R) : bool := if Req_dec_T a b then true else false.

Definition neg (x : ieee) : ieee :=
  match x with
  | Fin a => Fin (- a)
  | Inf_pos => Inf_neg
  | Inf_neg => Inf_pos
  | Nan => Nan
  end.

Definition add (x y : ieee) : ieee :=
  match x, y with
  | Nan, _ | _, Nan => Nan
  | Fin a, Fin b => Fin (a + b)
  | Inf_pos, Inf_neg | Inf_neg, Inf_pos => Nan
  | Inf_pos, _ | _, Inf_pos => Inf_pos
  | Inf_neg, _ | _, Inf_neg => Inf_neg
  end.

Definition sub (x y : ieee) : ieee := add x (neg y).

(** An infinity times (or divided by) a number of the given sign. *)
Definition scale_inf (x : ieee) (s : comparison) : ieee :=
  match s with
  | Gt => x
  | Lt => neg x
  | Eq => Nan
  end.

Definition mul (x y : ieee) : ieee :=
  match x, y with
  | Nan, _ | _, Nan => Nan
  | Fin a, Fin b => Fin (a * b)
  | Fin a, i => scale_inf i (Rsgn a)
  | i, Fin b => scale_inf i (Rsgn b)
  | Inf_pos, Inf_pos | Inf_neg, Inf_neg => Inf_pos
  | Inf_pos, Inf_neg | Inf_neg, Inf_pos => Inf_neg
  end.

(** Zero is the positive zero: [a / 0] has the sign of [a], [0 / 0] is NaN,
    and an infinity divided by zero keeps its sign. *)
Definition div (x y : ieee) : ieee :=
  match x, y with
  | Nan, _ | _, Nan => Nan
  | Fin a, Fin b =>
      match Rsgn b with
      | Eq => scale_inf Inf_pos (Rsgn a)
      | _ => Fin (a / b)
      end
  | Fin _, _ => Fin 0
  | i, Fin b =>
      match Rsgn b with
      | Lt => neg i
      | _ => i
      end
  | _, _ => Nan
  end.

Definition sqrt (x : ieee) : ieee :=
  match x with
  | Fin a => if Rltb a 0 then Nan else Fin (R_sqrt.sqrt a)
  | Inf_pos => Inf_pos
  | Inf_neg | Nan => Nan
  end.

Definition abs (x : ieee) : ieee :=
  match x with
  | Fin a => Fin (Rabs a)
  | Inf_pos | Inf_neg => Inf_pos
  | Nan => Nan
  end.

Definition ltb (x y : ieee) : bool :=
  match x, y with
  | Nan, _ | _, Nan => false
  | Fin a, Fin b => Rltb a b
  | _, Inf_neg => false
  | Inf_pos, _ => false
  | _, _ => true
  end.

Definition eqb (x y : ieee) : bool :=
  match x, y with
  | Fin a, Fin b => Reqb a b
  | Inf_pos, Inf_pos | Inf_neg, Inf_neg => true
  | _, _ => false
  end.

Definition leb (x y : ieee) : bool := ltb x y || eqb x y.

Definition isnan (x : ieee) : bool :=
  match x with Nan => true | _ => false end.

Definition isinf (x : ieee) : bool :=
  match x with Inf_pos | Inf_neg => true | _ => false end.

Definition of_int (z : Z) : ieee := Fin (IZR z).

Definition to_int (x : ieee) : option Z :=
  match x with
  | Fin a => Some (if Rltb a 0 then (- Int_part (- a))%Z else Int_part a)
  | _ => None
  end.

(** [np.log]: [-oo] at zero, NaN below. *)
Definition log (x : ieee) : ieee :=
  match x with
  | Fin a =>
      match Rsgn a with
      | Gt => Fin (ln a)
      | Eq => Inf_neg
      | Lt => Nan
      end
  | Inf_pos => Inf_pos
  | Inf_neg | Nan => Nan
  end.

(** [np.power] on a base that is not negative, which is all the code
    raises to a power (an absolute value, or the golden ratio):
    [x ** 0 = 1] and [1 ** y = 1] whatever the other argument is; a
    negative base gives NaN, as it does for an exponent that is not an
    integer. *)
Definition power (x y : ieee) : ieee :=
  match x, y with
  | _, Fin e =>
      match Rsgn e with
      | Eq => Fin 1
      | se =>
          match x with
          | Fin b =>
              match Rsgn b with
              | Gt => Fin (Rpower b e)
              | Eq => match se with Gt => Fin 0 | _ => Inf_pos end
              | Lt => Nan
              end
          | Inf_pos => match se with Gt => Inf_pos | _ => Fin 0 end
          | Inf_neg | Nan => Nan
          end
      end
  | Fin b, i =>
      if Reqb b 1 then Fin 1
      else if Rltb b 0 then Nan
      else if Rltb b 1
           then match i with Inf_pos => Fin 0 | Inf_neg => Inf_pos | _ => Nan end
           else match i with Inf_pos => Inf_pos | Inf_neg => Fin 0 | _ => Nan end
  | Inf_pos, Inf_pos => Inf_pos
  | Inf_pos, Inf_neg => Fin 0
  | _, _ => Nan
  end.

(** The default parameters and the value the transform takes on an input
    clamped to [epsilon], as real numbers. *)
Definition eps_R : R := 1 / IZR (10 ^ 12).
Definition phi_R : R := (1 + R_sqrt.sqrt 5) / 2.
Definition floor_log : R := ln (eps_R + eps_R).
Definition floor_value : R :=
  phi_R * Rpower (Rabs floor_log) phi_R * (-1) * 1 + 1.
End Exact.

#[export] Instance exact : Arith ieee := {|
  f_add := Exact.add;
  f_sub := Exact.sub;
  f_mul := Exact.mul;
  f_div := Exact.div;
  f_sqrt := Exact.sqrt;
  f_abs := Exact.abs;
  f_ltb := Exact.ltb;
  f_leb := Exact.leb;
  f_eqb := Exact.eqb;
  f_isnan := Exact.isnan;
  f_isinf := Exact.isinf;
  f_of_int := Exact.of_int;
  f_to_int := Exact.to_int
|}.

(** ** The scores as the specification words them, over the reals *)

Module Spec.
Local Open Scope R_scope.

Definition Rsum (l : list R) : R := fold_right Rplus 0 l.

Definition Rmean (l : list R) : R := Rsum l / INR (List.length l).

(** Population standard deviation. *)
Definition Rstd (l : list R) : R :=
  R_sqrt.sqrt (Rsum (map (fun x => (x - Rmean l) * (x - Rmean l)) l)
               / INR (List.length l)).

(** [sum(|t| for t in transformed) / (len(original) * 4)] *)
Definition stability (n : nat) (transformed : list R) : R :=
  Rsum (map Rabs transformed) / (INR n * 4).

(** [stddev(transformed) / mean(|t|)] when the mean is positive, else 0 *)
Definition breakthrough (transformed : list R) : R :=
  if Rlt_dec 0 (Rmean (map Rabs transformed))
  then Rstd transformed / Rmean (map Rabs transformed)
  else 0.

(** Sum of the squared deviations from the mean: zero exactly when the
    sequence is constant. *)
Definition squared_deviations (l : list R) : R :=
  Rsum (map (fun x => (x - Rmean l) * (x - Rmean l)) l).

(** [min(1.0, 0.79 * stability_score + 0.21 * breakthrough_score)] *)
Definition consciousness (n : nat) (transformed : list R) : R :=
  Rmin 1 (79 / 100 * stability n transformed + 21 / 100 * breakthrough transformed).
End Spec.

#[export] Instance exact_libm : Libm ieee := {|
  np_log := Exact.log;
  np_power := Exact.power
|}.

(** ** The checked conversion of integers, in the two arithmetics

    On binary64 [float(int)] rounds to the nearest float, ties to even, and
    raises [OverflowError] from [2^1024 - 2^970] on, half way between the
    largest float and [2^1024].  Exact arithmetic has no largest number. *)

Definition overflow_threshold : Z := 2 ^ 1024 - 2 ^ 970.

Definition binary64_checked_of_int (z : Z) : option float :=
  if (Z.abs z <? 2 ^ 63)%Z then Some (Binary64.of_int z)
  else if (Z.abs z <? overflow_threshold)%Z
       then Some (SF2Prim (binary_normalize prec emax z 0 false))
       else None.

#[export] Instance binary64_int : IntToFloat float := {|
  checked_of_int := binary64_checked_of_int
|}.

#[export] Instance exact_int : IntToFloat ieee := {|
  checked_of_int := fun z => Some (Exact.of_int z)
|}.

(** ** Notions used to state what the generators return *)

(** The Fibonacci numbers 1, 1, 2, 3, 5, ..., each paired with its
    successor. *)
Fixpoint fibonacci_pair (k : nat) : Z * Z :=
  match k with
  | O => (1, 1)%Z
  | S k' => let (a, b) := fibonacci_pair k' in (b, (a + b)%Z)
  end.

Definition fibonacci (k : nat) : Z := fst (fibonacci_pair k).

(** [l] lists, in increasing order and without a gap, the smallest primes,
    at most [n] of them. *)
Definition first_primes (n : Z) (l : list Z) : Prop :=
  (Z.of_nat (List.length l) <= Z.max 0 n)%Z
  /\ StronglySorted Z.lt l
  /\ (forall p, In p l -> Z.prime p)
  /\ (forall p q, In p l -> Z.prime q -> (q < p)%Z -> In q l).

(** The entry of index [k] of a sieve. *)
Definition marked (s : list bool) (k : Z) : bool := nth (Z.to_nat k) s false.

(** What the sieve holds once the outer loop has dealt with every [i] below
    [m]: the numbers from 2 to [ub] that no such [i] with [i * i <= k]
    divides. *)
Definition sieved (ub m : Z) (s : list bool) : Prop :=
  forall k, (0 <= k)%Z ->
    (marked s k = true
     <-> (2 <= k <= ub)%Z
         /\ forall i, (2 <= i < m)%Z -> (i * i <= k)%Z -> ~ (i | k)%Z).

(** The body of the outer loop of [_generate_primes]. *)
Definition sieve_step (ub : Z) (sieve : list bool) (i : Z) : list bool :=
  if nth (Z.to_nat i) sieve false
  then fold_left (fun s j => fht_validation_suite.clear_at s (Z.to_nat j))
         (fht_validation_suite.py_range3 (i * i) (ub + 1) i) sieve
  else sieve.

(** ** Notions used to state what the organiser and the report do *)

(** The record at the address [a] falls under the pattern [p]. *)
Definition same_pattern {F : Type} (w : fht_validation_suite.World (F := F))
    (p : string) (a : fht_validation_suite.ref) : bool :=
  String.eqb (fht_validation_suite.get_pattern w a) p.

(** The dictionary [organized] once the loop of [_organize_results] has gone
    through the records [done]: its keys are distinct, and each pattern is
    bound to the records of [done] that fall under it, in their order, or
    is no key when there is none. *)
Definition organized_upto {F : Type} (w : fht_validation_suite.World (F := F))
    (done : list fht_validation_suite.ref)
    (d : list (string * list fht_validation_suite.ref)) : Prop :=
  NoDup (map fst d)
  /\ forall p,
       fht_validation_suite.dict_get d p
       = match filter (same_pattern w p) done with
         | [] => None
         | g => Some g
         end.

(** What the report reads of a suite result: the pattern names and, of each
    record, its ['size']. *)
Definition report_input {F : Type} (w : fht_validation_suite.World (F := F))
    (res : list (string * list fht_validation_suite.ref))
  : list (string * list (fht_validation_suite.lookup_error + Z)) :=
  map (fun pr => (fst pr, map (fht_validation_suite.get_size w) (snd pr))) res.

(** The record at the address [a] has the key ['size']. *)
Definition has_size {F : Type} (w : fht_validation_suite.World (F := F))
    (a : fht_validation_suite.ref) : Prop :=
  exists n, fht_validation_suite.get_size w a = inr n.

(** ** The signed power of the transform, over the reals *)

(** [sign(l) * |l| ** phi] *)
Definition signed_power (l : R) : R :=
  match Exact.Rsgn l with
  | Gt => Rpower l Exact.phi_R
  | Eq => 0%R
  | Lt => (- Rpower (- l) Exact.phi_R)%R
  end.

(** ** Notions used to state what a dataset generator does *)

(** Whatever the state of the random generator, [g] returns [n] values. *)
Definition yields {F Rng : Type} (g : synthetic_validation_data.G Rng (list F))
    (n : nat) : Prop :=
  forall rng, exists data rng', g rng = (inr data, rng') /\ List.length data = n.

(** Whatever the state of the random generator, [g] raises or returns the
    empty array. *)
Definition fails_or_empty {F Rng : Type}
    (g : synthetic_validation_data.G Rng (list F)) : Prop :=
  forall rng,
    (exists e rng', g rng = (inl e, rng')) \/ (exists rng', g rng = (inr [], rng')).

(** An entry of the dictionary of one dataset type: it holds a dataset that
    is not empty, which the generator has returned for one of the sizes. *)
Definition entry_of {F Rng : Type}
    (generator_func : Z -> synthetic_validation_data.G Rng (list F))
    (sizes : list Z) (key : string)
    (info : synthetic_validation_data.DatasetInfo (F := F)) : Prop :=
  synthetic_validation_data.ds_data info <> []
  /\ synthetic_validation_data.ds_size info
     = len (synthetic_validation_data.ds_data info)
  /\ exists n rng rng',
       In n sizes /\ key = synthetic_validation_data.size_key n
       /\ generator_func n rng = (inr (synthetic_validation_data.ds_data info), rng').

(** The dictionary of one dataset type has, for the size [n], an entry of
    [m] values. *)
Definition has_entry {F : Type}
    (entries : list (string * synthetic_validation_data.DatasetInfo (F := F)))
    (n : Z) (m : nat) : Prop :=
  exists info,
    fht_validation_suite.dict_get entries (synthetic_validation_data.size_key n)
    = Some info
    /\ synthetic_validation_data.ds_size info = Z.of_nat m
    /\ List.length (synthetic_validation_data.ds_data info) = m.

(** * Properties *)

Import fht_validation_suite.

(** ** The transform engine *)

Section TransformFacts.
Context {F : Type} {A : Arith F} {L : Libm F}.
Local Open Scope fl_scope.

Lemma transform_length (self : FractalHarmonicTransform) data amplification :
  List.length (transform self data amplification) = List.length data.
Proof.
  unfold transform, raw, phi_power, sign_term, log_term, clamped.
  rewrite !length_map, length_combine, !length_map. apply Nat.min_id.
Qed.

Lemma raw_map (self : FractalHarmonicTransform) data amplification :
  raw self amplification data = map (raw1 self amplification) data.
Proof.
  unfold raw, phi_power, sign_term, log_term, clamped, raw1.
  induction data as [|x data IH]; simpl; [reflexivity|].
  f_equal. exact IH.
Qed.

Lemma transform_map (self : FractalHarmonicTransform) data amplification :
  transform self data amplification = map (transform1 self amplification) data.
Proof.
  unfold transform. rewrite raw_map, map_map. reflexivity.
Qed.
End TransformFacts.

(** ** Exact arithmetic: how the operations compute on finite values *)

Section ExactFacts.
Import Exact.
Local Open Scope R_scope.

Lemma Rsgn_pos r : 0 < r -> Rsgn r = Gt.
Proof.
  intros H. unfold Rsgn. destruct (total_order_T r 0) as [[H1|H1]|H1]; auto; lra.
Qed.

Lemma Rltb_true a b : a < b -> Rltb a b = true.
Proof. intros H. unfold Rltb. destruct (Rlt_dec a b); auto; contradiction. Qed.

Lemma Rltb_false a b : b <= a -> Rltb a b = false.
Proof. intros H. unfold Rltb. destruct (Rlt_dec a b); auto; lra. Qed.

Lemma Rltb_spec a b : Rltb a b = true <-> a < b.
Proof. unfold Rltb. destruct (Rlt_dec a b); split; auto; discriminate. Qed.

Lemma Reqb_false a b : a <> b -> Reqb a b = false.
Proof. intros H. unfold Reqb. destruct (Req_dec_T a b); auto; contradiction. Qed.

Lemma eps_R_pos : 0 < eps_R.
Proof.
  unfold eps_R. change (10 ^ 12)%Z with 1000000000000%Z. lra.
Qed.

Lemma eps_R_small : eps_R + eps_R < / 3.
Proof.
  unfold eps_R. change (10 ^ 12)%Z with 1000000000000%Z. lra.
Qed.

Lemma sqrt5_bounds : 2 < R_sqrt.sqrt 5 < 3.
Proof.
  split.
  - replace 2 with (R_sqrt.sqrt 4).
    + apply sqrt_lt_1; lra.
    + replace 4 with (2 * 2) by lra. apply sqrt_square; lra.
  - replace 3 with (R_sqrt.sqrt 9).
    + apply sqrt_lt_1; lra.
    + replace 9 with (3 * 3) by lra. apply sqrt_square; lra.
Qed.

Lemma phi_R_bounds : 1 < phi_R < 2.
Proof. unfold phi_R. pose proof sqrt5_bounds. lra. Qed.

(** [ln (2e-12) < -1]: the clamped input lies far below [1 / e]. *)
Lemma floor_log_lt : floor_log < -1.
Proof.
  unfold floor_log.
  assert (H3 : eps_R + eps_R < exp (Ropp 1)).
  { apply Rlt_le_trans with (/ 3); [apply eps_R_small|].
    rewrite exp_Ropp. apply Rinv_le_contravar; [apply exp_pos|apply exp_le_3]. }
  replace (-1) with (ln (exp (Ropp 1))) by (rewrite ln_exp; lra).
  apply ln_increasing; [|exact H3].
  pose proof eps_R_pos. lra.
Qed.

Lemma floor_abs_gt : 1 < Rabs floor_log.
Proof.
  pose proof floor_log_lt. rewrite Rabs_left by lra. lra.
Qed.

Lemma Rpower_gt_1 c e : 1 < c -> 0 < e -> 1 < Rpower c e.
Proof.
  intros Hc He. unfold Rpower. rewrite <- exp_0.
  apply exp_increasing. apply Rmult_lt_0_compat; [exact He|].
  rewrite <- ln_1. apply ln_increasing; lra.
Qed.


Lemma floor_value_neg : floor_value < 0.
Proof.
  unfold floor_value.
  pose proof phi_R_bounds as Hphi.
  assert (H : 1 < Rpower (Rabs floor_log) phi_R).
  { apply Rpower_gt_1; [apply floor_abs_gt|lra]. }
  nra.
Qed.
End ExactFacts.

(** ** Exact arithmetic: the transform on the default instance *)

Section ExactTransform.
Import Exact.
Local Open Scope R_scope.

Lemma exact_golden_ratio : golden_ratio (F := ieee) = Fin phi_R.
Proof.
  unfold golden_ratio, phi_R. simpl. unfold of_int.
  rewrite Rltb_false by lra. simpl.
  rewrite (Rsgn_pos 2) by lra. reflexivity.
Qed.

Lemma exact_default_epsilon : default_epsilon (F := ieee) = Fin eps_R.
Proof.
  unfold default_epsilon, lit, eps_R. simpl. unfold of_int.
  rewrite Rsgn_pos; [reflexivity|].
  change (10 ^ 12)%Z with 1000000000000%Z. lra.
Qed.

Lemma exact_clamp_below x e :
  f_ltb x (Fin e) = true -> np_maximum x (Fin e) = Fin e.
Proof.
  unfold np_maximum. simpl. destruct x as [a| | |]; simpl; try discriminate.
  - intros H. apply Rltb_spec in H. unfold leb. simpl.
    rewrite Rltb_false by lra. rewrite Reqb_false by lra. reflexivity.
  - reflexivity.
Qed.

Lemma exact_log_pos a : 0 < a -> np_log (Fin a) = Fin (ln a).
Proof. intros H. simpl. rewrite Rsgn_pos by exact H. reflexivity. Qed.

Lemma exact_power_pos c e :
  0 < c -> 0 < e -> np_power (Fin c) (Fin e) = Fin (Rpower c e).
Proof.
  intros Hc He. simpl. rewrite (Rsgn_pos e He), (Rsgn_pos c Hc). reflexivity.
Qed.

Lemma exact_sign_neg l : l < 0 -> np_sign (Fin l) = Fin (-1).
Proof.
  intros H. unfold np_sign. simpl. unfold of_int.
  rewrite Rltb_false by lra. rewrite Rltb_true by lra. reflexivity.
Qed.

(** An element clamped to [epsilon], for finite [alpha], [beta] and
    amplification. *)
Lemma exact_raw1_floor (self : FractalHarmonicTransform) a b m x :
  phi self = Fin phi_R -> epsilon self = Fin eps_R ->
  alpha self = Fin a -> beta self = Fin b ->
  f_ltb x (Fin eps_R) = true ->
  raw1 self (Fin m) x
  = Fin (a * Rpower (Rabs floor_log) phi_R * (-1) * m + b).
Proof.
  intros Hphi Heps Ha Hb Hx. unfold raw1.
  rewrite Hphi, Heps, Ha, Hb. rewrite exact_clamp_below by exact Hx.
  change (f_add (Fin eps_R) (Fin eps_R)) with (Fin (eps_R + eps_R)).
  rewrite exact_log_pos by (pose proof eps_R_pos; lra).
  fold floor_log.
  change (f_abs (Fin floor_log)) with (Fin (Rabs floor_log)).
  rewrite exact_power_pos;
    [|pose proof floor_abs_gt; lra|pose proof phi_R_bounds; lra].
  rewrite exact_sign_neg by (pose proof floor_log_lt; lra).
  reflexivity.
Qed.

Lemma exact_transform1_floor (self : FractalHarmonicTransform) a b m x :
  phi self = Fin phi_R -> epsilon self = Fin eps_R ->
  alpha self = Fin a -> beta self = Fin b ->
  f_ltb x (Fin eps_R) = true ->
  transform1 self (Fin m) x
  = Fin (a * Rpower (Rabs floor_log) phi_R * (-1) * m + b).
Proof.
  intros Hphi Heps Ha Hb Hx. unfold transform1.
  rewrite (@exact_raw1_floor self a b m x) by assumption. reflexivity.
Qed.

(** The default instance, read in exact arithmetic. *)
Lemma exact_default :
  phi (default (F := ieee)) = Fin phi_R
  /\ epsilon (default (F := ieee)) = Fin eps_R
  /\ alpha (default (F := ieee)) = Fin phi_R
  /\ beta (default (F := ieee)) = Fin 1.
Proof.
  unfold default. cbn [__init__ phi epsilon alpha beta].
  rewrite exact_golden_ratio, exact_default_epsilon. repeat split.
Qed.

Lemma exact_mul_1 (x : ieee) : f_mul x (f_of_int 1) = x.
Proof.
  destruct x as [a| | |]; simpl; unfold of_int;
    try rewrite Rsgn_pos by lra; try reflexivity.
  f_equal. lra.
Qed.
End ExactTransform.

(** ** Exact arithmetic: sums, means and deviations of finite sequences *)

Section ExactSums.
Import Exact Spec.
Local Open Scope R_scope.

Lemma exact_fold_add (l : list R) (a : R) :
  fold_left f_add (map Fin l) (Fin a) = Fin (a + Rsum l).
Proof.
  revert a. induction l as [|x l IH]; intros a; simpl.
  - f_equal. lra.
  - rewrite IH. f_equal. lra.
Qed.

Lemma exact_sum (l : list R) : np_sum (map Fin l) = Fin (Rsum l).
Proof.
  unfold np_sum. change (f_of_int 0) with (Fin 0).
  rewrite exact_fold_add. f_equal. lra.
Qed.

Lemma exact_div (a b : R) : b <> 0 -> f_div (Fin a) (Fin b) = Fin (a / b).
Proof.
  intros Hb. simpl. unfold Rsgn.
  destruct (total_order_T b 0) as [[H|H]|H]; try reflexivity. contradiction.
Qed.

Lemma exact_len (l : list R) : len (map Fin l) = Z.of_nat (List.length l).
Proof. unfold len. rewrite length_map. reflexivity. Qed.

Lemma exact_of_nat (n : nat) : f_of_int (Z.of_nat n) = Fin (INR n).
Proof. simpl. unfold of_int. rewrite <- INR_IZR_INZ. reflexivity. Qed.

Lemma exact_mean (l : list R) :
  l <> [] -> np_mean (map Fin l) = Fin (Rmean l).
Proof.
  intros Hl. unfold np_mean, Rmean.
  rewrite exact_sum, exact_len, exact_of_nat, exact_div; [reflexivity|].
  apply not_0_INR. destruct l; [contradiction|discriminate].
Qed.

Lemma Rsum_nonneg (l : list R) : Forall (fun x => 0 <= x) l -> 0 <= Rsum l.
Proof.
  induction 1 as [|x l Hx _ IH]; simpl; lra.
Qed.

Lemma Rsum_abs_nonneg (l : list R) : 0 <= Rsum (map Rabs l).
Proof.
  apply Rsum_nonneg. apply Forall_forall. intros y Hy.
  apply in_map_iff in Hy. destruct Hy as [x [<- _]]. apply Rabs_pos.
Qed.

Lemma Rsum_squares_nonneg (m : R) (l : list R) :
  0 <= Rsum (map (fun x => (x - m) * (x - m)) l).
Proof.
  apply Rsum_nonneg. apply Forall_forall. intros y Hy.
  apply in_map_iff in Hy. destruct Hy as [x [<- _]].
  pose proof (Rle_0_sqr (x - m)) as H. unfold Rsqr in H. exact H.
Qed.

Lemma exact_std (l : list R) :
  l <> [] -> np_std (map Fin l) = Fin (Rstd l).
Proof.
  intros Hl. unfold np_std, Rstd. rewrite exact_mean by exact Hl.
  rewrite map_map.
  replace (map (fun x => f_mul (f_sub (Fin x) (Fin (Rmean l)))
                           (f_sub (Fin x) (Fin (Rmean l)))) l)
    with (map Fin (map (fun x => (x - Rmean l) * (x - Rmean l)) l)).
  2:{ rewrite map_map. apply map_ext. intros x. simpl. f_equal. }
  assert (Hn : 0 < INR (List.length l)).
  { apply lt_0_INR. destruct l; [contradiction|simpl; lia]. }
  rewrite exact_sum, exact_len, exact_of_nat, exact_div by lra.
  simpl. rewrite Rltb_false; [reflexivity|].
  apply Rmult_le_pos; [apply Rsum_squares_nonneg|].
  apply Rlt_le, Rinv_0_lt_compat, Hn.
Qed.

Lemma exact_lit (m d : Z) : (0 < d)%Z -> lit m d = Fin (IZR m / IZR d).
Proof.
  intros Hd. unfold lit. change (f_of_int m) with (Fin (IZR m)).
  change (f_of_int d) with (Fin (IZR d)). apply exact_div.
  apply IZR_lt in Hd. lra.
Qed.

Lemma Rstd_nonneg (l : list R) : 0 <= Rstd l.
Proof. unfold Rstd. apply sqrt_pos. Qed.

Lemma stability_nonneg (n : nat) (t : list R) : (0 < n)%nat -> 0 <= stability n t.
Proof.
  intros Hn. unfold stability. apply lt_0_INR in Hn.
  apply Rmult_le_pos; [apply Rsum_abs_nonneg|].
  apply Rlt_le, Rinv_0_lt_compat. lra.
Qed.

Lemma breakthrough_nonneg (t : list R) : 0 <= breakthrough t.
Proof.
  unfold breakthrough. destruct (Rlt_dec 0 _) as [H|H]; [|lra].
  apply Rmult_le_pos; [apply Rstd_nonneg|].
  apply Rlt_le, Rinv_0_lt_compat, H.
Qed.

Lemma consciousness_range (n : nat) (t : list R) :
  (0 < n)%nat -> 0 <= consciousness n t <= 1.
Proof.
  intros Hn. unfold consciousness.
  pose proof (stability_nonneg n t Hn). pose proof (breakthrough_nonneg t).
  split; [apply Rmin_glb; lra|apply Rmin_l].
Qed.
End ExactSums.

(** ** The score calculator in exact arithmetic *)

Section ExactScore.
Import Exact Spec.
Local Open Scope R_scope.

Lemma exact_abs_map (t : list R) : map f_abs (map Fin t) = map Fin (map Rabs t).
Proof. rewrite !map_map. reflexivity. Qed.

Lemma exact_py_min_one (c : R) : py_min (Fin c) (f_of_int 1) = Fin (Rmin 1 c).
Proof.
  unfold py_min. change (f_of_int 1) with (Fin 1). simpl.
  unfold Rltb, Rmin.
  destruct (Rlt_dec 1 c), (Rle_dec 1 c); try reflexivity; try lra.
  f_equal. lra.
Qed.

Lemma exact_breakthrough (t : list R) :
  t <> [] ->
  (if f_ltb (f_of_int 0) (np_mean (map f_abs (map Fin t)))
   then f_div (np_std (map Fin t)) (np_mean (map f_abs (map Fin t)))
   else f_of_int 0)
  = Fin (breakthrough t).
Proof.
  intros Ht. rewrite exact_abs_map.
  rewrite exact_mean by (destruct t; [contradiction|discriminate]).
  rewrite exact_std by exact Ht.
  change (f_of_int 0) with (Fin 0). simpl f_ltb.
  unfold breakthrough, Rltb.
  destruct (Rlt_dec 0 (Rmean (map Rabs t))) as [H|H]; [|reflexivity].
  apply exact_div. lra.
Qed.

Lemma exact_stability (o t : list R) :
  (0 < List.length o)%nat ->
  f_div (np_sum (map f_abs (map Fin t))) (f_of_int (len (map Fin o) * 4))
  = Fin (stability (List.length o) t).
Proof.
  intros Hn. rewrite exact_abs_map, exact_sum, exact_len.
  change (f_of_int (Z.of_nat (List.length o) * 4))
    with (Fin (IZR (Z.of_nat (List.length o) * 4))).
  rewrite mult_IZR, <- INR_IZR_INZ.
  apply exact_div. apply lt_0_INR in Hn. lra.
Qed.

Lemma exact_score (a : option ieee) (b e : ieee) (o t : list R) :
  o <> [] -> List.length o = List.length t ->
  exists s,
    calculate_consciousness_score (__init__ a b e) (map Fin o) (map Fin t) = Ok s
    /\ consciousness_score s = Fin (consciousness (List.length o) t)
    /\ stability_score s = Fin (stability (List.length o) t)
    /\ breakthrough_score s = Fin (breakthrough t).
Proof.
  intros Ho Hlen.
  assert (Hn : (0 < List.length o)%nat) by (destruct o; [contradiction|simpl; lia]).
  assert (Ht : t <> []) by (destruct t; [simpl in Hlen; lia|discriminate]).
  unfold calculate_consciousness_score.
  rewrite (exact_stability o t Hn), (exact_breakthrough t Ht).
  cbn [__init__ stability_weight breakthrough_weight].
  rewrite !exact_lit by lia.
  change (f_add (f_mul (Fin (79 / 100)) (Fin (stability (List.length o) t)))
                (f_mul (Fin (21 / 100)) (Fin (breakthrough t))))
    with (Fin (79 / 100 * stability (List.length o) t + 21 / 100 * breakthrough t)).
  rewrite exact_py_min_one. fold (consciousness (List.length o) t).
  unfold np_corrcoef. rewrite !exact_len, Hlen, Z.eqb_refl.
  destruct (1 <? Z.of_nat (List.length t))%Z; eexists; repeat split.
Qed.
End ExactScore.

(** ** The correlation in exact arithmetic *)

Section ExactCorrelation.
Import Exact Spec.
Local Open Scope R_scope.

Lemma exact_centred (l : list R) :
  l <> [] -> centred (map Fin l) = map Fin (map (fun x => x - Rmean l) l).
Proof.
  intros Hl. unfold centred. rewrite exact_mean by exact Hl.
  rewrite !map_map. reflexivity.
Qed.

Lemma exact_dot (u v : list R) :
  np_dot (map Fin u) (map Fin v)
  = Fin (Rsum (map (fun p => fst p * snd p) (combine u v))).
Proof.
  unfold np_dot. rewrite <- exact_sum. f_equal.
  revert v. induction u as [|a u IH]; intros [|b v]; simpl; try reflexivity.
  rewrite IH. reflexivity.
Qed.

Lemma dot_self (g : R -> R) (l : list R) :
  Rsum (map (fun p => fst p * snd p) (combine (map g l) (map g l)))
  = Rsum (map (fun x => g x * g x) l).
Proof.
  induction l as [|a l IH]; simpl; [reflexivity|]. rewrite IH. reflexivity.
Qed.

Lemma exact_sqrt_pos (a : R) : 0 < a -> f_sqrt (Fin a) = Fin (R_sqrt.sqrt a).
Proof. intros H. simpl. rewrite Rltb_false by lra. reflexivity. Qed.

Lemma exact_leb_true (a b : R) : a <= b -> f_leb (Fin a) (Fin b) = true.
Proof.
  intros H. simpl. unfold leb. simpl. unfold Rltb, Reqb.
  destruct (Rlt_dec a b), (Req_dec_T a b); try reflexivity. lra.
Qed.

Lemma exact_leb_false (a b : R) : b < a -> f_leb (Fin a) (Fin b) = false.
Proof.
  intros H. simpl. unfold leb. simpl. unfold Rltb, Reqb.
  destruct (Rlt_dec a b), (Req_dec_T a b); try reflexivity; lra.
Qed.

Lemma exact_clip (v : R) :
  exists r, np_clip (Fin v) (f_of_int (-1)) (f_of_int 1) = Fin r /\ -1 <= r <= 1.
Proof.
  unfold np_clip, np_maximum, np_minimum.
  change (f_of_int (-1)) with (Fin (-1)). change (f_of_int 1) with (Fin 1).
  change (f_isnan (Fin v)) with false.
  destruct (Rle_dec (-1) v) as [Hlo|Hlo].
  - rewrite (exact_leb_true (-1) v Hlo). cbn [orb].
    change (f_isnan (Fin v)) with false.
    destruct (Rle_dec v 1) as [Hhi|Hhi].
    + rewrite (exact_leb_true v 1 Hhi). cbn [orb]. exists v. split; [reflexivity|lra].
    + rewrite (exact_leb_false v 1) by lra. cbn [orb].
      exists 1. split; [reflexivity|lra].
  - rewrite (exact_leb_false (-1) v) by lra. cbn [orb].
    rewrite (exact_leb_true (-1) 1) by lra. cbn [orb].
    exists (-1). split; [reflexivity|lra].
Qed.

Lemma exact_correlation (o t : list R) :
  (1 < List.length o)%nat -> List.length o = List.length t ->
  0 < squared_deviations o -> 0 < squared_deviations t ->
  exists r, np_corrcoef_01 (map Fin o) (map Fin t) = Fin r /\ -1 <= r <= 1.
Proof.
  intros Hn Hlen Ho Ht.
  assert (Hone : o <> []) by (destruct o; [simpl in Hn; lia|discriminate]).
  assert (Htne : t <> []) by (destruct t; [simpl in Hlen; lia|discriminate]).
  unfold np_corrcoef_01, correlation_before_clip.
  rewrite (exact_centred o Hone), (exact_centred t Htne), !exact_dot, !dot_self.
  fold (squared_deviations o). fold (squared_deviations t).
  rewrite exact_len.
  replace (Z.of_nat (List.length o) - 1)%Z with (Z.of_nat (List.length o - 1)) by lia.
  rewrite exact_of_nat. change (f_of_int 1) with (Fin 1).
  assert (Hd : 0 < INR (List.length o - 1)) by (apply lt_0_INR; lia).
  rewrite exact_div by lra.
  set (k := 1 / INR (List.length o - 1)).
  assert (Hk : 0 < k) by (unfold k; apply Rdiv_lt_0_compat; lra).
  change (f_mul (Fin (squared_deviations o)) (Fin k))
    with (Fin (squared_deviations o * k)).
  change (f_mul (Fin (squared_deviations t)) (Fin k))
    with (Fin (squared_deviations t * k)).
  rewrite !exact_sqrt_pos by (apply Rmult_lt_0_compat; assumption).
  match goal with |- context [f_mul (Fin ?c) (Fin k)] =>
    change (f_mul (Fin c) (Fin k)) with (Fin (c * k)) end.
  assert (H0 : 0 < R_sqrt.sqrt (squared_deviations o * k))
    by (apply sqrt_lt_R0, Rmult_lt_0_compat; assumption).
  assert (H1 : 0 < R_sqrt.sqrt (squared_deviations t * k))
    by (apply sqrt_lt_R0, Rmult_lt_0_compat; assumption).
  rewrite !exact_div by lra.
  apply exact_clip.
Qed.
End ExactCorrelation.

(** ** Binary64: signs *)

Section Binary64Signs.
Import Binary64.

Lemma round_aux_signless m e l :
  sf_signless (binary_round_aux prec emax false m e l) = true.
Proof.
  unfold binary_round_aux.
  destruct (shr_fexp prec emax m e l) as [mrs' e'].
  destruct (shr_fexp prec emax _ e' loc_Exact) as [mrs'' e''].
  destruct (shr_m mrs''); [reflexivity| |reflexivity].
  destruct (Z.leb e'' _); reflexivity.
Qed.

Lemma round_signless m e :
  sf_signless (binary_round prec emax false m e) = true.
Proof.
  unfold binary_round. destruct (shl_align _ _ _) as [mz ez].
  apply round_aux_signless.
Qed.

Lemma SFmul_signless x y :
  sf_signless x = true -> sf_signless y = true ->
  sf_signless (SF64mul x y) = true.
Proof.
  unfold SF64mul, SFmul.
  destruct x as [[]|[]| |[] mx ex], y as [[]|[]| |[] my ey];
    simpl sf_signless; intros Hx Hy; try discriminate; try reflexivity.
  apply round_aux_signless.
Qed.

Lemma SFmul_square_signless x : sf_signless (SF64mul x x) = true.
Proof.
  unfold SF64mul, SFmul.
  destruct x as [[]|[]| |[] mx ex]; try reflexivity; apply round_aux_signless.
Qed.

Lemma SFadd_signless x y :
  sf_signless x = true -> sf_signless y = true ->
  sf_signless (SF64add x y) = true.
Proof.
  unfold SF64add, SFadd.
  destruct x as [[]|[]| |[] mx ex], y as [[]|[]| |[] my ey];
    simpl sf_signless; intros Hx Hy; try discriminate; try reflexivity.
  unfold cond_Zopp, binary_normalize. cbn [Z.add]. apply round_signless.
Qed.

Lemma SFdiv_signless x y :
  sf_signless x = true -> sf_signless y = true ->
  sf_signless (SF64div x y) = true.
Proof.
  unfold SF64div, SFdiv.
  destruct x as [[]|[]| |[] mx ex], y as [[]|[]| |[] my ey];
    simpl sf_signless; intros Hx Hy; try discriminate; try reflexivity.
  destruct (SFdiv_core_binary _ _ _ _ _ _) as [[mz ez] lz].
  apply round_aux_signless.
Qed.

Lemma SFsqrt_signless x :
  sf_signless x = true -> sf_signless (SF64sqrt x) = true.
Proof.
  unfold SF64sqrt, SFsqrt.
  destruct x as [[]|[]| |[] mx ex];
    simpl sf_signless; intros Hx; try discriminate; try reflexivity.
  destruct (SFsqrt_core_binary _ _ _ _) as [[mz ez] lz].
  apply round_aux_signless.
Qed.

Lemma mul_signless x y :
  signless x = true -> signless y = true -> signless (PrimFloat.mul x y) = true.
Proof. unfold signless. rewrite mul_spec. apply SFmul_signless. Qed.

Lemma square_signless x : signless (PrimFloat.mul x x) = true.
Proof. unfold signless. rewrite mul_spec. apply SFmul_square_signless. Qed.

Lemma add_signless x y :
  signless x = true -> signless y = true -> signless (PrimFloat.add x y) = true.
Proof. unfold signless. rewrite add_spec. apply SFadd_signless. Qed.

Lemma div_signless x y :
  signless x = true -> signless y = true -> signless (PrimFloat.div x y) = true.
Proof. unfold signless. rewrite div_spec. apply SFdiv_signless. Qed.

Lemma sqrt_signless x :
  signless x = true -> signless (PrimFloat.sqrt x) = true.
Proof. unfold signless. rewrite sqrt_spec. apply SFsqrt_signless. Qed.

Lemma abs_signless x : signless (PrimFloat.abs x) = true.
Proof.
  unfold signless. rewrite abs_spec. destruct (Prim2SF x); reflexivity.
Qed.

Lemma of_int_signless z : (0 <= z)%Z -> signless (of_int z) = true.
Proof.
  intros Hz. destruct z as [|p|p]; [reflexivity| |lia].
  unfold of_int, signless. rewrite of_uint63_spec.
  pose proof (Uint63.to_Z_bounded (Uint63.of_Z (Zpos p))) as Hb.
  destruct (Uint63.to_Z _) as [|q|q]; [reflexivity| |lia].
  apply round_signless.
Qed.
End Binary64Signs.

(** ** Binary64: the order on numbers that are not NaN *)

Section Binary64Order.
Import Binary64.

Lemma Prim2SF_not_nan x : PrimFloat.is_nan x = false -> Prim2SF x <> S754_nan.
Proof.
  intros Hx. unfold Prim2SF. rewrite Hx.
  destruct (is_zero x); [discriminate|].
  destruct (PrimFloat.is_infinity x); [discriminate|].
  destruct (Z.frexp x) as [r ex].
  destruct (shr_fexp _ _ _ _ _) as [sh e'].
  destruct (shr_m sh); discriminate.
Qed.

Lemma Prim2SF_one : Prim2SF PrimFloat.one = S754_finite false 4503599627370496 (-52).
Proof. vm_compute. reflexivity. Qed.

Lemma Prim2SF_zero : Prim2SF PrimFloat.zero = S754_zero false.
Proof. vm_compute. reflexivity. Qed.

Lemma leb_zero_signless c :
  signless c = true -> PrimFloat.is_nan c = false ->
  PrimFloat.leb PrimFloat.zero c = true.
Proof.
  intros Hs Hn. apply Prim2SF_not_nan in Hn.
  rewrite leb_spec, Prim2SF_zero. unfold signless in Hs.
  destruct (Prim2SF c) as [[]|[]| |[] m e]; try discriminate; try reflexivity.
  contradiction.
Qed.

Lemma leb_one_of_not_ltb c :
  PrimFloat.is_nan c = false -> PrimFloat.ltb PrimFloat.one c = false ->
  PrimFloat.leb c PrimFloat.one = true.
Proof.
  intros Hn. apply Prim2SF_not_nan in Hn.
  rewrite ltb_spec, leb_spec, Prim2SF_one. unfold SFltb, SFleb.
  destruct (Prim2SF c) as [[]|[]| |[] m e]; try discriminate; try reflexivity;
    [contradiction|].
  cbn [SFcompare].
  rewrite (Z.compare_antisym (-52) e).
  destruct (Z.compare (-52) e); cbn [CompOpp]; try discriminate; try reflexivity.
  change (Pos.compare_cont Eq m 4503599627370496)
    with (Pos.compare_cont (CompOpp Eq) m 4503599627370496).
  rewrite <- Pos.compare_cont_antisym.
  destruct (Pos.compare_cont Eq 4503599627370496 m);
    cbn [CompOpp]; try discriminate; reflexivity.
Qed.

Lemma SFcompare_antisym x y c :
  SFcompare x y = Some c -> SFcompare y x = Some (CompOpp c).
Proof.
  destruct x as [[]|[]| |[] mx ex], y as [[]|[]| |[] my ey];
    cbn [SFcompare]; intros H; try discriminate;
    try (injection H as <-; reflexivity).
  - injection H as <-. rewrite (Z.compare_antisym ex ey).
    destruct (Z.compare ex ey); cbn [CompOpp]; try reflexivity.
    change (Pos.compare_cont Eq my mx) with (Pos.compare_cont (CompOpp Eq) my mx).
    rewrite <- Pos.compare_cont_antisym. reflexivity.
  - injection H as <-. rewrite (Z.compare_antisym ex ey).
    destruct (Z.compare ex ey); cbn [CompOpp]; try reflexivity.
    change (Pos.compare_cont Eq my mx) with (Pos.compare_cont (CompOpp Eq) my mx).
    rewrite <- Pos.compare_cont_antisym.
    destruct (Pos.compare_cont Eq mx my); reflexivity.
Qed.

Lemma is_nan_Prim2SF x : PrimFloat.is_nan x = true -> Prim2SF x = S754_nan.
Proof. intros H. unfold Prim2SF. rewrite H. reflexivity. Qed.

(** [np.maximum(x, e)] of a number [x] below [e] is [e]. *)
Lemma maximum_of_smaller (x e : float) :
  PrimFloat.ltb x e = true -> np_maximum x e = e.
Proof.
  intros H. unfold np_maximum.
  change (f_leb e x) with (PrimFloat.leb e x).
  change (f_isnan x) with (PrimFloat.is_nan x).
  assert (Hn : PrimFloat.is_nan x = false).
  { destruct (PrimFloat.is_nan x) eqn:E; [|reflexivity].
    rewrite ltb_spec, (is_nan_Prim2SF x E) in H. discriminate H. }
  assert (Hle : PrimFloat.leb e x = false).
  { rewrite ltb_spec in H. rewrite leb_spec. unfold SFltb in H. unfold SFleb.
    destruct (SFcompare (Prim2SF x) (Prim2SF e)) as [[]|] eqn:E; try discriminate.
    rewrite (SFcompare_antisym _ _ _ E). reflexivity. }
  rewrite Hn, Hle. reflexivity.
Qed.

(** Python's [min(c, 1.0)] of a number that is NaN or has a clear sign bit
    is NaN or lies in [0, 1]. *)
Lemma py_min_one_range c :
  signless c = true ->
  let r := py_min c (f_of_int 1) in
  PrimFloat.is_nan r = true \/ between PrimFloat.zero PrimFloat.one r = true.
Proof.
  intros Hs. unfold py_min. change (f_of_int 1) with PrimFloat.one.
  change (f_ltb PrimFloat.one c) with (PrimFloat.ltb PrimFloat.one c).
  cbv zeta.
  destruct (PrimFloat.ltb PrimFloat.one c) eqn:Hlt.
  - right. vm_compute. reflexivity.
  - destruct (PrimFloat.is_nan c) eqn:Hn; [left; reflexivity|right].
    unfold between.
    rewrite leb_zero_signless by assumption.
    rewrite leb_one_of_not_ltb by assumption.
    reflexivity.
Qed.
End Binary64Order.

(** ** Binary64: multiplication by one is exact *)

Section Binary64MulOne.

Lemma shr_fexp_times_one (m : positive) (e : Z) :
  fexp prec emax (Zpos (digits2_pos m) + e) = e ->
  shr_fexp prec emax (Zpos (m * 4503599627370496)) (e + -52) loc_Exact
  = ({| shr_m := Zpos m; shr_r := false; shr_s := false |}, e).
Proof.
  intros Hc. unfold shr_fexp.
  rewrite Pos.mul_comm. cbn [Pos.mul Zdigits2 digits2_pos shr_record_of_loc].
  match goal with |- context [fexp prec emax ?a] =>
    replace a with (Zpos (digits2_pos m) + e)%Z by lia end.
  rewrite Hc.
  replace (e - (e + -52))%Z with 52%Z by lia.
  unfold shr. cbn [iter_pos shr_1 orb].
  f_equal. lia.
Qed.

Lemma shr_fexp_fixed (m : positive) (e : Z) :
  fexp prec emax (Zpos (digits2_pos m) + e) = e ->
  shr_fexp prec emax (Zpos m) e loc_Exact
  = ({| shr_m := Zpos m; shr_r := false; shr_s := false |}, e).
Proof.
  intros Hc. unfold shr_fexp. cbn [Zdigits2 shr_record_of_loc].
  rewrite Hc, Z.sub_diag. reflexivity.
Qed.

Lemma SFmul_one (x : spec_float) :
  valid_binary x = true ->
  SF64mul x (S754_finite false 4503599627370496 (-52)) = x.
Proof.
  destruct x as [s|s| |s m e]; intros Hv; unfold SF64mul, SFmul;
    rewrite ?xorb_false_r; try reflexivity.
  cbn [SpecFloat.valid_binary] in Hv. unfold bounded, canonical_mantissa in Hv.
  apply andb_prop in Hv. destruct Hv as [Hc Hb]. apply Z.eqb_eq in Hc.
  unfold binary_round_aux.
  rewrite (shr_fexp_times_one m e Hc).
  cbn [shr_m loc_of_shr_record round_nearest_even].
  rewrite (shr_fexp_fixed m e Hc). cbn [shr_m].
  rewrite Hb. reflexivity.
Qed.

Lemma binary64_mul_1 (x : float) : f_mul x (f_of_int 1) = x.
Proof.
  change (PrimFloat.mul x PrimFloat.one = x).
  apply Prim2SF_inj. rewrite mul_spec, Prim2SF_one.
  apply SFmul_one, Prim2SF_valid.
Qed.
End Binary64MulOne.

(** ** Binary64: the score calculator *)

Section Binary64Score.
Import Binary64.

Lemma fold_add_signless (l : list float) (acc : float) :
  signless acc = true -> Forall (fun x => signless x = true) l ->
  signless (fold_left f_add l acc) = true.
Proof.
  revert acc. induction l as [|x l IH]; intros acc Hacc Hl; simpl; [exact Hacc|].
  inversion Hl as [|y l' Hx Hl']; subst.
  apply IH; [|exact Hl']. apply add_signless; assumption.
Qed.

Lemma sum_signless (l : list float) :
  Forall (fun x => signless x = true) l -> signless (np_sum l) = true.
Proof.
  intros Hl. unfold np_sum. apply fold_add_signless; [reflexivity|exact Hl].
Qed.

Lemma sum_abs_signless (t : list float) : signless (np_sum (map f_abs t)) = true.
Proof.
  apply sum_signless, Forall_forall. intros y Hy.
  apply in_map_iff in Hy. destruct Hy as [x [<- _]]. apply abs_signless.
Qed.

Lemma len_nonneg {X : Type} `{Arith X} (l : list X) : (0 <= len l)%Z.
Proof. unfold len. lia. Qed.

Lemma mean_abs_signless (t : list float) :
  signless (np_mean (map f_abs t)) = true.
Proof.
  unfold np_mean. apply div_signless; [apply sum_abs_signless|].
  apply of_int_signless, len_nonneg.
Qed.

Lemma std_signless (t : list float) : signless (np_std t) = true.
Proof.
  unfold np_std. cbv zeta. apply sqrt_signless, div_signless.
  - apply sum_signless, Forall_forall. intros y Hy.
    apply in_map_iff in Hy. destruct Hy as [x [<- _]]. apply square_signless.
  - apply of_int_signless, len_nonneg.
Qed.

Lemma binary64_score (a : option float) (b e : float)
    (original transformed : list float) (s : ScoreSet) :
  calculate_consciousness_score (__init__ a b e) original transformed = Ok s ->
  PrimFloat.is_nan (consciousness_score s) = true
  \/ between PrimFloat.zero PrimFloat.one (consciousness_score s) = true.
Proof.
  unfold calculate_consciousness_score.
  match goal with
  | |- context [match ?r with inl _ => _ | inr _ => _ end] =>
      destruct r as [ex|corr]; [discriminate|]
  end.
  intros H. injection H as <-. cbn [consciousness_score].
  apply py_min_one_range.
  cbn [__init__ stability_weight breakthrough_weight].
  apply add_signless; apply mul_signless.
  - vm_compute. reflexivity.
  - apply div_signless; [apply sum_abs_signless|].
    apply of_int_signless. pose proof (len_nonneg original). lia.
  - vm_compute. reflexivity.
  - match goal with |- context [if ?c then _ else _] => destruct c end.
    + apply div_signless; [apply std_signless|apply mean_abs_signless].
    + reflexivity.
Qed.
End Binary64Score.

(** ** Binary64: clipping *)

Section Binary64Clip.
Import Binary64.

(** [np.clip(v, -1, 1)] is NaN (when [v] is) or lies in [-1, 1]. *)
Lemma clip_range (v : float) :
  let r := np_clip v (f_of_int (-1)) (f_of_int 1) in
  PrimFloat.is_nan r = true \/ between (f_of_int (-1)) (f_of_int 1) r = true.
Proof.
  cbv zeta. unfold np_clip, np_maximum, np_minimum, between.
  change (@f_leb float binary64) with PrimFloat.leb.
  change (@f_isnan float binary64) with PrimFloat.is_nan.
  set (lo := f_of_int (-1)). set (hi := f_of_int 1).
  assert (Hlh : PrimFloat.leb lo hi = true) by (vm_compute; reflexivity).
  assert (Hll : PrimFloat.leb lo lo = true) by (vm_compute; reflexivity).
  assert (Hhh : PrimFloat.leb hi hi = true) by (vm_compute; reflexivity).
  destruct (PrimFloat.leb lo v) eqn:H1; cbn [orb].
  - destruct (PrimFloat.leb v hi) eqn:H2; cbn [orb].
    + right. rewrite H1, H2. reflexivity.
    + destruct (PrimFloat.is_nan v) eqn:H3.
      * left. exact H3.
      * right. rewrite Hlh, Hhh. reflexivity.
  - destruct (PrimFloat.is_nan v) eqn:H3.
    + rewrite H3, orb_true_r. left. exact H3.
    + rewrite Hlh. cbn [orb]. right. rewrite Hll, Hlh. reflexivity.
Qed.
End Binary64Clip.

(** ** The statistical validator *)

Section ValidatorFacts.
Context {F : Type} {A : Arith F} {L : Libm F}.
Variable clock : nat -> F.
Variables pearsonr spearmanr ks_2samp : list F -> list F -> result (F * F).

(** What one call does to the state, whether it returns or raises. *)
Lemma validate_frame (data : list F) (w : World) :
  match validate_transformation clock pearsonr spearmanr ks_2samp data w with
  | (inr a, w') =>
      a = List.length (objects w)
      /\ results (suite w') = results (suite w) ++ [a]
      /\ fht (suite w') = fht (suite w)
      /\ exists r, objects w' = objects w ++ [r] /\ dataset_size r = len data
  | (inl e, w') => suite w' = suite w /\ objects w' = objects w
  end.
Proof.
  unfold validate_transformation, bind, lift, time_time, get_self,
    append_result.
  cbn [objects suite ticks].
  repeat match goal with
    | |- context [match ?r with inl _ => _ | inr _ => _ end] =>
        destruct r; [split; reflexivity|]
    end.
  cbn [objects suite ticks results fht].
  repeat split. eexists. split; reflexivity.
Qed.

(** The score calculator returns on sequences of equal length. *)
Lemma score_returns (self : FractalHarmonicTransform) (o t : list F) :
  len o = len t -> exists s, calculate_consciousness_score self o t = Ok s.
Proof.
  intros Hlen. unfold calculate_consciousness_score, np_corrcoef.
  rewrite Hlen, Z.eqb_refl. destruct (1 <? len t)%Z; eexists; reflexivity.
Qed.

(** A call returns when the dataset is not empty and the three tests do. *)
Lemma validate_returns (data : list F) (w : World) :
  data <> [] ->
  (exists p, pearsonr data (transform (fht (suite w)) data default_amplification) = Ok p) ->
  (exists p, spearmanr data (transform (fht (suite w)) data default_amplification) = Ok p) ->
  (exists p, ks_2samp data (transform (fht (suite w)) data default_amplification) = Ok p) ->
  exists a w',
    validate_transformation clock pearsonr spearmanr ks_2samp data w = (Ok a, w').
Proof.
  intros Hd [p Hp] [sp Hsp] [k Hk].
  destruct (score_returns (fht (suite w)) data
              (transform (fht (suite w)) data default_amplification)) as [m Hm].
  { unfold len. rewrite transform_length. reflexivity. }
  unfold validate_transformation, bind, lift, time_time, get_self,
    append_result.
  unfold Ok in *. cbn [objects suite ticks]. rewrite Hm, Hp, Hsp, Hk.
  destruct data as [|x data]; [contradiction|].
  eexists. eexists. reflexivity.
Qed.
End ValidatorFacts.

(** * The statements of the specification *)

(** ** The exponent of the power term *)



(** ** Inputs below [epsilon] *)

Lemma zero_below_epsilon : f_ltb (Fin 0) (epsilon (default (F := ieee))) = true.
Proof.
  unfold default. cbn [__init__ epsilon]. rewrite exact_default_epsilon.
  simpl. apply Rltb_true. exact eps_R_pos.
Qed.

Lemma minus_infinity_below_epsilon :
  f_ltb Inf_neg (epsilon (default (F := ieee))) = true.
Proof.
  unfold default. cbn [__init__ epsilon]. rewrite exact_default_epsilon.
  reflexivity.
Qed.

Lemma exact_default_floor (data : list ieee) :
  Forall (fun x => f_ltb x (epsilon default) = true) data ->
  transform default data default_amplification
  = map (fun _ => Fin Exact.floor_value) data.
Proof.
  intros H. rewrite transform_map. apply map_ext_in.
  intros x Hx. rewrite Forall_forall in H. specialize (H x Hx).
  unfold default in *. cbn [__init__ epsilon] in H.
  rewrite exact_default_epsilon in H.
  unfold default_amplification. change (f_of_int 1) with (Fin 1).
  rewrite (@exact_transform1_floor _ Exact.phi_R 1 1 x); try assumption.
  - reflexivity.
  - cbn [__init__ phi]. apply exact_golden_ratio.
  - cbn [__init__ epsilon]. apply exact_default_epsilon.
  - cbn [__init__ alpha]. apply exact_golden_ratio.
  - reflexivity.
Qed.

(** C2, as stated, fails: the dataset [[0.0]] lies below [epsilon], and its
    transform (default parameters, amplification 1.0) is not [beta]. *)
Lemma clamped_dataset_not_beta :
  Forall (fun x => f_ltb x (epsilon default) = true) [Fin 0]
  /\ ~ Forall (fun y => y = beta default)
         (transform default [Fin 0] default_amplification).
Proof.
  assert (H : Forall (fun x => f_ltb x (epsilon default) = true) [Fin 0]).
  { constructor; [exact zero_below_epsilon|constructor]. }
  split; [exact H|].
  rewrite (exact_default_floor _ H). intros Hall.
  inversion Hall as [|y l Hy _]; subst.
  unfold default, default_beta in Hy. cbn [__init__ beta] in Hy.
  injection Hy as Hy. pose proof floor_value_neg. lra.
Qed.

Lemma binary64_clamped (L : Libm float) (self : FractalHarmonicTransform)
    (amplification : float) (data : list float) :
  Forall (fun x => f_ltb x (epsilon self) = true) data ->
  @transform float binary64 L self data amplification
  = map (fun _ => @transform1 float binary64 L self amplification (epsilon self))
        data.
Proof.
  intros H. rewrite transform_map. apply map_ext_in. intros x Hx.
  rewrite Forall_forall in H. specialize (H x Hx).
  unfold transform1, raw1. rewrite (maximum_of_smaller x (epsilon self) H).
  replace (np_maximum (epsilon self) (epsilon self)) with (epsilon self);
    [reflexivity|].
  unfold np_maximum. destruct (_ || _); reflexivity.
Qed.

(** C2, amended.  Every element of the transform of a dataset whose values
    are all below [epsilon] is one and the same number: the transform of
    [epsilon] itself.  This holds in binary64 whatever [np.log] and
    [np.power] compute.  With the default parameters and amplification 1.0
    that number is [phi * |ln (2 epsilon)| ** phi * (-1) * 1 + 1], which is
    negative in exact arithmetic, and so is not [beta = 1]. *)
Theorem clamped_dataset_constant :
  (forall (L : Libm float) (data : list float),
      Forall (fun x => f_ltb x (epsilon default) = true) data ->
      @transform float binary64 L default data default_amplification
      = map (fun _ => @transform1 float binary64 L default default_amplification
                        (epsilon default))
            data)
  /\ (forall data : list ieee,
         Forall (fun x => f_ltb x (epsilon default) = true) data ->
         transform default data default_amplification
         = map (fun _ => Fin Exact.floor_value) data)
  /\ (Exact.floor_value < 0)%R.
Proof.
  split; [intros L data; apply binary64_clamped|].
  split; [exact exact_default_floor|exact floor_value_neg].
Qed.

Lemma clamped_dataset_constant_witness :
  transform default [Fin 0; Inf_neg] default_amplification
  = map (fun _ => Fin Exact.floor_value) [Fin 0; Inf_neg].
Proof.
  apply (proj1 (proj2 clamped_dataset_constant) [Fin 0; Inf_neg]).
  constructor; [exact zero_below_epsilon|].
  constructor; [exact minus_infinity_below_epsilon|constructor].
Defined.

(** ** Finiteness of the transform *)

(** C3. As soon as the instance's [beta] is finite, [transform] returns one
    element per element of [data], each of them finite: it is the raw value
    [self.alpha * phi_power * sign_term * amplification + self.beta] where
    that value is finite, and [beta] where it is NaN or infinite.  This
    holds for any floating-point arithmetic and any [np.log] and
    [np.power]; so every call of the method that returns, whatever the
    argument was, returns finite numbers only. *)
Theorem transform_finite {F : Type} {A : Arith F} {L : Libm F}
    {C : IntToFloat F}
    (self : FractalHarmonicTransform) (data : list F) (amplification : F) :
  is_finite (beta self) = true ->
  List.length (transform self data amplification) = List.length data
  /\ Forall2 (fun r y => y = (if f_isnan r || f_isinf r then beta self else r)
                         /\ is_finite y = true)
       (raw self amplification data) (transform self data amplification)
  /\ (forall (argument : py_data F) (out : list F),
         transform_call self argument amplification = inr out ->
         Forall (fun y => is_finite y = true) out).
Proof.
  intros Hbeta.
  assert (Hrel : forall d,
            Forall2 (fun r y => y = (if f_isnan r || f_isinf r then beta self else r)
                                /\ is_finite y = true)
              (raw self amplification d) (transform self d amplification)).
  { intros d. unfold transform.
    induction (raw self amplification d) as [|r rs IH]; [constructor|].
    cbn [map]. constructor; [|exact IH].
    unfold np_where. split; [reflexivity|].
    destruct (f_isnan r || f_isinf r) eqn:E; [exact Hbeta|].
    unfold is_finite. rewrite E. reflexivity. }
  assert (Hfin : forall d,
            Forall (fun y => is_finite y = true) (transform self d amplification)).
  { intros d. specialize (Hrel d).
    induction Hrel as [|r y rs ys [_ Hy] _ IH]; constructor; assumption. }
  split; [apply transform_length|]. split; [apply Hrel|].
  intros argument out. unfold transform_call.
  destruct argument as [a|l|l].
  - intros H. injection H as <-. apply Hfin.
  - intros H. injection H as <-. apply Hfin.
  - destruct (forallb machine_int l).
    + destruct (float_array l) as [a|]; [|discriminate].
      intros H. injection H as <-. apply Hfin.
    + destruct (existsb _ l); discriminate.
Qed.

Lemma transform_finite_witness :
  let data := [Fin 1; Fin 0; Nan; Inf_pos] in
  List.length (transform default data (Fin 2)) = List.length data
  /\ Forall2 (fun r y => y = (if f_isnan r || f_isinf r then beta default else r)
                         /\ is_finite y = true)
       (raw default (Fin 2) data) (transform default data (Fin 2))
  /\ (forall (argument : py_data ieee) (out : list ieee),
         transform_call default argument (Fin 2) = inr out ->
         Forall (fun y => is_finite y = true) out).
Proof.
  cbv zeta.
  apply (@transform_finite ieee exact exact_libm exact_int default).
  reflexivity.
Defined.

(** ** The consciousness score *)

(** C4, as stated, fails in binary64: the two-point pair below is finite, but
    the sum of its absolute values overflows, the breakthrough score becomes
    [inf / inf], and the score returned is NaN. *)
Lemma consciousness_score_overflow :
  let original := [PrimFloat.one; PrimFloat.one] in
  let transformed := [0x1p1023%float; 0x1p1023%float] in
  Forall (fun x => is_finite x = true) (original ++ transformed)
  /\ exists s,
       calculate_consciousness_score default original transformed = Ok s
       /\ PrimFloat.is_nan (consciousness_score s) = true
       /\ Binary64.between PrimFloat.zero PrimFloat.one (consciousness_score s) = false.
Proof.
  cbv zeta. split.
  - repeat constructor.
  - eexists. split; [vm_compute; reflexivity|]. split; vm_compute; reflexivity.
Qed.

(** C4, amended.  The score returned is Python's [min(w, 1.0)] of the
    weighted sum [w = 0.79 * stability_score + 0.21 * breakthrough_score].
    In binary64, for every pair of sequences of equal length, it is NaN or
    lies in [0, 1].  In exact arithmetic (no overflow, no rounding), for
    every finite, non-empty pair of equal length it is
    [min(1.0, 0.79 * stability_score + 0.21 * breakthrough_score)] and lies
    in [0, 1]. *)
Theorem consciousness_score_range :
  (forall (a : option float) (b e : float) (original transformed : list float),
      len original = len transformed ->
      exists s,
        calculate_consciousness_score (__init__ a b e) original transformed = Ok s
        /\ consciousness_score s
           = py_min (f_add (f_mul (lit 79 100) (stability_score s))
                           (f_mul (lit 21 100) (breakthrough_score s)))
                    (f_of_int 1)
        /\ (PrimFloat.is_nan (consciousness_score s) = true
            \/ Binary64.between PrimFloat.zero PrimFloat.one
                 (consciousness_score s) = true))
  /\ (forall (a : option ieee) (b e : ieee) (original transformed : list R),
         original <> [] -> List.length original = List.length transformed ->
         exists s,
           calculate_consciousness_score (__init__ a b e)
             (map Fin original) (map Fin transformed) = Ok s
           /\ consciousness_score s
              = Fin (Spec.consciousness (List.length original) transformed)
           /\ (0 <= Spec.consciousness (List.length original) transformed <= 1)%R).
Proof.
  split.
  - intros a b e original transformed Hlen.
    assert (Hok : exists s,
      calculate_consciousness_score (__init__ a b e) original transformed = Ok s).
    { unfold calculate_consciousness_score, np_corrcoef. rewrite Hlen, Z.eqb_refl.
      destruct (1 <? len transformed)%Z; eexists; reflexivity. }
    destruct Hok as [s Hs]. exists s. split; [exact Hs|]. split.
    + revert Hs. unfold calculate_consciousness_score.
      match goal with
      | |- context [match ?r with inl _ => _ | inr _ => _ end] =>
          destruct r as [ex|corr]; [discriminate|]
      end.
      intros H. injection H as <-. reflexivity.
    + exact (binary64_score _ _ _ _ _ _ Hs).
  - intros a b e original transformed Ho Hlen.
    destruct (exact_score a b e original transformed Ho Hlen) as [s [Hs [Hc _]]].
    exists s. split; [exact Hs|]. split; [exact Hc|].
    apply consciousness_range. destruct original; [contradiction|simpl; lia].
Qed.

Lemma consciousness_score_range_witness :
  exists s,
    calculate_consciousness_score (__init__ None default_beta default_epsilon)
      (map Fin [1; 2]%R) (map Fin [3; 5]%R) = Ok s
    /\ consciousness_score s = Fin (Spec.consciousness 2 [3; 5]%R)
    /\ (0 <= Spec.consciousness 2 [3; 5]%R <= 1)%R.
Proof.
  apply (proj2 consciousness_score_range None default_beta default_epsilon
           [1; 2]%R [3; 5]%R).
  - discriminate.
  - reflexivity.
Defined.

(** ** The correlation *)

(** C5, as stated, fails: for the pair below, of length two, the transformed
    sequence is constant, its standard deviation is zero, and the
    correlation returned is [0 / 0], that is NaN, which lies in no
    interval. *)
Lemma correlation_of_constant_sequence :
  let original := [1%float; 2%float] in
  let transformed := [5%float; 5%float] in
  exists s,
    calculate_consciousness_score default original transformed = Ok s
    /\ PrimFloat.is_nan (correlation s) = true
    /\ Binary64.between (f_of_int (-1)) (f_of_int 1) (correlation s) = false.
Proof.
  cbv zeta. eexists.
  split; [vm_compute; reflexivity|]. split; vm_compute; reflexivity.
Qed.

(** C5, amended.  For a pair of length at most one the correlation is 0.
    For a pair of equal length greater than one it is the clipped Pearson
    coefficient, which is either NaN (as when a standard deviation is zero:
    a constant sequence) or a number of [-1, 1]; for a pair of different
    lengths, the first greater than one, the call raises.  In exact
    arithmetic, for finite sequences of equal length greater than one whose
    squared deviations from the mean do not sum to zero, it is a number of
    [-1, 1]. *)
Theorem correlation_range :
  (forall (self : FractalHarmonicTransform) (original transformed : list float),
      ((len original <= 1)%Z ->
       exists s,
         calculate_consciousness_score self original transformed = Ok s
         /\ correlation s = f_of_int 0)
      /\ ((1 < len original)%Z -> len original = len transformed ->
          exists s,
            calculate_consciousness_score self original transformed = Ok s
            /\ correlation s
               = np_clip (correlation_before_clip original transformed)
                         (f_of_int (-1)) (f_of_int 1)
            /\ (PrimFloat.is_nan (correlation s) = true
                \/ Binary64.between (f_of_int (-1)) (f_of_int 1)
                     (correlation s) = true))
      /\ ((1 < len original)%Z -> len original <> len transformed ->
          exists e,
            calculate_consciousness_score self original transformed = Raise e))
  /\ (forall (self : FractalHarmonicTransform) (original transformed : list R),
         (1 < List.length original)%nat ->
         List.length original = List.length transformed ->
         (0 < Spec.squared_deviations original)%R ->
         (0 < Spec.squared_deviations transformed)%R ->
         exists s r,
           calculate_consciousness_score self (map Fin original) (map Fin transformed)
           = Ok s
           /\ correlation s = Fin r /\ (-1 <= r <= 1)%R).
Proof.
  split.
  - intros self original transformed. split; [|split].
    + intros Hlen. unfold calculate_consciousness_score.
      replace (1 <? len original)%Z with false
        by (symmetry; apply Z.ltb_ge; exact Hlen).
      eexists. split; reflexivity.
    + intros Hlen Heq. unfold calculate_consciousness_score, np_corrcoef.
      replace (1 <? len original)%Z with true
        by (symmetry; apply Z.ltb_lt; exact Hlen).
      rewrite Heq, Z.eqb_refl. eexists. split; [reflexivity|].
      cbn [correlation]. split; [reflexivity|]. apply clip_range.
    + intros Hlen Hne. unfold calculate_consciousness_score, np_corrcoef.
      replace (1 <? len original)%Z with true
        by (symmetry; apply Z.ltb_lt; exact Hlen).
      replace (len original =? len transformed)%Z with false
        by (symmetry; apply Z.eqb_neq; exact Hne).
      eexists. reflexivity.
  - intros self original transformed Hn Hlen Ho Ht.
    destruct (exact_correlation original transformed Hn Hlen Ho Ht) as [r [Hr Hb]].
    unfold calculate_consciousness_score, np_corrcoef.
    rewrite !exact_len, Hlen, Z.eqb_refl.
    replace (1 <? Z.of_nat (List.length transformed))%Z with true
      by (symmetry; apply Z.ltb_lt; lia).
    eexists. exists r. split; [reflexivity|]. cbn [correlation].
    split; [exact Hr|exact Hb].
Qed.

Lemma correlation_range_witness :
  exists s r,
    calculate_consciousness_score default (map Fin [1; 2]%R) (map Fin [3; 5]%R)
    = Ok s
    /\ correlation s = Fin r /\ (-1 <= r <= 1)%R.
Proof.
  apply (proj2 correlation_range default [1; 2]%R [3; 5]%R).
  - simpl. lia.
  - reflexivity.
  - unfold Spec.squared_deviations, Spec.Rmean, Spec.Rsum. simpl. lra.
  - unfold Spec.squared_deviations, Spec.Rmean, Spec.Rsum. simpl. lra.
Defined.

(** ** The orchestrator *)

(** C6: the code at a failing pair.  With [sizes = [2, 1]] the pair
    [(fibonacci, 2)] is validated and recorded, the pair [(fibonacci, 1)]
    raises inside [validate_transformation], and the exception leaves
    [run_comprehensive_validation]: no suite result is returned and the
    other patterns are never run, although [(golden_ratio, 2)] validates
    when run on its own. *)
Theorem run_aborts_at_failing_pair :
  let run :=
    run_comprehensive_validation counting_clock zeros_uniform
      pearsonr_checked test_zero test_zero in
  let validate :=
    validate_transformation counting_clock pearsonr_checked test_zero test_zero in
  let out := run (Some [2; 1]%Z) (fresh (F := ieee)) in
  fst out = Raise (ValueError "x and y must have length at least 2.")
  /\ results (suite (snd out)) = [0%nat]
  /\ (exists data,
        generate_synthetic_data zeros_uniform (suite fresh) 2 "golden_ratio"
        = Ok data
        /\ fst (validate data fresh) = Ok 0%nat).
Proof.
  cbv zeta. split; [reflexivity|]. split; [reflexivity|].
  eexists. split; reflexivity.
Qed.

(** ** Construction *)

(** C7, as stated, fails: constructing an instance with [epsilon = -1.0]
    returns it; nothing is raised. *)
Lemma non_positive_epsilon_accepted :
  exists self : FractalHarmonicTransform (F := float),
    new None default_beta (f_of_int (-1)) = Ok self
    /\ f_leb (epsilon self) (f_of_int 0) = true
    /\ forall e, new None default_beta (f_of_int (-1)) <> Raise e.
Proof.
  eexists. split; [reflexivity|]. split; [vm_compute; reflexivity|].
  intros e H. discriminate H.
Qed.

(** C7, amended.  Construction never fails: [__init__] checks none of its
    arguments and stores [epsilon] and [beta] as given, whatever their value
    or sign. *)
Theorem construction_never_fails {F : Type} {A : Arith F}
    (alpha0 : option F) (beta0 epsilon0 : F) :
  exists self,
    new alpha0 beta0 epsilon0 = Ok self
    /\ epsilon self = epsilon0
    /\ beta self = beta0
    /\ forall e, new alpha0 beta0 epsilon0 <> Raise e.
Proof.
  exists (__init__ alpha0 beta0 epsilon0). repeat split.
  intros e H. discriminate H.
Qed.

(** ** The statistical validator: what a call appends *)

(** C8, as stated, fails for a call that raises: on a dataset of one point
    [scipy.stats.pearsonr] raises before [self.results.append] is reached,
    and the list of results is left as it was. *)
Lemma validate_short_dataset_appends_nothing :
  let out :=
    validate_transformation counting_clock pearsonr_checked test_zero test_zero
      [Fin 1] fresh in
  fst out = Raise (ValueError "x and y must have length at least 2.")
  /\ results (suite (snd out)) = results (suite (fresh (F := ieee)))
  /\ results (suite (snd out)) = [].
Proof.
  cbv zeta. repeat split.
Qed.

(** C8, amended.  A call to [validate_transformation] that returns appends
    exactly one record: it is stored at a new address, that address is added
    at the end of [self.results], the records stored before and their order
    are unchanged, and [self.fht] is untouched.  A call that raises changes
    neither [self.results] nor any stored record. *)
Theorem validate_appends_one {F : Type} {A : Arith F} {L : Libm F}
    (clock : nat -> F)
    (pearsonr spearmanr ks_2samp : list F -> list F -> result (F * F))
    (data : list F) (w : World) :
  let validate := validate_transformation clock pearsonr spearmanr ks_2samp in
  let transformed := transform (fht (suite w)) data default_amplification in
  match validate data w with
  | (inr a, w') =>
      a = List.length (objects w)
      /\ results (suite w') = results (suite w) ++ [a]
      /\ fht (suite w') = fht (suite w)
      /\ exists r, objects w' = objects w ++ [r] /\ dataset_size r = len data
  | (inl e, w') => suite w' = suite w /\ objects w' = objects w
  end
  /\ (data <> [] ->
      (exists p, pearsonr data transformed = Ok p) ->
      (exists p, spearmanr data transformed = Ok p) ->
      (exists p, ks_2samp data transformed = Ok p) ->
      exists a w', validate data w = (Ok a, w')).
Proof.
  cbv zeta. split; [apply validate_frame|apply validate_returns].
Qed.

Lemma validate_appends_one_witness :
  exists a w',
    validate_transformation counting_clock pearsonr_checked test_zero test_zero
      [Fin 1; Fin 2] fresh
    = (Ok a, w').
Proof.
  apply (proj2 (@validate_appends_one ieee exact exact_libm counting_clock
                  pearsonr_checked test_zero test_zero [Fin 1; Fin 2] fresh)).
  - discriminate.
  - eexists. reflexivity.
  - eexists. reflexivity.
  - eexists. reflexivity.
Defined.

(** ** The two transforms *)

(** The two transforms agree in any arithmetic in which multiplying by 1.0
    changes nothing. *)
Lemma agreement_when_one_is_neutral {F : Type} {A : Arith F} {L : Libm F}
    (mul_one : forall x : F, f_mul x (f_of_int 1) = x) (data : list F) :
  transform default data default_amplification
  = mathematical_derivations.transform mathematical_derivations.__init__ data.
Proof.
  unfold transform, mathematical_derivations.transform. f_equal.
  unfold raw, mathematical_derivations.raw.
  apply map_ext. intros ps. unfold default_amplification.
  rewrite mul_one. reflexivity.
Qed.

(** Machine integers are far below the largest float. *)
Lemma machine_ints_convert (l : list Z) :
  forallb machine_int l = true ->
  exists a : list float, float_array l = Some a.
Proof.
  induction l as [|n l IH]; intros H; [exists []; reflexivity|].
  cbn [forallb] in H. apply andb_true_iff in H. destruct H as [Hn Hl].
  destruct (IH Hl) as [a Ha]. cbn [float_array]. rewrite Ha.
  unfold machine_int in Hn. apply andb_true_iff in Hn. destruct Hn as [Hlo Hhi].
  apply Z.leb_le in Hlo. apply Z.ltb_lt in Hhi.
  cbn [checked_of_int binary64_int]. unfold binary64_checked_of_int.
  destruct (Z.abs n <? 2 ^ 63)%Z; [eexists; reflexivity|].
  assert (Hthr : (2 ^ 64 <= overflow_threshold)%Z) by (vm_compute; discriminate).
  assert (H63 : (2 ^ 63 < 2 ^ 64)%Z) by (vm_compute; reflexivity).
  destruct (Z.ltb_spec (Z.abs n) overflow_threshold) as [_|H']; [eexists; reflexivity|].
  exfalso. lia.
Qed.

Lemma exact_float_array (l : list Z) :
  float_array (F := ieee) l = Some (map (fun z => Fin (IZR z)) l).
Proof.
  induction l as [|n l IH]; [reflexivity|].
  cbn [float_array checked_of_int exact_int]. rewrite IH. reflexivity.
Qed.

Lemma not_numeric_raises {F : Type} {A : Arith F} {L : Libm F} {C : IntToFloat F}
    (self : FractalHarmonicTransform) (data : py_data F) (amplification : F) :
  numeric data = false ->
  exists e, transform_call self data amplification = inl e.
Proof.
  destruct data as [a|l|l]; cbn [numeric]; try discriminate.
  intros H. unfold transform_call. rewrite H.
  destruct (existsb _ l); eexists; reflexivity.
Qed.

(** The two methods agree on every argument that [np.array] turns into an
    array of numbers, in any arithmetic in which multiplying by 1.0 changes
    nothing and machine integers convert. *)
Lemma agreement_on_numeric_data {F : Type} {A : Arith F} {L : Libm F}
    {C : IntToFloat F}
    (mul_one : forall x : F, f_mul x (f_of_int 1) = x)
    (convert : forall l, forallb machine_int l = true ->
                 exists a : list F, float_array l = Some a)
    (data : py_data F) :
  numeric data = true ->
  exists out,
    transform_call default data default_amplification = inr out
    /\ mathematical_derivations.transform_call mathematical_derivations.__init__ data
       = inr out.
Proof.
  intros Hnum. unfold transform_call, mathematical_derivations.transform_call.
  destruct data as [a|l|l]; cbn [numeric] in Hnum.
  - eexists. split; [reflexivity|].
    rewrite (agreement_when_one_is_neutral mul_one). reflexivity.
  - eexists. split; [reflexivity|].
    rewrite (agreement_when_one_is_neutral mul_one). reflexivity.
  - rewrite Hnum. destruct (convert l Hnum) as [a ->].
    eexists. split; [reflexivity|].
    rewrite (agreement_when_one_is_neutral mul_one). reflexivity.
Qed.

(** C9, as stated, fails: on the list [[1, 2**64]] of Python ints the
    transform of [fht_validation_suite.py] raises [TypeError]
    ([np.array(data)] is an array of objects, on which [np.log] has no
    loop), while the transform of [mathematical_derivations.py], which
    converts with [dtype=float], returns the transform of [[1.0, 2.0**64]]. *)
Lemma transforms_differ_on_large_int :
  let data := IntList (F := float) [1; 2 ^ 64]%Z in
  @transform_call float binary64 soft_libm binary64_int default data
    default_amplification = inl TypeError
  /\ @mathematical_derivations.transform_call float binary64 soft_libm
       binary64_int mathematical_derivations.__init__ data
     = inr (@mathematical_derivations.transform float binary64 soft_libm
              mathematical_derivations.__init__ [1; 0x1p64]%float)
  /\ @transform_call float binary64 soft_libm binary64_int default data
       default_amplification
     <> @mathematical_derivations.transform_call float binary64 soft_libm
          binary64_int mathematical_derivations.__init__ data.
Proof.
  cbv zeta.
  assert (H1 : @transform_call float binary64 soft_libm binary64_int default
                 (IntList [1; 2 ^ 64]%Z) default_amplification = inl TypeError).
  { vm_compute. reflexivity. }
  assert (H2 : @mathematical_derivations.transform_call float binary64 soft_libm
                 binary64_int mathematical_derivations.__init__
                 (IntList [1; 2 ^ 64]%Z)
               = inr (@mathematical_derivations.transform float binary64 soft_libm
                        mathematical_derivations.__init__ [1; 0x1p64]%float)).
  { vm_compute. reflexivity. }
  split; [exact H1|]. split; [exact H2|].
  rewrite H1, H2. discriminate.
Qed.

(** C9, amended.  With the default parameters, the transform of
    [fht_validation_suite.py] called with amplification 1.0 and the
    transform of [mathematical_derivations.py] return the same sequence on
    every argument that [np.array] turns into an array of numbers: an array
    of floats, a list of floats, a list of ints that all fit a machine
    integer.  This holds in binary64, whatever [np.log] and [np.power]
    compute (multiplication by 1.0 is exact), and in exact arithmetic.  On a
    list with an int that fits no machine integer the first transform
    raises, in any arithmetic. *)
Theorem transforms_agree :
  (forall (L : Libm float) (data : py_data float),
      numeric data = true ->
      exists out,
        @transform_call float binary64 L binary64_int default data
          default_amplification = inr out
        /\ @mathematical_derivations.transform_call float binary64 L binary64_int
             mathematical_derivations.__init__ data = inr out)
  /\ (forall data : py_data ieee,
         numeric data = true ->
         exists out,
           transform_call default data default_amplification = inr out
           /\ mathematical_derivations.transform_call
                mathematical_derivations.__init__ data = inr out)
  /\ (forall (F : Type) (A : Arith F) (L : Libm F) (C : IntToFloat F)
             (data : py_data F),
         numeric data = false ->
         exists e, transform_call default data default_amplification = inl e).
Proof.
  split; [|split].
  - intros L data.
    apply (@agreement_on_numeric_data float binary64 L binary64_int binary64_mul_1).
    exact machine_ints_convert.
  - intros data.
    apply (@agreement_on_numeric_data ieee exact exact_libm exact_int exact_mul_1).
    intros l _. eexists. apply exact_float_array.
  - intros F A L C data. apply not_numeric_raises.
Qed.

(** ** Amplification *)

Lemma exact_raw_floor_finite (m : R) :
  Forall (fun r => is_finite r = true) (raw default (Fin m) [Fin 0]).
Proof.
  rewrite raw_map. constructor; [|constructor].
  destruct exact_default as [Hphi [Heps [Ha Hb]]].
  rewrite (exact_raw1_floor default Exact.phi_R 1 m (Fin 0) Hphi Heps Ha Hb).
  - reflexivity.
  - simpl. apply Rltb_true. exact eps_R_pos.
Qed.

(** C10, as stated, fails in binary64.  On the input [1.0] the signed power
    term, about [6.2e-20], is lost when [beta = 1.0] is added: the transform
    with amplification 1.0 returns exactly [1.0], so the claimed value
    [a * (1.0 - beta) + beta] is [1.0] for every [a]; with [a = 1e20] the
    transform returns a number above 7.  Neither call falls back to
    [beta]. *)
Lemma amplification_absorbed_by_rounding :
  let T := @transform float binary64 soft_libm default in
  let a := 1e20%float in
  Forall (fun r => is_finite r = true)
         (@raw float binary64 soft_libm default a [1%float]
          ++ @raw float binary64 soft_libm default default_amplification [1%float])
  /\ map (fun t => f_add (f_mul a (f_sub t (beta default))) (beta default))
         (T [1%float] default_amplification)
     = [1%float]
  /\ exists y, T [1%float] a = [y] /\ PrimFloat.ltb 7 y = true.
Proof.
  cbv zeta. split; [|split].
  - repeat constructor.
  - vm_compute. reflexivity.
  - eexists. split; vm_compute; reflexivity.
Qed.

(** C10, amended.  In exact arithmetic, where no element falls back to
    [beta] in either call, each element of [transform data a] is
    [a * (t - beta) + beta] for [t] the corresponding element of
    [transform data 1.0]: the amplification scales the signed power term and
    leaves the offset alone.  (In binary64 the two sides agree only up to
    rounding.) *)
Theorem amplification_scales_power_term
    (self : FractalHarmonicTransform (F := ieee)) (data : list ieee) (a : ieee) :
  Forall (fun r => is_finite r = true) (raw self a data) ->
  Forall (fun r => is_finite r = true) (raw self default_amplification data) ->
  transform self data a
  = map (fun t => f_add (f_mul a (f_sub t (beta self))) (beta self))
        (transform self data default_amplification).
Proof.
  rewrite !raw_map, !transform_map, map_map, !Forall_forall.
  intros Ha H1. apply map_ext_in. intros x Hx.
  specialize (Ha _ (in_map _ _ _ Hx)). specialize (H1 _ (in_map _ _ _ Hx)).
  unfold transform1. unfold is_finite in Ha, H1.
  apply negb_true_iff in Ha, H1. rewrite Ha, H1. unfold np_where.
  revert Ha H1. unfold raw1, default_amplification.
  set (q := f_mul (f_mul (alpha self) _) _).
  change (f_of_int 1) with (Fin 1).
  destruct q as [qr| | |], (beta self) as [b| | |], a as [ar| | |];
    simpl; try rewrite (Rsgn_pos 1) by lra; simpl;
    try discriminate; try (destruct (Exact.Rsgn qr); simpl; discriminate).
  intros _ _. f_equal. ring.
Qed.

Lemma amplification_scales_power_term_witness :
  transform default [Fin 0] (Fin 2)
  = map (fun t => f_add (f_mul (Fin 2) (f_sub t (beta default))) (beta default))
        (transform default [Fin 0] default_amplification).
Proof.
  apply (amplification_scales_power_term default [Fin 0] (Fin 2)).
  - exact (exact_raw_floor_finite 2).
  - exact (exact_raw_floor_finite 1).
Defined.

(** * Further properties *)

(** ** Shape of the transform *)

(** X1. The transform works element by element, whatever the arithmetic:
    it returns one element per input element (none for an empty dataset),
    and the transform of two datasets put end to end is the two transforms
    put end to end, so a dataset may be transformed in pieces. *)
Theorem transform_is_elementwise {F : Type} {A : Arith F} {L : Libm F}
    (self : FractalHarmonicTransform) (data more : list F) (amplification : F) :
  List.length (transform self data amplification) = List.length data
  /\ transform self [] amplification = []
  /\ transform self (data ++ more) amplification
     = transform self data amplification ++ transform self more amplification.
Proof.
  split; [apply transform_length|]. split; [reflexivity|].
  rewrite !transform_map. apply map_app.
Qed.

(** ** The reference scenario *)

(** On the input [1, 2, ..., 10] with the default parameters, evaluated
    on machine numbers, the first transformed element is exactly 1, the last
    is 7.238281 within one millionth, and the consciousness score is
    0.986422 within one millionth. *)
Theorem reference_scenario :
  let data := map Binary64.of_int [1; 2; 3; 4; 5; 6; 7; 8; 9; 10]%Z in
  let transformed := @transform float binary64 soft_libm default data default_amplification in
  exists s,
    calculate_consciousness_score default data transformed = Ok s
    /\ nth 0 transformed PrimFloat.nan = PrimFloat.one
    /\ Binary64.between (lit 7238280 1000000) (lit 7238282 1000000)
         (nth 9 transformed PrimFloat.nan) = true
    /\ Binary64.between (lit 986421 1000000) (lit 986423 1000000)
         (consciousness_score s) = true.
Proof.
  cbv zeta. eexists. split; [vm_compute; reflexivity|].
  repeat split; vm_compute; reflexivity.
Qed.

(** On machine numbers, with the default parameters and amplification
    1.0, the transform of a dataset of zeros is constant, and its value lies
    between -332.7061 and -332.7060. *)
Theorem clamped_value_on_machine_numbers :
  let transformed :=
    @transform float binary64 soft_libm default
      [PrimFloat.zero; PrimFloat.zero; PrimFloat.zero] default_amplification in
  exists y,
    transformed = [y; y; y]
    /\ Binary64.between (lit (-3327061) 10000) (lit (-3327060) 10000) y = true.
Proof.
  cbv zeta. eexists. split; vm_compute; reflexivity.
Qed.

(** ** The orchestrator when every pair returns *)

Section OrchestratorFacts.
Context {F : Type} {A : Arith F} {L : Libm F}.
Variable clock : nat -> F.
Variable np_random_uniform : Z -> F -> F -> Z -> result (list F).
Variables pearsonr spearmanr ks_2samp : list F -> list F -> result (F * F).

Lemma generate_reads_fht (s1 s2 : ValidationSuite) (n : Z) (p : string) :
  fht s1 = fht s2 ->
  generate_synthetic_data np_random_uniform s1 n p
  = generate_synthetic_data np_random_uniform s2 n p.
Proof.
  intros H. unfold generate_synthetic_data. rewrite H. reflexivity.
Qed.

Lemma tag_frame (a : ref) (p : string) (n : Z) (w : World (F := F)) :
  exists w',
    tag a p n w = (Ok tt, w')
    /\ List.length (objects w') = List.length (objects w)
    /\ suite w' = suite w.
Proof.
  eexists. split; [reflexivity|]. simpl. split; [|reflexivity].
  rewrite length_map, length_combine, length_seq. apply Nat.min_id.
Qed.

Lemma validate_pair_returns (p : string) (n : Z) (acc : list ref) (w : World) :
  pair_returns np_random_uniform pearsonr spearmanr ks_2samp (fht (suite w)) p n ->
  exists w',
    validate_pair clock np_random_uniform pearsonr spearmanr ks_2samp p acc n w
    = (Ok (acc ++ [List.length (objects w)]), w')
    /\ List.length (objects w') = S (List.length (objects w))
    /\ results (suite w') = results (suite w) ++ [List.length (objects w)]
    /\ fht (suite w') = fht (suite w).
Proof.
  intros [data [Hgen [Hne [Hp [Hs Hk]]]]].
  rewrite (generate_reads_fht _ (suite w)) in Hgen by reflexivity.
  destruct (validate_returns clock pearsonr spearmanr ks_2samp data w Hne Hp Hs Hk)
    as [a [w1 Hval]].
  pose proof (validate_frame clock pearsonr spearmanr ks_2samp data w) as Hfr.
  rewrite Hval in Hfr. destruct Hfr as [Ha [Hres [Hfht [r [Hobj _]]]]].
  destruct (tag_frame a p n w1) as [w2 [Htag [Hlen Hsuite]]].
  exists w2. unfold validate_pair, bind, get_self, lift, ret.
  unfold Ok in *. rewrite Hgen, Hval, Htag. subst a.
  split; [reflexivity|].
  rewrite Hlen, Hsuite, Hobj, length_app. cbn [List.length].
  repeat split; [lia|exact Hres|exact Hfht].
Qed.

Lemma inner_loop_returns (p : string) (sizes : list Z) :
  forall (acc : list ref) (w : World),
    (forall n, In n sizes ->
       pair_returns np_random_uniform pearsonr spearmanr ks_2samp (fht (suite w)) p n) ->
    exists w',
      for_each sizes
        (validate_pair clock np_random_uniform pearsonr spearmanr ks_2samp p) acc w
      = (Ok (acc ++ seq (List.length (objects w)) (List.length sizes)), w')
      /\ List.length (objects w') = (List.length (objects w) + List.length sizes)%nat
      /\ results (suite w')
         = results (suite w) ++ seq (List.length (objects w)) (List.length sizes)
      /\ fht (suite w') = fht (suite w).
Proof.
  induction sizes as [|n sizes IH]; intros acc w Hall.
  - exists w. cbn [for_each List.length seq]. rewrite !app_nil_r.
    repeat split. lia.
  - destruct (validate_pair_returns p n acc w (Hall n (or_introl eq_refl)))
      as [w1 [Hstep [Hlen [Hres Hfht]]]].
    destruct (IH (acc ++ [List.length (objects w)]) w1) as [w2 [Hrest [Hlen2 [Hres2 Hfht2]]]].
    { intros m Hm. rewrite Hfht. apply Hall. right. exact Hm. }
    exists w2. cbn [for_each List.length seq]. unfold bind at 1.
    unfold Ok in *. rewrite Hstep. cbv beta iota.
    rewrite Hrest, Hlen2, Hres2, Hfht2, Hres, Hlen, Hfht, <- !app_assoc.
    repeat split. lia.
Qed.
End OrchestratorFacts.

(** X2. When generation and the three tests return for every pair (on
    datasets that are not empty), [run_comprehensive_validation] returns a
    suite result with one entry per pattern, in the order fibonacci,
    golden_ratio, prime_modulo, random; each entry lists one record per
    size, in the order of [sizes]; the records are those appended to
    [self.results], in the order of the iteration. *)
Theorem run_records_in_iteration_order {F : Type} {A : Arith F} {L : Libm F}
    (clock : nat -> F) (np_random_uniform : Z -> F -> F -> Z -> result (list F))
    (pearsonr spearmanr ks_2samp : list F -> list F -> result (F * F))
    (sizes : list Z) (w : World) :
  (forall p n, In p patterns -> In n sizes ->
     pair_returns np_random_uniform pearsonr spearmanr ks_2samp (fht (suite w)) p n) ->
  let a := List.length (objects w) in
  let k := List.length sizes in
  exists w',
    run_comprehensive_validation clock np_random_uniform pearsonr spearmanr ks_2samp
      (Some sizes) w
    = (Ok [("fibonacci"%string, seq a k);
           ("golden_ratio"%string, seq (a + k) k);
           ("prime_modulo"%string, seq (a + k + k) k);
           ("random"%string, seq (a + k + k + k) k)], w')
    /\ results (suite w')
       = results (suite w) ++ seq a k ++ seq (a + k) k ++ seq (a + k + k) k
         ++ seq (a + k + k + k) k
    /\ fht (suite w') = fht (suite w).
Proof.
  intros Hall. cbv zeta.
  destruct (inner_loop_returns clock np_random_uniform pearsonr spearmanr ks_2samp
              "fibonacci" sizes [] w) as [w1 [H1 [L1 [R1 F1]]]].
  { intros n Hn. apply Hall; [cbn; tauto|exact Hn]. }
  destruct (inner_loop_returns clock np_random_uniform pearsonr spearmanr ks_2samp
              "golden_ratio" sizes [] w1) as [w2 [H2 [L2 [R2 F2]]]].
  { intros n Hn. rewrite F1. apply Hall; [cbn; tauto|exact Hn]. }
  destruct (inner_loop_returns clock np_random_uniform pearsonr spearmanr ks_2samp
              "prime_modulo" sizes [] w2) as [w3 [H3 [L3 [R3 F3]]]].
  { intros n Hn. rewrite F2, F1. apply Hall; [cbn; tauto|exact Hn]. }
  destruct (inner_loop_returns clock np_random_uniform pearsonr spearmanr ks_2samp
              "random" sizes [] w3) as [w4 [H4 [L4 [R4 F4]]]].
  { intros n Hn. rewrite F3, F2, F1. apply Hall; [cbn; tauto|exact Hn]. }
  exists w4. unfold run_comprehensive_validation, patterns.
  cbn [for_each]. unfold bind, ret. unfold Ok in *.
  rewrite H1, H2, H3, H4. cbn [app dict_set String.eqb Ascii.eqb Bool.eqb].
  rewrite L3, L2, L1 in *. rewrite R4, R3, R2, R1, F4, F3, F2, F1, <- !app_assoc.
  repeat split.
Qed.

Lemma every_pair_of_size_two_returns (p : string) (n : Z) :
  In p patterns -> In n [2%Z] ->
  @pair_returns float binary64 soft_libm zeros_uniform pearsonr_checked
    test_zero test_zero (fht (suite fresh)) p n.
Proof.
  intros Hp Hn. destruct Hn as [<-|[]].
  unfold patterns in Hp. cbn [In] in Hp.
  destruct Hp as [<-|[<-|[<-|[<-|[]]]]];
    (eexists; split; [vm_compute; reflexivity|]; split; [discriminate|];
     repeat split; eexists; vm_compute; reflexivity).
Qed.

Lemma run_records_in_iteration_order_witness :
  exists w',
    @run_comprehensive_validation float binary64 soft_libm counting_clock
      zeros_uniform pearsonr_checked test_zero test_zero (Some [2%Z]) fresh
    = (Ok [("fibonacci"%string, [0%nat]); ("golden_ratio"%string, [1%nat]);
           ("prime_modulo"%string, [2%nat]); ("random"%string, [3%nat])], w')
    /\ results (suite w') = [0; 1; 2; 3]%nat
    /\ fht (suite w') = fht (suite fresh).
Proof.
  apply (@run_records_in_iteration_order float binary64 soft_libm counting_clock
           zeros_uniform pearsonr_checked test_zero test_zero [2%Z] fresh
           every_pair_of_size_two_returns).
Defined.

(** ** The sieve of [_generate_primes] *)

Section SieveFacts.
Local Open Scope Z_scope.

Lemma nth_clear_at (s : list bool) (j k : nat) :
  nth k (clear_at s j) false = if Nat.eqb k j then false else nth k s false.
Proof.
  revert j k. induction s as [|b s IH]; intros j k.
  - destruct j, k; simpl; try reflexivity; destruct (Nat.eqb _ _); reflexivity.
  - destruct j as [|j], k as [|k]; simpl; try reflexivity. apply IH.
Qed.

Lemma nth_clear_all (js : list Z) :
  forall (s : list bool) (k : nat),
    nth k (fold_left (fun s j => clear_at s (Z.to_nat j)) js s) false
    = nth k s false && negb (existsb (fun j => Nat.eqb k (Z.to_nat j)) js).
Proof.
  induction js as [|j js IH]; intros s k; simpl.
  - rewrite andb_true_r. reflexivity.
  - rewrite IH, nth_clear_at. destruct (Nat.eqb k (Z.to_nat j)); simpl.
    + symmetry. apply andb_false_r.
    + reflexivity.
Qed.

Lemma In_py_range3 (a b c j : Z) :
  0 < c ->
  In j (py_range3 a b c) <-> exists t, 0 <= t /\ j = a + t * c /\ j < b.
Proof.
  intros Hc. unfold py_range3. rewrite in_map_iff. split.
  - intros [t [<- Ht]]. apply in_seq in Ht. exists (Z.of_nat t).
    split; [lia|]. split; [reflexivity|].
    assert (Hq : Z.of_nat t < (b - a + c - 1) / c) by lia.
    assert (Hm : c * ((b - a + c - 1) / c) <= b - a + c - 1)
      by (apply Z.mul_div_le; exact Hc).
    nia.
  - intros [t [Ht [-> Hlt]]]. exists (Z.to_nat t). split; [lia|].
    apply in_seq. split; [lia|]. simpl.
    assert (t + 1 <= (b - a + c - 1) / c)
      by (apply Z.div_le_lower_bound; [exact Hc|nia]).
    lia.
Qed.

Lemma marked_cleared (ub m : Z) (s : list bool) (k : Z) :
  2 <= m -> 0 <= k ->
  marked (fold_left (fun s j => clear_at s (Z.to_nat j))
            (py_range3 (m * m) (ub + 1) m) s) k = true
  <-> marked s k = true /\ ~ (m * m <= k <= ub /\ (m | k)).
Proof.
  intros Hm Hk. unfold marked. rewrite nth_clear_all, andb_true_iff, negb_true_iff.
  apply and_iff_compat_l. rewrite <- not_true_iff_false, existsb_exists.
  apply not_iff_compat. split.
  - intros [j [Hj Hjk]]. apply Nat.eqb_eq in Hjk.
    apply In_py_range3 in Hj; [|lia]. destruct Hj as [t [Ht [-> Hlt]]].
    assert (k = m * m + t * m) by nia. subst k.
    split; [nia|]. exists (m + t). ring.
  - intros [[Hlo Hhi] [q Hq]]. exists k. split; [|apply Nat.eqb_refl].
    apply In_py_range3; [lia|]. exists (q - m). split; [nia|]. split; [nia|lia].
Qed.

Lemma sieve_step_sieved (ub m : Z) (s : list bool) :
  2 <= m -> sieved ub m s -> sieved ub (m + 1) (sieve_step ub s m).
Proof.
  intros Hm Inv k Hk. unfold sieve_step.
  destruct (nth (Z.to_nat m) s false) eqn:Hmark.
  - rewrite marked_cleared by assumption. rewrite (Inv k Hk). split.
    + intros [[Hr Hall] Hnot]. split; [exact Hr|]. intros i Hi Hsq Hdiv.
      destruct (Z.eq_dec i m) as [->|Hne].
      * apply Hnot. split; [lia|exact Hdiv].
      * apply (Hall i); [lia|exact Hsq|exact Hdiv].
    + intros [Hr Hall]. split; [split; [exact Hr|]|].
      * intros i Hi. apply Hall. lia.
      * intros [Hsq Hdiv]. apply (Hall m); [lia|lia|exact Hdiv].
  - rewrite (Inv k Hk). split.
    + intros [Hr Hall]. split; [exact Hr|]. intros i Hi Hsq Hdiv.
      destruct (Z.eq_dec i m) as [->|Hne].
      * assert (Hmm : marked s m = true).
        { apply Inv; [lia|]. split; [nia|]. intros i Hi' Hsq' Hdiv'.
          apply (Hall i); [exact Hi'|nia|].
          apply Z.divide_trans with m; assumption. }
        unfold marked in Hmm. congruence.
      * apply (Hall i); [lia|exact Hsq|exact Hdiv].
    + intros [Hr Hall]. split; [exact Hr|]. intros i Hi. apply Hall. lia.
Qed.

Lemma sieve_loop_sieved (ub : Z) (cnt : nat) :
  forall (a : nat) (s : list bool),
    sieved ub (2 + Z.of_nat a) s ->
    sieved ub (2 + Z.of_nat (a + cnt))
      (fold_left (sieve_step ub)
         (map (fun k => 2 + Z.of_nat k * 1) (seq a cnt)) s).
Proof.
  induction cnt as [|cnt IH]; intros a s Inv.
  - simpl. rewrite Nat.add_0_r. exact Inv.
  - cbn [seq map fold_left].
    replace (a + S cnt)%nat with (S a + cnt)%nat by lia. apply IH.
    replace (2 + Z.of_nat (S a)) with (2 + Z.of_nat a + 1) by lia.
    replace (2 + Z.of_nat a * 1) with (2 + Z.of_nat a) by lia.
    apply sieve_step_sieved; [lia|exact Inv].
Qed.

Lemma sieve_start (ub : Z) :
  sieved ub 2 (clear_at (clear_at (repeat true (Z.to_nat (ub + 1))) 0) 1).
Proof.
  intros k Hk. unfold marked. rewrite !nth_clear_at.
  destruct (Nat.eqb_spec (Z.to_nat k) 1) as [H1|H1].
  - split; [discriminate|]. intros [H _]. lia.
  - destruct (Nat.eqb_spec (Z.to_nat k) 0) as [H0|H0].
    + split; [discriminate|]. intros [H _]. lia.
    + split.
      * intros H. split; [|intros; lia].
        destruct (Nat.lt_ge_cases (Z.to_nat k) (Z.to_nat (ub + 1))) as [Hlt|Hge].
        { lia. }
        { rewrite nth_overflow in H; [discriminate|]. rewrite repeat_length. exact Hge. }
      * intros [Hr _]. 
        rewrite nth_repeat_lt; [reflexivity|lia].
Qed.

Lemma below_root (a m k : Z) :
  0 <= m -> 0 <= a -> a * a <= k -> k < m * m -> a < m.
Proof.
  intros Hm Ha Hsq Hk. destruct (Z_lt_ge_dec a m) as [Hlt|Hge]; [exact Hlt|].
  assert (m * m <= a * a) by (apply Z.mul_le_mono_nonneg; lia). lia.
Qed.

Lemma no_small_divisor_prime (ub m k : Z) :
  ub < m * m -> 0 <= m -> 2 <= k <= ub ->
  (forall i, 2 <= i < m -> i * i <= k -> ~ (i | k)) <-> Z.prime k.
Proof.
  intros Hroot Hm Hk. split.
  - intros Hall. split; [lia|]. intros n Hn [q Hq].
    assert (1 < q).
    { destruct (Z_le_gt_dec q 1) as [Hq1|Hq1]; [|lia].
      assert (q * n <= 1 * n) by (apply Z.mul_le_mono_nonneg_r; lia). lia. }
    assert (q < k).
    { assert (q * 2 <= q * n) by (apply Z.mul_le_mono_nonneg_l; lia). lia. }
    destruct (Z_le_gt_dec (n * n) k) as [Hle|Hgt].
    + apply (Hall n); [|exact Hle|exists q; exact Hq].
      split; [lia|]. apply (below_root n m k); lia.
    + assert (q < n).
      { destruct (Z_lt_ge_dec q n) as [Hlt|Hge]; [exact Hlt|].
        assert (n * n <= q * n) by (apply Z.mul_le_mono_nonneg_r; lia). lia. }
      assert (q * q <= k).
      { assert (q * q <= q * n) by (apply Z.mul_le_mono_nonneg_l; lia). lia. }
      apply (Hall q); [|assumption|exists n; lia].
      split; [lia|]. apply (below_root q m k); lia.
  - intros [_ Hp] i Hi Hsq Hdiv.
    assert (i * 2 <= i * i) by (apply Z.mul_le_mono_nonneg_l; lia).
    apply (Hp i); [lia|exact Hdiv].
Qed.

Lemma sieve_final (ub root : Z) :
  ub < (root + 1) * (root + 1) -> 0 <= root ->
  forall k, 0 <= k ->
    marked (fold_left (sieve_step ub) (py_range3 2 (root + 1) 1)
              (clear_at (clear_at (repeat true (Z.to_nat (ub + 1))) 0) 1)) k = true
    <-> k <= ub /\ Z.prime k.
Proof.
  intros Hroot Hr k Hk. unfold py_range3.
  pose proof (sieve_loop_sieved ub (Z.to_nat ((root + 1 - 2 + 1 - 1) / 1)) 0 _
                (sieve_start ub)) as Inv.
  rewrite (Inv k Hk). rewrite Z.div_1_r.
  set (m := 2 + Z.of_nat (0 + Z.to_nat (root + 1 - 2 + 1 - 1))).
  assert (Hm : root + 1 <= m) by (unfold m; lia).
  split.
  - intros [Hrange Hall]. split; [lia|].
    apply (no_small_divisor_prime ub m k); [nia|lia|exact Hrange|exact Hall].
  - intros [Hle Hp]. assert (2 <= k) by (destruct Hp; lia).
    split; [lia|].
    apply (no_small_divisor_prime ub m k); [nia|lia|lia|exact Hp].
Qed.

Lemma enumerate_marked (s : list bool) :
  forall a : nat,
    StronglySorted Z.lt
      (map fst (filter snd (combine (map Z.of_nat (seq a (List.length s))) s)))
    /\ forall k,
         In k (map fst (filter snd (combine (map Z.of_nat (seq a (List.length s))) s)))
         <-> Z.of_nat a <= k /\ nth (Z.to_nat k - a) s false = true.
Proof.
  induction s as [|b s IH]; intros a.
  - split; [constructor|]. intros k. cbn. split; [tauto|].
    intros [_ H]. destruct (Z.to_nat k - a)%nat; discriminate H.
  - destruct (IH (S a)) as [Hsorted Hin].
    assert (Hnth : forall k, Z.of_nat a <= k ->
              (k = Z.of_nat a /\ b = true
               \/ Z.of_nat (S a) <= k /\ nth (Z.to_nat k - S a) s false = true)
              <-> nth (Z.to_nat k - a) (b :: s) false = true).
    { intros k Hk. destruct (Z.eq_dec k (Z.of_nat a)) as [->|Hne].
      - rewrite Nat2Z.id, Nat.sub_diag. cbn. split; [intros [[_ H]|[H _]]; [exact H|lia]|].
        intros H. left. split; [reflexivity|exact H].
      - replace (Z.to_nat k - a)%nat with (S (Z.to_nat k - S a)) by lia. cbn [nth].
        split; [intros [[H _]|[_ H]]; [contradiction|exact H]|].
        intros H. right. split; [lia|exact H]. }
    cbn [List.length seq map combine filter snd]. destruct b; cbn [map fst].
    + split.
      * constructor; [exact Hsorted|]. apply Forall_forall. intros k Hk.
        apply Hin in Hk. lia.
      * intros k. cbn [In]. rewrite Hin. split.
        { intros [<-|[Hk Hm]].
          - split; [lia|]. apply Hnth; [lia|]. left. split; reflexivity.
          - split; [lia|]. apply Hnth; [lia|]. right. split; assumption. }
        { intros [Hk Hm]. apply Hnth in Hm; [|exact Hk].
          destruct Hm as [[-> _]|Hm]; [left; reflexivity|right; exact Hm]. }
    + split; [exact Hsorted|]. intros k. rewrite Hin. split.
      * intros [Hk Hm]. split; [lia|]. apply Hnth; [lia|]. right. split; assumption.
      * intros [Hk Hm]. apply Hnth in Hm; [|exact Hk].
        destruct Hm as [[_ Hb]|Hm]; [discriminate Hb|exact Hm].
Qed.

Lemma firstn_In {X} (l : list X) :
  forall m x, In x (firstn m l) -> In x l.
Proof.
  induction l as [|h l IH]; intros [|m] x H; cbn in *; try contradiction.
  destruct H as [->|H]; [left; reflexivity|right; apply (IH m x H)].
Qed.

Lemma firstn_sorted (l : list Z) :
  forall m, StronglySorted Z.lt l -> StronglySorted Z.lt (firstn m l).
Proof.
  induction l as [|x l IH]; intros [|m] Hs; cbn; try constructor.
  - apply IH. inversion Hs; assumption.
  - inversion Hs as [|? ? _ Hall]; subst. apply Forall_forall. intros y Hy.
    rewrite Forall_forall in Hall. apply Hall. apply (firstn_In _ _ _ Hy).
Qed.

Lemma firstn_below (l : list Z) :
  forall m x y, StronglySorted Z.lt l ->
    In x (firstn m l) -> In y l -> y < x -> In y (firstn m l).
Proof.
  induction l as [|h l IH]; intros [|m] x y Hs Hx Hy Hlt; cbn in *; try contradiction.
  inversion Hs as [|? ? Hs' Hall]; subst. rewrite Forall_forall in Hall.
  destruct Hy as [->|Hy]; [left; reflexivity|right].
  destruct Hx as [->|Hx].
  - specialize (Hall y Hy). lia.
  - apply (IH m x y Hs' Hx Hy Hlt).
Qed.

(** The primes of the sieve, cut to [n] of them. *)
Lemma sieve_prefix (ub root n : Z) (l : list Z) :
  ub < (root + 1) * (root + 1) -> 0 <= root -> 0 < n ->
  l = py_prefix
        (map fst (filter snd
           (combine
              (py_range (Z.of_nat (List.length
                 (fold_left (sieve_step ub) (py_range3 2 (root + 1) 1)
                    (clear_at (clear_at (repeat true (Z.to_nat (ub + 1))) 0) 1)))))
              (fold_left (sieve_step ub) (py_range3 2 (root + 1) 1)
                 (clear_at (clear_at (repeat true (Z.to_nat (ub + 1))) 0) 1)))))
        n ->
  Z.of_nat (List.length l) <= n
  /\ StronglySorted Z.lt l
  /\ (forall p, In p l -> Z.prime p)
  /\ (forall p q, In p l -> Z.prime q -> q < p -> In q l)
  /\ (forall p, Z.prime p -> p <= ub -> n <= Z.of_nat (List.length l) \/ In p l).
Proof.
  intros Hroot Hr Hn ->.
  set (s := fold_left (sieve_step ub) (py_range3 2 (root + 1) 1) _).
  unfold py_range, py_prefix. rewrite Nat2Z.id.
  destruct (Z.ltb_spec n 0) as [Hneg|_]; [lia|].
  destruct (enumerate_marked s 0) as [Hsorted Hin].
  set (primes := map fst (filter snd (combine (map Z.of_nat (seq 0 (List.length s))) s))) in *.
  assert (Hprime : forall k, In k primes <-> k <= ub /\ Z.prime k).
  { intros k. rewrite Hin. rewrite Nat.sub_0_r. split.
    - intros [Hk Hm]. apply (sieve_final ub root Hroot Hr k Hk). exact Hm.
    - intros [Hk Hp]. assert (0 <= k) by (destruct Hp; lia). split; [lia|].
      apply (sieve_final ub root Hroot Hr k); [lia|]. split; assumption. }
  split; [|split; [|split; [|split]]].
  - rewrite length_firstn. lia.
  - apply firstn_sorted. exact Hsorted.
  - intros p Hp. apply firstn_In in Hp. apply Hprime in Hp. tauto.
  - intros p q Hp Hq Hlt. apply (firstn_below primes _ p q Hsorted Hp); [|exact Hlt].
    apply Hprime. split; [|exact Hq]. apply firstn_In in Hp. apply Hprime in Hp. lia.
  - intros p Hp Hle.
    destruct (Nat.le_gt_cases (Z.to_nat n) (List.length primes)) as [Hlen|Hlen].
    + left. rewrite length_firstn. lia.
    + right. rewrite firstn_all2 by lia. apply Hprime. split; assumption.
Qed.
End SieveFacts.

Section PrimesFacts.
Context {F : Type} {A : Arith F} {L : Libm F}.
Local Open Scope Z_scope.

Lemma generated_primes_sound :
  (forall ub r, f_to_int (f_sqrt (f_of_int ub)) = Some r ->
     0 <= r /\ ub < (r + 1) * (r + 1)) ->
  forall n l, _generate_primes n = Ok l -> first_primes n l.
Proof.
  intros Hsqrt n l. unfold _generate_primes.
  destruct (Z.leb_spec n 0) as [Hn|Hn].
  - intros H. injection H as <-.
    split; [cbn; lia|]. split; [constructor|]. split; intros; contradiction.
  - destruct (if 6 <? n then _ else _) as [e|ub]; [discriminate|].
    unfold py_int at 1. destruct (f_to_int (f_sqrt (f_of_int ub))) as [root|] eqn:Hroot;
      [|discriminate].
    destruct (Hsqrt ub root Hroot) as [Hr Hub].
    intros H. injection H as H. symmetry in H.
    destruct (sieve_prefix ub root n l Hub Hr Hn H) as [H1 [H2 [H3 [H4 _]]]].
    split; [lia|]. split; [exact H2|]. split; assumption.
Qed.
End PrimesFacts.

Section ExactPrimes.
Local Open Scope R_scope.

Lemma Int_part_nonneg (a : R) : 0 <= a -> (0 <= Int_part a)%Z.
Proof.
  intros Ha. destruct (base_Int_part a) as [_ H].
  assert (-1 < IZR (Int_part a)) by lra.
  apply lt_IZR in H0. lia.
Qed.

Lemma exact_sqrt_floor (ub r : Z) :
  f_to_int (f_sqrt (f_of_int ub : ieee)) = Some r ->
  (0 <= r /\ r * r <= ub < (r + 1) * (r + 1))%Z.
Proof.
  cbn. unfold Exact.of_int, Exact.Rltb.
  destruct (Rlt_dec (IZR ub) 0) as [Hneg|Hpos]; [discriminate|].
  cbn. unfold Exact.Rltb.
  pose proof (sqrt_pos (IZR ub)) as Hs.
  destruct (Rlt_dec (sqrt (IZR ub)) 0) as [H|_]; [lra|].
  intros H. injection H as <-.
  destruct (base_Int_part (sqrt (IZR ub))) as [Hlo Hhi].
  pose proof (Int_part_nonneg _ Hs) as Hr. apply IZR_le in Hr.
  assert (Hsq : sqrt (IZR ub) * sqrt (IZR ub) = IZR ub) by (apply sqrt_sqrt; lra).
  split; [apply Int_part_nonneg; exact Hs|].
  set (s := sqrt (IZR ub)) in *. split.
  - apply le_IZR. rewrite mult_IZR. nra.
  - apply lt_IZR. rewrite mult_IZR, plus_IZR. nra.
Qed.

Lemma ln_ge_1 (x : R) : 3 <= x -> 1 <= ln x.
Proof.
  intros Hx. rewrite <- (ln_exp 1). 
  destruct (Rle_lt_or_eq_dec (exp 1) x) as [H|H].
  - pose proof exp_le_3. lra.
  - left. apply ln_increasing; [apply exp_pos|exact H].
  - rewrite H. right. reflexivity.
Qed.

Lemma exact_upper_bound (n : Z) :
  (6 < n)%Z ->
  exists ub,
    py_int (f_add (f_mul (f_of_int n) (np_log (f_of_int n)))
                  (f_mul (f_of_int n) (np_log (np_log (f_of_int n : ieee)))))
    = Ok ub /\ (0 <= ub)%Z.
Proof.
  intros Hn. assert (Hn' : 7 <= IZR n) by (apply IZR_le; lia).
  pose proof (ln_ge_1 (IZR n)) as Hln.
  assert (Hlnln : 0 <= ln (ln (IZR n))).
  { rewrite <- ln_1. destruct (Rle_lt_or_eq_dec 1 (ln (IZR n))) as [H|H]; [lra| |].
    - left. apply ln_increasing; lra.
    - rewrite <- H. right. reflexivity. }
  cbn. unfold Exact.of_int. cbn.
  rewrite (Rsgn_pos (IZR n)) by lra. cbn.
  rewrite (Rsgn_pos (ln (IZR n))) by lra. cbn.
  unfold py_int. cbn. unfold Exact.Rltb.
  destruct (Rlt_dec _ 0) as [H|H].
  - exfalso. nra.
  - eexists. split; [reflexivity|]. apply Int_part_nonneg. nra.
Qed.

Lemma exact_primes_return (n : Z) :
  exists l, @_generate_primes ieee exact exact_libm n = Ok l.
Proof.
  unfold _generate_primes. destruct (n <=? 0)%Z; [eexists; reflexivity|].
  assert (Hub : exists ub,
            (if (6 <? n)%Z
             then py_int (f_add (f_mul (f_of_int n) (np_log (f_of_int n)))
                    (f_mul (f_of_int n) (np_log (np_log (f_of_int n : ieee)))))
             else Ok 20%Z) = Ok ub /\ (0 <= ub)%Z).
  { destruct (Z.ltb_spec 6 n) as [H|H]; [apply exact_upper_bound; exact H|].
    exists 20%Z. split; [reflexivity|lia]. }
  destruct Hub as [ub [-> Hub]]. unfold Ok at 1.
  assert (Hroot : exists r, py_int (f_sqrt (f_of_int ub : ieee)) = Ok r).
  { cbn. unfold Exact.of_int, Exact.Rltb.
    destruct (Rlt_dec (IZR ub) 0) as [H|H]; [apply IZR_le in Hub; lra|].
    eexists. reflexivity. }
  destruct Hroot as [r ->]. unfold Ok at 1. eexists. reflexivity.
Qed.
End ExactPrimes.

(** ** The Fibonacci dataset *)

Section FibonacciFacts.
Local Open Scope Z_scope.

Lemma fibonacci_rec (k : nat) :
  fibonacci (S (S k)) = fibonacci (S k) + fibonacci k.
Proof.
  unfold fibonacci. cbn. destruct (fibonacci_pair k) as [a b]. cbn. lia.
Qed.

Lemma fibonacci_append (m : nat) :
  let fib := map fibonacci (seq 0 (S (S m))) in
  fib ++ [last fib 0 + last (removelast fib) 0] = map fibonacci (seq 0 (S (S (S m)))).
Proof.
  cbv zeta. rewrite (seq_S (S (S m))), map_app. f_equal.
  rewrite (seq_S (S m)), map_app. cbn [map]. rewrite last_last, removelast_last.
  rewrite (seq_S m), map_app. cbn [map]. rewrite last_last.
  cbn [Nat.add]. rewrite fibonacci_rec. reflexivity.
Qed.

Lemma fib_while_spec (fuel : nat) :
  forall (n m : nat),
    (n <= S (S m) + fuel)%nat ->
    fib_while fuel (Z.of_nat n) (map fibonacci (seq 0 (S (S m))))
    = map fibonacci (seq 0 (Nat.max (S (S m)) n)).
Proof.
  induction fuel as [|fuel IH]; intros n m Hf.
  - cbn [fib_while]. rewrite Nat.max_l by lia. reflexivity.
  - cbn [fib_while]. rewrite length_map, length_seq.
    destruct (Z.ltb_spec (Z.of_nat (S (S m))) (Z.of_nat n)) as [Hlt|Hge].
    + rewrite fibonacci_append. rewrite IH by lia. f_equal. f_equal. lia.
    + rewrite Nat.max_l by lia. reflexivity.
Qed.

Lemma firstn_seq (n : nat) :
  forall a m, firstn n (seq a m) = seq a (Nat.min n m).
Proof.
  induction n as [|n IH]; intros a [|m]; cbn; try reflexivity.
  rewrite IH. reflexivity.
Qed.

Lemma fibonacci_prefix (n : nat) :
  py_prefix (fib_while (Z.to_nat (Z.of_nat n)) (Z.of_nat n) [1; 1]) (Z.of_nat n)
  = map fibonacci (seq 0 n).
Proof.
  change [1; 1] with (map fibonacci (seq 0 2)).
  rewrite fib_while_spec by lia. unfold py_prefix.
  destruct (Z.ltb_spec (Z.of_nat n) 0) as [H|_]; [lia|].
  rewrite Nat2Z.id, firstn_map, firstn_seq. f_equal. f_equal. lia.
Qed.

Lemma fibonacci_negative (size : Z) :
  size < 0 ->
  py_prefix (fib_while (Z.to_nat size) size [1; 1]) size
  = firstn (Z.to_nat (2 + size)) [1; 1].
Proof.
  intros H. replace (Z.to_nat size) with 0%nat by lia. cbn [fib_while].
  unfold py_prefix. destruct (Z.ltb_spec size 0) as [_|H']; [|lia].
  reflexivity.
Qed.
End FibonacciFacts.

(** ** Arrays of Python integers *)

Section FibonacciArrays.
Context {F : Type} {C : IntToFloat F}.

Lemma float_array_converts (ints : list Z) :
  (forall n, In n ints -> checked_of_int n <> None) ->
  exists data,
    float_array ints = Some data
    /\ Forall2 (fun n x => checked_of_int n = Some x) ints data.
Proof.
  induction ints as [|n rest IH]; intros H.
  - exists []. split; [reflexivity|constructor].
  - cbn [float_array].
    destruct (checked_of_int n) as [x|] eqn:Hx;
      [|exfalso; apply (H n); [left; reflexivity|exact Hx]].
    destruct IH as [data [Hd Hall]]; [intros m Hm; apply H; right; exact Hm|].
    rewrite Hd. exists (x :: data). split; [reflexivity|].
    constructor; assumption.
Qed.

Lemma float_array_overflows (ints : list Z) (n : Z) :
  In n ints -> checked_of_int n = None ->
  float_array ints = None.
Proof.
  induction ints as [|m rest IH]; intros Hin Hn; [contradiction|].
  cbn [float_array]. destruct (checked_of_int m) as [x|] eqn:Hx; [|reflexivity].
  destruct Hin as [->|Hin]; [rewrite Hn in Hx; discriminate Hx|].
  rewrite (IH Hin Hn). reflexivity.
Qed.

Lemma float_array_length (ints : list Z) (data : list F) :
  float_array ints = Some data -> List.length data = List.length ints.
Proof.
  revert data. induction ints as [|n rest IH]; intros data H.
  - injection H as <-. reflexivity.
  - cbn [float_array] in H. destruct (checked_of_int n) as [x|]; [|discriminate H].
    destruct (float_array rest) as [xs|]; [|discriminate H].
    injection H as <-. cbn [List.length]. rewrite (IH xs eq_refl). reflexivity.
Qed.
End FibonacciArrays.

(** ** The checked conversion on machine numbers *)

Section CheckedConversion.
Local Open Scope Z_scope.

Lemma fibonacci_step (k : nat) : 1 <= fibonacci k <= fibonacci (S k).
Proof.
  induction k as [|k IH]; [cbn; lia|].
  rewrite fibonacci_rec. lia.
Qed.

Lemma fibonacci_monotone (k m : nat) : (k <= m)%nat -> fibonacci k <= fibonacci m.
Proof.
  induction 1 as [|m _ IH]; [lia|].
  pose proof (fibonacci_step m). lia.
Qed.

(** The threshold is where rounding to nearest first gives no float: one
    below it rounds to the largest float, the threshold itself to infinity. *)
Lemma overflow_threshold_rounds :
  binary_normalize prec emax (overflow_threshold - 1) 0 false
  = S754_finite false 9007199254740991 971
  /\ binary_normalize prec emax overflow_threshold 0 false = S754_infinity false.
Proof.
  split; vm_compute; reflexivity.
Qed.

(** Below [2^63] rounding to nearest is what [Binary64.of_int] does. *)
Lemma rounding_below_2_63 (z : Z) :
  0 <= z < 2 ^ 63 ->
  SF2Prim (binary_normalize prec emax z 0 false) = Binary64.of_int z.
Proof.
  intros Hz. destruct z as [|p|p]; [reflexivity| |lia].
  unfold Binary64.of_int.
  rewrite <- (SF2Prim_Prim2SF (of_uint63 (Uint63.of_Z (Z.pos p)))).
  rewrite of_uint63_spec, Uint63.of_Z_spec. f_equal. f_equal.
  symmetry. apply Z.mod_small. change Uint63Axioms.wB with (2 ^ 63). lia.
Qed.

Lemma binary64_converts (z : Z) :
  Z.abs z < overflow_threshold -> checked_of_int (F := float) z <> None.
Proof.
  intros H. cbn. unfold binary64_checked_of_int.
  destruct (Z.abs z <? 2 ^ 63); [discriminate|].
  destruct (Z.ltb_spec (Z.abs z) overflow_threshold) as [_|H']; [discriminate|lia].
Qed.

Lemma binary64_overflows (z : Z) :
  overflow_threshold <= Z.abs z -> checked_of_int (F := float) z = None.
Proof.
  intros H. cbn. unfold binary64_checked_of_int.
  assert (H63 : 2 ^ 63 <= overflow_threshold) by (vm_compute; discriminate).
  destruct (Z.ltb_spec (Z.abs z) (2 ^ 63)) as [H'|_]; [lia|].
  destruct (Z.ltb_spec (Z.abs z) overflow_threshold) as [H'|_]; [lia|reflexivity].
Qed.

Lemma binary64_small (z : Z) :
  Z.abs z < 2 ^ 63 -> checked_of_int (F := float) z = Some (f_of_int z).
Proof.
  intros H. cbn. unfold binary64_checked_of_int.
  destruct (Z.ltb_spec (Z.abs z) (2 ^ 63)) as [_|H']; [reflexivity|lia].
Qed.

Lemma fibonacci_1475_fits : fibonacci 1475 < overflow_threshold.
Proof. vm_compute. reflexivity. Qed.

Lemma fibonacci_1476_overflows : overflow_threshold <= fibonacci 1476.
Proof. vm_compute. discriminate. Qed.

Lemma fibonacci_91_small : fibonacci 91 < 2 ^ 63.
Proof. vm_compute. reflexivity. Qed.
End CheckedConversion.

Lemma binary64_small_fibonacci (l : list nat) :
  (forall k, In k l -> (k <= 91)%nat) ->
  float_array (F := float) (map fibonacci l)
  = Some (map (fun k => Binary64.of_int (fibonacci k)) l).
Proof.
  induction l as [|k l IH]; intros Hl; [reflexivity|].
  cbn [map float_array].
  rewrite binary64_small.
  - rewrite IH; [reflexivity|]. intros j Hj. apply Hl. right. exact Hj.
  - pose proof (fibonacci_step k).
    pose proof (fibonacci_monotone k 91 (Hl k (or_introl eq_refl))).
    pose proof fibonacci_91_small. lia.
Qed.

Lemma binary64_fibonacci_array (n : nat) :
  (n <= 1476)%nat ->
  exists data : list float,
    float_array (map fibonacci (seq 0 n)) = Some data /\ List.length data = n.
Proof.
  intros Hn.
  destruct (float_array_converts (F := float) (map fibonacci (seq 0 n)))
    as [data [Hd _]].
  - intros z Hz. apply in_map_iff in Hz. destruct Hz as [k [<- Hk]].
    apply in_seq in Hk. apply binary64_converts.
    pose proof (fibonacci_step k). pose proof (fibonacci_monotone k 1475 ltac:(lia)).
    pose proof fibonacci_1475_fits. lia.
  - exists data. split; [exact Hd|].
    rewrite (float_array_length _ _ Hd), length_map, length_seq. reflexivity.
Qed.

(** ** What the generators return *)

(** X3. [_generate_primes(n)] returns, in exact arithmetic and for every
    [n], the smallest primes in increasing order: every number returned is
    prime, the list is strictly increasing, no prime below a returned one is
    left out, and at most [n] numbers are returned (none for [n <= 0]).  On
    machine numbers, for [n <= 6] (where the sieve runs up to 20), the list
    is the first [n] of 2, 3, 5, 7, 11, 13. *)
Theorem generated_primes_are_the_first_primes :
  (forall n : Z,
      exists l, @_generate_primes ieee exact exact_libm n = Ok l
                /\ first_primes n l)
  /\ (forall (L : Libm float) (n : Z),
         (n <= 6)%Z ->
         @_generate_primes float binary64 L n
         = Ok (firstn (Z.to_nat n) [2; 3; 5; 7; 11; 13]%Z)).
Proof.
  split.
  - intros n. destruct (exact_primes_return n) as [l Hl]. exists l.
    split; [exact Hl|].
    apply (@generated_primes_sound ieee exact exact_libm); [|exact Hl].
    intros ub r H. destruct (exact_sqrt_floor ub r H) as [H0 [_ H1]].
    split; assumption.
  - intros L n Hn. destruct (Z.leb_spec n 0) as [Hle|Hgt].
    + unfold _generate_primes. destruct (Z.leb_spec n 0) as [_|H]; [|lia].
      replace (Z.to_nat n) with 0%nat by lia. reflexivity.
    + assert (H : (n = 1 \/ n = 2 \/ n = 3 \/ n = 4 \/ n = 5 \/ n = 6)%Z) by lia.
      destruct H as [H|[H|[H|[H|[H|H]]]]]; subst n; vm_compute; reflexivity.
Qed.

(** X4. The Fibonacci pattern of [generate_synthetic_data]: for a size
    [n >= 0] the dataset holds exactly the first [n] Fibonacci numbers
    1, 1, 2, 3, 5, ... (although the list the loop starts from already has
    two elements), in exact arithmetic for every [n] and on machine numbers
    for [n <= 92], where the Fibonacci numbers are below [2^63]; a negative
    size is not refused: size [-1] gives the one-element dataset [[1.0]],
    and any size below gives the empty dataset. *)
Theorem fibonacci_dataset :
  (forall (np_random_uniform : Z -> ieee -> ieee -> Z -> result (list ieee))
          (self : ValidationSuite) (n : nat),
      generate_synthetic_data np_random_uniform self (Z.of_nat n) "fibonacci"
      = Ok (map (fun k => Fin (IZR (fibonacci k))) (seq 0 n)))
  /\ (forall (L : Libm float)
             (np_random_uniform : Z -> float -> float -> Z -> result (list float))
             (self : ValidationSuite) (n : nat),
         (n <= 92)%nat ->
         @generate_synthetic_data float binary64 L np_random_uniform self
           (Z.of_nat n) "fibonacci"
         = Ok (map (fun k => Binary64.of_int (fibonacci k)) (seq 0 n)))
  /\ (forall (F : Type) (A : Arith F) (L : Libm F)
             (np_random_uniform : Z -> F -> F -> Z -> result (list F))
             (self : ValidationSuite),
         generate_synthetic_data np_random_uniform self (-1) "fibonacci"
         = Ok [f_of_int 1]
         /\ forall size, (size <= -2)%Z ->
              generate_synthetic_data np_random_uniform self size "fibonacci"
              = Ok []).
Proof.
  split; [|split].
  - intros np_random_uniform self n.
    unfold generate_synthetic_data. cbn [String.eqb Ascii.eqb Bool.eqb].
    rewrite fibonacci_prefix, map_map. reflexivity.
  - intros L np_random_uniform self n _.
    unfold generate_synthetic_data. cbn [String.eqb Ascii.eqb Bool.eqb].
    rewrite fibonacci_prefix, map_map. reflexivity.
  - intros F A L np_random_uniform self.
    unfold generate_synthetic_data. cbn [String.eqb Ascii.eqb Bool.eqb].
    split; [reflexivity|].
    intros size H. rewrite fibonacci_negative by lia.
    replace (Z.to_nat (2 + size)) with 0%nat by lia. reflexivity.
Qed.

(** X5. The Fibonacci pattern and the largest float.  On machine numbers
    the array [np.array(fib[:size], dtype=float)] of the branch
    ['fibonacci'] of [generate_synthetic_data] exists for every size from 0
    to 1476, with [size] values; for every size from 1477 on the conversion
    raises [OverflowError].  In exact arithmetic it exists for every size.
    Where the Fibonacci numbers are below [2^63], and in exact arithmetic,
    it is the dataset of [generate_synthetic_data]. *)
Theorem fibonacci_pattern_overflows :
  (forall n : nat,
      (n <= 1476)%nat ->
      exists data : list float,
        fibonacci_pattern (Z.of_nat n) = Some data /\ List.length data = n)
  /\ (forall size, (1477 <= size)%Z -> fibonacci_pattern (F := float) size = None)
  /\ (forall (L : Libm float)
             (np_random_uniform : Z -> float -> float -> Z -> result (list float))
             (self : ValidationSuite) (n : nat),
         (n <= 92)%nat ->
         exists data,
           fibonacci_pattern (Z.of_nat n) = Some data
           /\ @generate_synthetic_data float binary64 L np_random_uniform self
                (Z.of_nat n) "fibonacci" = Ok data)
  /\ (forall (np_random_uniform : Z -> ieee -> ieee -> Z -> result (list ieee))
             (self : ValidationSuite) (size : Z),
         exists data,
           fibonacci_pattern size = Some data
           /\ generate_synthetic_data np_random_uniform self size "fibonacci"
              = Ok data).
Proof.
  split; [|split; [|split]].
  - intros n Hn. unfold fibonacci_pattern. rewrite fibonacci_prefix.
    apply binary64_fibonacci_array. exact Hn.
  - intros size H. unfold fibonacci_pattern.
    pose proof (fibonacci_prefix (Z.to_nat size)) as Hp.
    rewrite Z2Nat.id in Hp by lia. rewrite Hp.
    apply (float_array_overflows _ (fibonacci 1476)).
    + apply in_map. apply in_seq. lia.
    + apply binary64_overflows. pose proof fibonacci_1476_overflows. lia.
  - intros L np_random_uniform self n Hn. eexists. split.
    + unfold fibonacci_pattern. rewrite fibonacci_prefix.
      apply binary64_small_fibonacci. intros k Hk. apply in_seq in Hk. lia.
    + unfold generate_synthetic_data. cbn [String.eqb Ascii.eqb Bool.eqb].
      rewrite fibonacci_prefix, map_map. reflexivity.
  - intros np_random_uniform self size. eexists. split.
    + unfold fibonacci_pattern. apply exact_float_array.
    + reflexivity.
Qed.

(** ** The sizes of the datasets *)

Section DatasetFacts.
Context {F : Type} {A : Arith F} {L : Libm F}.
Variable np_random_uniform : Z -> F -> F -> Z -> result (list F).

Lemma py_prefix_In {X} (l : list X) (n : Z) (x : X) :
  In x (py_prefix l n) -> In x l.
Proof.
  unfold py_prefix. destruct (n <? 0)%Z; apply firstn_In.
Qed.

Lemma length_removelast_app {X} (l : list X) (x : X) :
  l <> [] -> List.length (removelast l ++ [x]) = List.length l.
Proof.
  intros H. destruct (exists_last H) as [l' [y ->]].
  rewrite removelast_last, !length_app. reflexivity.
Qed.

Lemma np_linspace_length (start stop : F) (n : nat) :
  exists data,
    np_linspace start stop (Z.of_nat n) = Ok data /\ List.length data = n.
Proof.
  unfold np_linspace. destruct (Z.ltb_spec (Z.of_nat n) 0) as [H|_]; [lia|].
  eexists. split; [reflexivity|].
  assert (Hy : forall y : list F, List.length y = n ->
            List.length (if (1 <? Z.of_nat n)%Z then removelast y ++ [stop] else y) = n).
  { intros y Hy. destruct (Z.ltb_spec 1 (Z.of_nat n)) as [H1|H1]; [|exact Hy].
    rewrite length_removelast_app; [exact Hy|]. intros ->. cbn in Hy. lia. }
  apply Hy. rewrite length_map.
  assert (Hr : List.length (map f_of_int (py_range (Z.of_nat n))) = n).
  { unfold py_range. rewrite !length_map, length_seq. lia. }
  destruct (0 <? Z.of_nat n - 1)%Z; [destruct (f_eqb _ _)|];
    rewrite length_map; exact Hr.
Qed.

Lemma generated_sizes (self : ValidationSuite) (n : nat) (pattern : string)
    (data : list F) :
  generate_synthetic_data np_random_uniform self (Z.of_nat n) pattern = Ok data ->
  pattern <> "random"%string ->
  (List.length data <= n)%nat
  /\ (pattern <> "prime_modulo"%string -> List.length data = n).
Proof.
  unfold generate_synthetic_data.
  destruct (String.eqb_spec pattern "fibonacci") as [->|Hf].
  - rewrite fibonacci_prefix. intros H. injection H as <-.
    rewrite !length_map, length_seq. split; [lia|reflexivity].
  - destruct (String.eqb_spec pattern "golden_ratio") as [->|Hg].
    + intros H. injection H as <-. unfold py_range.
      rewrite !length_map, length_seq, Nat2Z.id. split; [lia|reflexivity].
    + destruct (String.eqb_spec pattern "prime_modulo") as [->|Hp].
      * destruct (_generate_primes (Z.of_nat n * 2)) as [e|primes]; [discriminate|].
        intros H. injection H as <-. intros _. split; [|intros H; contradiction].
        rewrite length_map. unfold py_prefix.
        destruct (Z.ltb_spec (Z.of_nat n) 0) as [H|_]; [lia|].
        rewrite length_firstn. lia.
      * destruct (String.eqb_spec pattern "random") as [->|Hr].
        { intros _ H. contradiction. }
        { destruct (np_linspace_length (f_of_int 1) (f_of_int 100) n) as [d [Hd Hlen]].
          rewrite Hd. intros H. injection H as <-. intros _.
          split; [lia|intros _; exact Hlen]. }
Qed.
End DatasetFacts.

Section ExactDatasets.
Local Open Scope Z_scope.

Lemma prime_residue (p : Z) : Z.prime p -> 1 <= p mod 100 <= 99.
Proof.
  intros [Hp Hdiv]. pose proof (Z.mod_pos_bound p 100 ltac:(lia)) as Hb.
  destruct (Z.eq_dec (p mod 100) 0) as [H0|H0]; [|lia].
  exfalso. apply Z.mod_divide in H0; [|lia]. destruct H0 as [q Hq].
  destruct (Z.eq_dec p 2) as [->|H2]; [lia|].
  apply (Hdiv 2); [lia|]. exists (q * 50). lia.
Qed.
End ExactDatasets.

(** X6. The prime-modulo pattern of [generate_synthetic_data], in exact
    arithmetic: the generator returns for every size, the dataset holds at
    most [size] values (none for a size that is not positive), and every
    value is the residue modulo 100 of a prime number, hence an integer
    between 1 and 99. *)
Theorem prime_modulo_dataset
    (np_random_uniform : Z -> ieee -> ieee -> Z -> result (list ieee))
    (self : ValidationSuite) (size : Z) :
  exists data,
    generate_synthetic_data np_random_uniform self size "prime_modulo" = Ok data
    /\ (Z.of_nat (List.length data) <= Z.max 0 size)%Z
    /\ Forall (fun x => exists p, Z.prime p /\ (1 <= p mod 100 <= 99)%Z
                                  /\ x = Fin (IZR (p mod 100))) data.
Proof.
  unfold generate_synthetic_data. cbn [String.eqb Ascii.eqb Bool.eqb].
  destruct (exact_primes_return (size * 2)) as [primes Hp]. rewrite Hp.
  unfold Ok at 1. eexists. split; [reflexivity|].
  assert (Hsound : first_primes (size * 2) primes).
  { apply (@generated_primes_sound ieee exact exact_libm); [|exact Hp].
    intros ub r H. destruct (exact_sqrt_floor ub r H) as [H0 [_ H1]].
    split; assumption. }
  destruct Hsound as [Hlen [_ [Hprime _]]]. split.
  - rewrite length_map. unfold py_prefix.
    destruct (Z.ltb_spec size 0) as [H|H]; rewrite length_firstn; lia.
  - apply Forall_forall. intros x Hx. apply in_map_iff in Hx.
    destruct Hx as [p [<- Hin]]. apply py_prefix_In in Hin.
    exists p. split; [apply Hprime; exact Hin|].
    split; [apply prime_residue; apply Hprime; exact Hin|reflexivity].
Qed.

(** X7. For a size [n >= 0], the golden-ratio pattern and the default
    pattern ([np.linspace], taken for every pattern name the code does not
    know) return a dataset of exactly [n] values; the prime-modulo pattern
    never returns more than [n]. *)
Theorem generated_dataset_sizes {F : Type} {A : Arith F} {L : Libm F}
    (np_random_uniform : Z -> F -> F -> Z -> result (list F))
    (self : ValidationSuite) (n : nat) :
  (forall pattern,
      pattern <> "fibonacci"%string -> pattern <> "prime_modulo"%string ->
      pattern <> "random"%string ->
      exists data,
        generate_synthetic_data np_random_uniform self (Z.of_nat n) pattern = Ok data
        /\ List.length data = n)
  /\ (forall data,
         generate_synthetic_data np_random_uniform self (Z.of_nat n) "prime_modulo"
         = Ok data ->
         (List.length data <= n)%nat).
Proof.
  split.
  - intros pattern Hf Hp Hr.
    assert (Hret : exists data,
              generate_synthetic_data np_random_uniform self (Z.of_nat n) pattern
              = Ok data).
    { unfold generate_synthetic_data.
      destruct (String.eqb pattern "fibonacci"); [eexists; reflexivity|].
      destruct (String.eqb pattern "golden_ratio"); [eexists; reflexivity|].
      destruct (String.eqb_spec pattern "prime_modulo"); [contradiction|].
      destruct (String.eqb_spec pattern "random"); [contradiction|].
      destruct (np_linspace_length (f_of_int 1) (f_of_int 100) n) as [d [Hd _]].
      exists d. exact Hd. }
    destruct Hret as [data Hdata]. exists data. split; [exact Hdata|].
    apply (generated_sizes np_random_uniform self n pattern data Hdata Hr). exact Hp.
  - intros data Hdata.
    apply (generated_sizes np_random_uniform self n "prime_modulo" data Hdata).
    discriminate.
Qed.

(** ** Empty datasets *)

Section EmptyDatasetFacts.
Context {F : Type} {A : Arith F} {L : Libm F}.
Variable clock : nat -> F.
Variable np_random_uniform : Z -> F -> F -> Z -> result (list F).
Variables pearsonr spearmanr ks_2samp : list F -> list F -> result (F * F).

Lemma validate_empty (w : World) :
  exists e w',
    validate_transformation clock pearsonr spearmanr ks_2samp [] w = (Raise e, w').
Proof.
  unfold validate_transformation, bind, lift, time_time, get_self, np_min, Raise.
  cbn [objects suite ticks].
  repeat match goal with
    | |- context [match ?r with inl _ => _ | inr _ => _ end] =>
        lazymatch r with
        | inl _ => fail
        | _ => destruct r; [eexists; eexists; reflexivity|]
        end
    end.
  eexists. eexists. reflexivity.
Qed.

Lemma fibonacci_empty (self : ValidationSuite) (n : Z) :
  (n = 0 \/ n <= -2)%Z ->
  generate_synthetic_data np_random_uniform self n "fibonacci" = Ok [].
Proof.
  intros [->|H]; [reflexivity|].
  unfold generate_synthetic_data. cbn [String.eqb Ascii.eqb Bool.eqb].
  rewrite fibonacci_negative by lia.
  replace (Z.to_nat (2 + n)) with 0%nat by lia. reflexivity.
Qed.

Lemma validate_pair_empty (acc : list ref) (n : Z) (w : World) :
  (n = 0 \/ n <= -2)%Z ->
  exists e w',
    validate_pair clock np_random_uniform pearsonr spearmanr ks_2samp
      "fibonacci" acc n w = (Raise e, w').
Proof.
  intros Hn. pose proof (fibonacci_empty (suite w) n Hn) as Hgen.
  destruct (validate_empty w) as [e [w' H]].
  unfold validate_pair, bind, get_self, lift. unfold Ok in *.
  rewrite Hgen, H. exists e, w'. reflexivity.
Qed.

Lemma inner_loop_aborts (sizes : list Z) :
  forall (acc : list ref) (w : World),
    (exists n, In n sizes /\ (n = 0 \/ n <= -2)%Z) ->
    exists e w',
      for_each sizes
        (validate_pair clock np_random_uniform pearsonr spearmanr ks_2samp "fibonacci")
        acc w = (Raise e, w').
Proof.
  induction sizes as [|m sizes IH]; intros acc w [n [Hin Hn]]; [contradiction|].
  cbn [for_each]. unfold bind at 1.
  destruct (validate_pair _ _ _ _ _ _ acc m w) as [[e|acc'] w1] eqn:Hstep.
  - exists e, w1. reflexivity.
  - destruct Hin as [->|Hin].
    + destruct (validate_pair_empty acc n w Hn) as [e [w' H]].
      rewrite H in Hstep. discriminate Hstep.
    + apply IH. exists n. split; assumption.
Qed.
End EmptyDatasetFacts.

(** X8. An empty dataset is never recorded.  Whatever the clock and the
    three tests do, [validate_transformation] raises on the empty dataset
    (at the latest when [np.min] refuses the empty array) and leaves
    [self.results] and the stored records as they were.  As the Fibonacci
    pattern is generated first and is empty for the sizes 0 and -2, -3, ...,
    [run_comprehensive_validation] raises for every list of sizes that holds
    one of them. *)
Theorem empty_dataset_is_rejected {F : Type} {A : Arith F} {L : Libm F}
    (clock : nat -> F) (np_random_uniform : Z -> F -> F -> Z -> result (list F))
    (pearsonr spearmanr ks_2samp : list F -> list F -> result (F * F)) :
  (forall w,
      exists e w',
        validate_transformation clock pearsonr spearmanr ks_2samp [] w = (Raise e, w')
        /\ suite w' = suite w /\ objects w' = objects w)
  /\ (forall sizes w,
         (exists n, In n sizes /\ (n = 0 \/ n <= -2)%Z) ->
         exists e w',
           run_comprehensive_validation clock np_random_uniform pearsonr spearmanr
             ks_2samp (Some sizes) w = (Raise e, w')).
Proof.
  split.
  - intros w. destruct (validate_empty clock pearsonr spearmanr ks_2samp w) as [e [w' H]].
    exists e, w'. split; [exact H|].
    pose proof (validate_frame clock pearsonr spearmanr ks_2samp [] w) as Hfr.
    rewrite H in Hfr. exact Hfr.
  - intros sizes w Hn.
    destruct (inner_loop_aborts clock np_random_uniform pearsonr spearmanr ks_2samp
                sizes [] w Hn) as [e [w' H]].
    exists e, w'. unfold run_comprehensive_validation, patterns.
    cbn [for_each]. unfold bind at 1. unfold bind at 1. rewrite H. reflexivity.
Qed.

(** ** When the score calculator raises *)

(** X9. [calculate_consciousness_score] raises exactly when [original] has
    two elements or more and [transformed] has another length: with at most
    one element in [original] the correlation is not computed and a
    mismatch goes unnoticed.  The empty pair does not raise: on machine
    numbers its score and its stability score are NaN (0/0), its
    breakthrough score and correlation are 0. *)
Theorem score_raises_on_length_mismatch :
  (forall (F : Type) (A : Arith F) (self : FractalHarmonicTransform)
          (original transformed : list F),
      (exists s, calculate_consciousness_score self original transformed = Ok s)
      <-> (len original <= 1 \/ len original = len transformed)%Z)
  /\ (forall (a : option float) (b e : float),
         exists s,
           calculate_consciousness_score (__init__ a b e) [] [] = Ok s
           /\ PrimFloat.is_nan (consciousness_score s) = true
           /\ PrimFloat.is_nan (stability_score s) = true
           /\ breakthrough_score s = PrimFloat.zero
           /\ correlation s = PrimFloat.zero).
Proof.
  split.
  - intros F A self o t. unfold calculate_consciousness_score, np_corrcoef.
    destruct (Z.ltb_spec 1 (len o)) as [H1|H1].
    + destruct (Z.eqb_spec (len o) (len t)) as [He|He].
      * split; [intros _; right; exact He|intros _; eexists; reflexivity].
      * split; [intros [s Hs]; discriminate Hs|intros [H|H]; [lia|contradiction]].
    + split; [intros _; left; exact H1|intros _; eexists; reflexivity].
  - intros a b e. eexists. split; [reflexivity|].
    repeat split; vm_compute; reflexivity.
Qed.

(** ** Dictionaries kept in insertion order *)

Section DictFacts.
Context {V : Type}.

Lemma dict_get_set_same (d : list (string * V)) (k : string) (v : V) :
  dict_get (dict_set d k v) k = Some v.
Proof.
  induction d as [|[k' v'] d IH]; cbn.
  - rewrite String.eqb_refl. reflexivity.
  - destruct (String.eqb k' k) eqn:E; cbn; rewrite E; [reflexivity|exact IH].
Qed.

Lemma dict_get_set_other (d : list (string * V)) (k k' : string) (v : V) :
  k <> k' -> dict_get (dict_set d k v) k' = dict_get d k'.
Proof.
  intros Hne. induction d as [|[k0 v0] d IH]; cbn.
  - destruct (String.eqb_spec k k'); [contradiction|reflexivity].
  - destruct (String.eqb_spec k0 k) as [->|Hk]; cbn.
    + destruct (String.eqb_spec k k'); [contradiction|reflexivity].
    + destruct (String.eqb k0 k'); [reflexivity|exact IH].
Qed.

Lemma dict_set_twice (d : list (string * V)) (k : string) (v v' : V) :
  dict_set (dict_set d k v) k v' = dict_set d k v'.
Proof.
  induction d as [|[k0 v0] d IH]; cbn.
  - rewrite String.eqb_refl. reflexivity.
  - destruct (String.eqb k0 k) eqn:E; cbn; rewrite E; [reflexivity|].
    rewrite IH. reflexivity.
Qed.

Lemma dict_get_None (d : list (string * V)) (k : string) :
  dict_get d k = None <-> ~ In k (map fst d).
Proof.
  induction d as [|[k0 v0] d IH]; cbn.
  - tauto.
  - destruct (String.eqb_spec k0 k) as [->|Hk].
    + split; [discriminate|]. intros H. exfalso. apply H. left. reflexivity.
    + rewrite IH. tauto.
Qed.

Lemma dict_set_keys (d : list (string * V)) (k : string) (v : V) :
  map fst (dict_set d k v)
  = match dict_get d k with
    | Some _ => map fst d
    | None => map fst d ++ [k]
    end.
Proof.
  induction d as [|[k0 v0] d IH]; cbn.
  - reflexivity.
  - destruct (String.eqb k0 k) eqn:E; cbn; [reflexivity|].
    rewrite IH. destruct (dict_get d k); reflexivity.
Qed.

Lemma dict_set_new (d : list (string * V)) (k : string) (v : V) :
  dict_get d k = None -> dict_set d k v = d ++ [(k, v)].
Proof.
  induction d as [|[k0 v0] d IH]; cbn; [reflexivity|].
  destruct (String.eqb k0 k); [discriminate|]. intros H. rewrite IH by exact H.
  reflexivity.
Qed.

Lemma dict_set_last (d : list (string * V)) (k : string) (v v' : V) :
  dict_get d k = None -> dict_set (d ++ [(k, v)]) k v' = d ++ [(k, v')].
Proof.
  induction d as [|[k0 v0] d IH]; cbn.
  - rewrite String.eqb_refl. reflexivity.
  - destruct (String.eqb k0 k); [discriminate|]. intros H. rewrite IH by exact H.
    reflexivity.
Qed.

Lemma dict_get_last (d : list (string * V)) (k : string) (v : V) :
  dict_get d k = None -> dict_get (d ++ [(k, v)]) k = Some v.
Proof.
  induction d as [|[k0 v0] d IH]; cbn.
  - rewrite String.eqb_refl. reflexivity.
  - destruct (String.eqb k0 k); [discriminate|exact IH].
Qed.

Lemma dict_get_In (d : list (string * V)) (k : string) (v : V) :
  dict_get d k = Some v -> In (k, v) d.
Proof.
  induction d as [|[k0 v0] d IH]; cbn; [discriminate|].
  destruct (String.eqb_spec k0 k) as [->|Hk].
  - intros H. injection H as ->. left. reflexivity.
  - intros H. right. apply IH. exact H.
Qed.

Lemma In_dict_get (d : list (string * V)) (k : string) (v : V) :
  NoDup (map fst d) -> In (k, v) d -> dict_get d k = Some v.
Proof.
  induction d as [|[k0 v0] d IH]; cbn; [contradiction|].
  intros Hnd [H|H].
  - injection H as -> ->. rewrite String.eqb_refl. reflexivity.
  - inversion Hnd as [|? ? Hnotin Hnd']; subst.
    destruct (String.eqb_spec k0 k) as [->|Hk].
    + exfalso. apply Hnotin. apply (in_map fst) in H. exact H.
    + apply IH; assumption.
Qed.
End DictFacts.

(** ** [_organize_results] *)

Section OrganizeFacts.
Context {F : Type} {A : Arith F}.
Variable w : World (F := F).

Lemma organize_one_eq (d : list (string * list ref)) (a : ref) :
  organize_one w d a
  = dict_set d (get_pattern w a)
      (match dict_get d (get_pattern w a) with
       | Some l => l ++ [a]
       | None => [a]
       end).
Proof.
  unfold organize_one. destruct (dict_get d (get_pattern w a)) as [l|] eqn:E.
  - rewrite E. reflexivity.
  - rewrite dict_get_set_same, dict_set_twice. reflexivity.
Qed.

Lemma organize_one_upto (done : list ref) (d : list (string * list ref)) (a : ref) :
  organized_upto w done d -> organized_upto w (done ++ [a]) (organize_one w d a).
Proof.
  intros [Hnd Hget]. rewrite organize_one_eq. split.
  - rewrite dict_set_keys. destruct (dict_get d (get_pattern w a)) eqn:E; [exact Hnd|].
    apply dict_get_None in E. apply NoDup_app; [exact Hnd|repeat constructor; tauto|].
    intros x Hx [<-|[]]. contradiction.
  - intros p. rewrite filter_app. cbn [filter]. unfold same_pattern at 2.
    destruct (String.eqb_spec (get_pattern w a) p) as [<-|Hne].
    + rewrite dict_get_set_same, Hget.
      destruct (filter (same_pattern w (get_pattern w a)) done); reflexivity.
    + rewrite dict_get_set_other by exact Hne. rewrite Hget, app_nil_r. reflexivity.
Qed.

Lemma organize_fold_upto (rs : list ref) :
  forall (done : list ref) (d : list (string * list ref)),
    organized_upto w done d ->
    organized_upto w (done ++ rs) (fold_left (organize_one w) rs d).
Proof.
  induction rs as [|a rs IH]; intros done d H; cbn [fold_left].
  - rewrite app_nil_r. exact H.
  - replace (done ++ a :: rs) with ((done ++ [a]) ++ rs)
      by (rewrite <- app_assoc; reflexivity).
    apply IH. apply organize_one_upto. exact H.
Qed.

Lemma organize_groups :
  let organized := fold_left (organize_one w) (results (suite w)) [] in
  NoDup (map fst organized)
  /\ forall p g,
       In (p, g) organized
       <-> g <> [] /\ g = filter (same_pattern w p) (results (suite w)).
Proof.
  cbv zeta.
  destruct (organize_fold_upto (results (suite w)) [] []) as [Hnd Hget].
  { split; [constructor|reflexivity]. }
  cbn [app] in Hget. split; [exact Hnd|]. intros p g. split.
  - intros Hin. apply (In_dict_get _ _ _ Hnd) in Hin. rewrite Hget in Hin.
    destruct (filter (same_pattern w p) (results (suite w))); [discriminate|].
    injection Hin as <-. split; [discriminate|reflexivity].
  - intros [Hne ->]. apply dict_get_In. rewrite Hget.
    destruct (filter (same_pattern w p) (results (suite w))); [contradiction|reflexivity].
Qed.

(** A run of addresses that all carry the pattern [p], not yet a key. *)
Lemma organize_block_rest (block : list ref) (p : string) :
  forall (d : list (string * list ref)) (g : list ref),
    Forall (fun a => get_pattern w a = p) block ->
    dict_get d p = None ->
    fold_left (organize_one w) block (d ++ [(p, g)]) = d ++ [(p, g ++ block)].
Proof.
  induction block as [|a block IH]; intros d g Hall Hd; cbn [fold_left].
  - rewrite app_nil_r. reflexivity.
  - pose proof (Forall_inv Hall) as Ha. pose proof (Forall_inv_tail Hall) as Hall'.
    cbn beta in Ha.
    rewrite organize_one_eq, Ha, dict_get_last, dict_set_last by exact Hd.
    rewrite IH by assumption. rewrite <- app_assoc. reflexivity.
Qed.

Lemma organize_block (block : list ref) (p : string) (d : list (string * list ref)) :
  Forall (fun a => get_pattern w a = p) block ->
  dict_get d p = None -> block <> [] ->
  fold_left (organize_one w) block d = d ++ [(p, block)].
Proof.
  intros Hall Hd Hne. destruct block as [|a block]; [contradiction|].
  pose proof (Forall_inv Hall) as Ha. pose proof (Forall_inv_tail Hall) as Hall'.
  cbn beta in Ha. cbn [fold_left].
  rewrite organize_one_eq, Ha, Hd, dict_set_new by exact Hd.
  apply (organize_block_rest block p d [a] Hall' Hd).
Qed.
End OrganizeFacts.

(** X10. [_organize_results] groups [self.results] by pattern: it never
    raises and changes nothing; the keys of the dictionary it returns are
    distinct; a pattern is a key exactly when some stored record falls under
    it (a record without the key ['pattern'] falls under ['unknown']), and it
    is then bound to all the records of [self.results] under that pattern,
    in the order of [self.results]. *)
Theorem organize_groups_by_pattern {F : Type} {A : Arith F} (w : World (F := F)) :
  exists organized,
    _organize_results w = (Ok organized, w)
    /\ NoDup (map fst organized)
    /\ forall p g,
         In (p, g) organized
         <-> g <> [] /\ g = filter (same_pattern w p) (results (suite w)).
Proof.
  eexists. split; [reflexivity|]. apply organize_groups.
Qed.

(** ** The records of a run *)

Section TaggingFacts.
Context {F : Type} {A : Arith F} {L : Libm F}.
Variable clock : nat -> F.
Variable np_random_uniform : Z -> F -> F -> Z -> result (list F).
Variables pearsonr spearmanr ks_2samp : list F -> list F -> result (F * F).

(** A record as [validate_transformation] builds it has neither key. *)
Lemma validate_untagged (data : list F) (w w' : World) (a : ref) :
  validate_transformation clock pearsonr spearmanr ks_2samp data w = (Ok a, w') ->
  a = List.length (objects w)
  /\ results (suite w') = results (suite w) ++ [a]
  /\ fht (suite w') = fht (suite w)
  /\ exists r, objects w' = objects w ++ [r]
               /\ pattern r = None /\ size r = None.
Proof.
  unfold validate_transformation, bind, lift, time_time, get_self,
    append_result, Ok.
  cbn [objects suite ticks].
  repeat match goal with
    | |- context [match ?r with inl _ => _ | inr _ => _ end] =>
        destruct r; [discriminate|]
    end.
  cbn [objects suite ticks results fht].
  intros H. injection H as <- <-. cbn [objects suite results fht].
  repeat split. eexists. repeat split.
Qed.

Lemma tag_objects (l : list (ValidationRecord (F := F))) (r : ValidationRecord)
    (f : ValidationRecord -> ValidationRecord) :
  forall base,
    map (fun ir => if Nat.eqb (fst ir) (base + List.length l) then f (snd ir) else snd ir)
        (combine (seq base (List.length (l ++ [r]))) (l ++ [r]))
    = l ++ [f r].
Proof.
  induction l as [|x l IH]; intros base.
  - cbn. rewrite Nat.add_0_r, Nat.eqb_refl. reflexivity.
  - cbn [List.length app seq combine map fst snd].
    destruct (Nat.eqb_spec base (base + S (List.length l))) as [H|_]; [lia|].
    f_equal. rewrite <- (IH (S base)). apply map_ext. intros [i y]. cbn [fst snd].
    replace (S base + List.length l)%nat with (base + S (List.length l))%nat by lia.
    reflexivity.
Qed.

Lemma validate_pair_tagged (p : string) (n : Z) (acc out : list ref) (w w' : World) :
  validate_pair clock np_random_uniform pearsonr spearmanr ks_2samp p acc n w
  = (Ok out, w') ->
  out = acc ++ [List.length (objects w)]
  /\ results (suite w') = results (suite w) ++ [List.length (objects w)]
  /\ fht (suite w') = fht (suite w)
  /\ exists r, objects w' = objects w ++ [r]
               /\ pattern r = Some p /\ size r = Some n.
Proof.
  unfold validate_pair, bind, get_self, lift, ret, Ok.
  destruct (generate_synthetic_data _ _ _ _) as [e|data]; [discriminate|].
  destruct (validate_transformation _ _ _ _ data w) as [[e|a] w1] eqn:Hval;
    [discriminate|].
  destruct (validate_untagged data w w1 a Hval) as [-> [Hres [Hfht [r [Hobj _]]]]].
  unfold tag. intros H. injection H as <- <-. cbn [objects suite].
  split; [reflexivity|]. split; [exact Hres|]. split; [exact Hfht|].
  rewrite Hobj.
  pose proof (tag_objects (objects w) r
             (fun x => {| dataset_size := dataset_size x;
                          processing_time := processing_time x;
                          metrics := metrics x;
                          statistical_tests := statistical_tests x;
                          data_characteristics := data_characteristics x;
                          pattern := Some p;
                          size := Some n |}) 0) as Htag.
  cbn [Nat.add] in Htag. rewrite Htag.
  eexists. repeat split.
Qed.

Lemma inner_loop_tagged (p : string) (sizes : list Z) :
  forall (acc out : list ref) (w w' : World),
    for_each sizes
      (validate_pair clock np_random_uniform pearsonr spearmanr ks_2samp p) acc w
    = (Ok out, w') ->
    out = acc ++ seq (List.length (objects w)) (List.length sizes)
    /\ results (suite w')
       = results (suite w) ++ seq (List.length (objects w)) (List.length sizes)
    /\ fht (suite w') = fht (suite w)
    /\ exists news,
         objects w' = objects w ++ news
         /\ map pattern news = repeat (Some p) (List.length sizes)
         /\ map size news = map Some sizes.
Proof.
  induction sizes as [|n sizes IH]; intros acc out w w'.
  - cbn [for_each]. unfold ret, Ok. intros H. injection H as <- <-.
    cbn. rewrite !app_nil_r. repeat split. exists []. rewrite app_nil_r.
    repeat split.
  - cbn [for_each]. unfold bind at 1.
    destruct (validate_pair _ _ _ _ _ p acc n w) as [[e|acc1] w1] eqn:Hstep;
      [discriminate|].
    destruct (validate_pair_tagged p n acc acc1 w w1 Hstep)
      as [-> [Hres [Hfht [r [Hobj [Hp Hs]]]]]].
    intros Hrest. destruct (IH _ _ _ _ Hrest) as [-> [Hres' [Hfht' [news [Hobj' [Hp' Hs']]]]]].
    rewrite Hobj, length_app in *. cbn [List.length] in *.
    replace (List.length (objects w) + 1)%nat with (S (List.length (objects w))) in * by lia.
    cbn [seq]. split; [rewrite <- app_assoc; reflexivity|].
    split; [rewrite Hres', Hres, <- app_assoc; reflexivity|].
    split; [rewrite Hfht', Hfht; reflexivity|].
    exists (r :: news). rewrite Hobj', <- app_assoc. cbn [app map repeat].
    rewrite Hp, Hs, Hp', Hs'. repeat split.
Qed.

(** What a run that returns has done. *)
Lemma run_tagged (sizes : list Z) (w w' : World) (res : list (string * list ref)) :
  run_comprehensive_validation clock np_random_uniform pearsonr spearmanr ks_2samp
    (Some sizes) w = (Ok res, w') ->
  let a := List.length (objects w) in
  let k := List.length sizes in
  res = [("fibonacci"%string, seq a k);
         ("golden_ratio"%string, seq (a + k) k);
         ("prime_modulo"%string, seq (a + k + k) k);
         ("random"%string, seq (a + k + k + k) k)]
  /\ results (suite w')
     = results (suite w) ++ seq a k ++ seq (a + k) k ++ seq (a + k + k) k
       ++ seq (a + k + k + k) k
  /\ fht (suite w') = fht (suite w)
  /\ exists n1 n2 n3 n4,
       objects w' = objects w ++ n1 ++ n2 ++ n3 ++ n4
       /\ map pattern n1 = repeat (Some "fibonacci"%string) k
       /\ map pattern n2 = repeat (Some "golden_ratio"%string) k
       /\ map pattern n3 = repeat (Some "prime_modulo"%string) k
       /\ map pattern n4 = repeat (Some "random"%string) k
       /\ map size n1 = map Some sizes /\ map size n2 = map Some sizes
       /\ map size n3 = map Some sizes /\ map size n4 = map Some sizes.
Proof.
  unfold run_comprehensive_validation, patterns. cbn [for_each].
  unfold bind, ret.
  destruct (for_each sizes (validate_pair _ _ _ _ _ "fibonacci") [] w)
    as [[e|r1] w1] eqn:H1; [discriminate|].
  destruct (for_each sizes (validate_pair _ _ _ _ _ "golden_ratio") [] w1)
    as [[e|r2] w2] eqn:H2; [discriminate|].
  destruct (for_each sizes (validate_pair _ _ _ _ _ "prime_modulo") [] w2)
    as [[e|r3] w3] eqn:H3; [discriminate|].
  destruct (for_each sizes (validate_pair _ _ _ _ _ "random") [] w3)
    as [[e|r4] w4] eqn:H4; [discriminate|].
  unfold Ok. intros H. injection H as <- <-.
  destruct (inner_loop_tagged _ _ _ _ _ _ H1) as [-> [R1 [F1 [n1 [O1 [P1 S1]]]]]].
  destruct (inner_loop_tagged _ _ _ _ _ _ H2) as [-> [R2 [F2 [n2 [O2 [P2 S2]]]]]].
  destruct (inner_loop_tagged _ _ _ _ _ _ H3) as [-> [R3 [F3 [n3 [O3 [P3 S3]]]]]].
  destruct (inner_loop_tagged _ _ _ _ _ _ H4) as [-> [R4 [F4 [n4 [O4 [P4 S4]]]]]].
  assert (L1 : List.length n1 = List.length sizes)
    by (rewrite <- (length_map pattern), P1, repeat_length; reflexivity).
  assert (L2 : List.length n2 = List.length sizes)
    by (rewrite <- (length_map pattern), P2, repeat_length; reflexivity).
  assert (L3 : List.length n3 = List.length sizes)
    by (rewrite <- (length_map pattern), P3, repeat_length; reflexivity).
  cbv zeta. cbn [app dict_set String.eqb Ascii.eqb Bool.eqb].
  rewrite O3, O2, O1, !length_app, L1, L2, L3 in *.
  split; [reflexivity|].
  split; [rewrite R4, R3, R2, R1, <- !app_assoc; reflexivity|].
  split; [rewrite F4, F3, F2, F1; reflexivity|].
  exists n1, n2, n3, n4. rewrite O4, <- !app_assoc. repeat split; assumption.
Qed.
End TaggingFacts.

(** ** [generate_report] *)

Section ReportFacts.
Context {F : Type} {A : Arith F}.

Lemma detailed_results_input (w1 w2 : World (F := F)) (l1 : list ref) :
  forall l2,
    map (get_size w1) l1 = map (get_size w2) l2 ->
    detailed_results w1 l1 = detailed_results w2 l2.
Proof.
  induction l1 as [|a l1 IH]; intros [|b l2] H; try discriminate H.
  - reflexivity.
  - cbn [map] in H. injection H as Hab Hrest. cbn [detailed_results].
    rewrite Hab, (IH l2 Hrest). reflexivity.
Qed.

Lemma pattern_sections_input (w1 w2 : World (F := F)) (r1 : list (string * list ref)) :
  forall r2,
    report_input w1 r1 = report_input w2 r2 ->
    pattern_sections w1 r1 = pattern_sections w2 r2.
Proof.
  induction r1 as [|[p1 l1] r1 IH]; intros [|[p2 l2] r2] H; try discriminate H.
  - reflexivity.
  - cbn [report_input map fst snd] in H. injection H as Hp Hl Hrest.
    cbn [pattern_sections]. subst p2.
    rewrite (detailed_results_input w1 w2 l1 l2 Hl), (IH r2 Hrest). reflexivity.
Qed.

Lemma total_tests_input (w1 w2 : World (F := F)) (r1 : list (string * list ref)) :
  forall r2,
    report_input w1 r1 = report_input w2 r2 ->
    map (fun pr => Z.of_nat (List.length (snd pr))) r1
    = map (fun pr => Z.of_nat (List.length (snd pr))) r2.
Proof.
  induction r1 as [|[p1 l1] r1 IH]; intros [|[p2 l2] r2] H; try discriminate H.
  - reflexivity.
  - cbn [report_input map fst snd] in H. injection H as Hp Hl Hrest.
    cbn [map snd]. rewrite (IH r2 Hrest). f_equal.
    apply (f_equal (@List.length _)) in Hl. rewrite !length_map in Hl.
    rewrite Hl. reflexivity.
Qed.

Lemma generate_report_input (w1 w2 : World (F := F)) (r1 r2 : list (string * list ref)) :
  report_input w1 r1 = report_input w2 r2 ->
  generate_report (Some r1) w1 = generate_report (Some r2) w2.
Proof.
  intros H. unfold generate_report. cbv zeta.
  rewrite (pattern_sections_input w1 w2 r1 r2 H).
  rewrite (total_tests_input w1 w2 r1 r2 H). reflexivity.
Qed.

Lemma get_size_error (w : World (F := F)) (a : ref) (e : lookup_error) :
  get_size w a = inl e -> e = KeyError "size".
Proof.
  unfold get_size. destruct (nth_error (objects w) a) as [r|];
    [destruct (size r)|]; intros H; try discriminate H; injection H as <-; reflexivity.
Qed.

Lemma detailed_results_returns (w : World (F := F)) (l : list ref) :
  match detailed_results w l with
  | inr _ => Forall (has_size w) l
  | inl e => e = KeyError "size" /\ ~ Forall (has_size w) l
  end.
Proof.
  induction l as [|a l IH]; cbn [detailed_results].
  - constructor.
  - destruct (get_size w a) as [e|n] eqn:Ha.
    + split; [apply (get_size_error w a e Ha)|].
      intros H. apply Forall_inv in H. destruct H as [n Hn]. congruence.
    + destruct (detailed_results w l) as [e|lines].
      * destruct IH as [-> Hnot]. split; [reflexivity|].
        intros H. apply Hnot. apply (Forall_inv_tail H).
      * constructor; [exists n; exact Ha|exact IH].
Qed.

Lemma pattern_sections_returns (w : World (F := F)) (res : list (string * list ref)) :
  match pattern_sections w res with
  | inr _ => Forall (fun pr => Forall (has_size w) (snd pr)) res
  | inl e => e = KeyError "size"
             /\ ~ Forall (fun pr => Forall (has_size w) (snd pr)) res
  end.
Proof.
  induction res as [|[p l] res IH]; cbn [pattern_sections].
  - constructor.
  - pose proof (detailed_results_returns w l) as Hl.
    destruct (detailed_results w l) as [e|detail].
    + destruct Hl as [-> Hnot]. split; [reflexivity|].
      intros H. apply Hnot. apply (Forall_inv H).
    + destruct (pattern_sections w res) as [e|lines].
      * destruct IH as [-> Hnot]. split; [reflexivity|].
        intros H. apply Hnot. apply (Forall_inv_tail H).
      * constructor; [exact Hl|exact IH].
Qed.

Lemma generate_report_returns (w : World (F := F)) (res : list (string * list ref)) :
  match generate_report (Some res) w with
  | inr _ => Forall (fun pr => Forall (has_size w) (snd pr)) res
  | inl e => e = KeyError "size"
             /\ ~ Forall (fun pr => Forall (has_size w) (snd pr)) res
  end.
Proof.
  unfold generate_report. cbv zeta.
  pose proof (pattern_sections_returns w res) as H.
  destruct (pattern_sections w res); exact H.
Qed.

(** Reading the store at the addresses of a run of records. *)
Lemma read_block {X} (g : option ValidationRecord -> X)
    (news suffix : list (ValidationRecord (F := F))) :
  forall l,
    map (fun a => g (nth_error (l ++ news ++ suffix) a))
        (seq (List.length l) (List.length news))
    = map (fun r => g (Some r)) news.
Proof.
  induction news as [|r news IH]; intros l; [reflexivity|].
  cbn [List.length seq map]. f_equal.
  - rewrite nth_error_app2 by lia. rewrite Nat.sub_diag. reflexivity.
  - specialize (IH (l ++ [r])). rewrite length_app in IH. cbn [List.length] in IH.
    replace (List.length l + 1)%nat with (S (List.length l)) in IH by lia.
    rewrite <- app_assoc in IH. exact IH.
Qed.
End ReportFacts.

Section RunReportFacts.
Context {F : Type} {A : Arith F} {L : Libm F}.

Lemma block_reads (w' : World (F := F)) (l news suffix : list ValidationRecord)
    (p : string) (sizes : list Z) :
  objects w' = l ++ news ++ suffix ->
  map pattern news = repeat (Some p) (List.length sizes) ->
  map size news = map Some sizes ->
  Forall (fun a => get_pattern w' a = p) (seq (List.length l) (List.length sizes))
  /\ map (get_size w') (seq (List.length l) (List.length sizes)) = map inr sizes.
Proof.
  intros Hobj Hp Hs.
  assert (Hlen : List.length news = List.length sizes)
    by (rewrite <- (length_map pattern), Hp, repeat_length; reflexivity).
  rewrite <- Hlen. split.
  - apply Forall_forall. intros a Ha.
    assert (Hmap : map (get_pattern w') (seq (List.length l) (List.length news))
                   = repeat p (List.length sizes)).
    { unfold get_pattern. rewrite Hobj.
      etransitivity;
        [exact (read_block
                  (fun o => match o with
                            | Some r => match pattern r with
                                        | Some q => q
                                        | None => "unknown"%string
                                        end
                            | None => "unknown"%string
                            end) news suffix l)|].
      cbv beta iota.
      rewrite <- (map_map pattern
                    (fun o => match o with Some q => q | None => "unknown"%string end)).
      rewrite Hp, map_repeat. reflexivity. }
    apply (in_map (get_pattern w')) in Ha. rewrite Hmap in Ha.
    apply repeat_spec in Ha. exact Ha.
  - unfold get_size. rewrite Hobj.
    etransitivity;
      [exact (read_block
                (fun o => match o with
                          | Some r => match size r with
                                      | Some n => inr n
                                      | None => inl (KeyError "size")
                                      end
                          | None => inl (KeyError "size")
                          end) news suffix l)|].
    cbv beta iota.
    rewrite <- (map_map size
                  (fun o => match o with
                            | Some n => inr n
                            | None => inl (KeyError "size")
                            end)).
    rewrite Hs, map_map. reflexivity.
Qed.

Variable clock : nat -> F.
Variable np_random_uniform : Z -> F -> F -> Z -> result (list F).
Variables pearsonr spearmanr ks_2samp : list F -> list F -> result (F * F).

(** What the records of a run that has returned carry. *)
Lemma run_reads (sizes : list Z) (w w' : World) (res : list (string * list ref)) :
  run_comprehensive_validation clock np_random_uniform pearsonr spearmanr ks_2samp
    (Some sizes) w = (Ok res, w') ->
  let a := List.length (objects w) in
  let k := List.length sizes in
  res = [("fibonacci"%string, seq a k);
         ("golden_ratio"%string, seq (a + k) k);
         ("prime_modulo"%string, seq (a + k + k) k);
         ("random"%string, seq (a + k + k + k) k)]
  /\ results (suite w')
     = results (suite w) ++ seq a k ++ seq (a + k) k ++ seq (a + k + k) k
       ++ seq (a + k + k + k) k
  /\ Forall (fun x => get_pattern w' x = "fibonacci"%string) (seq a k)
  /\ Forall (fun x => get_pattern w' x = "golden_ratio"%string) (seq (a + k) k)
  /\ Forall (fun x => get_pattern w' x = "prime_modulo"%string) (seq (a + k + k) k)
  /\ Forall (fun x => get_pattern w' x = "random"%string) (seq (a + k + k + k) k)
  /\ report_input w' res
     = map (fun p => (p, map inr sizes)) patterns.
Proof.
  intros Hrun.
  destruct (run_tagged clock np_random_uniform pearsonr spearmanr ks_2samp
              sizes w w' res Hrun)
    as [Hres [Hresults [_ [n1 [n2 [n3 [n4 [Hobj [P1 [P2 [P3 [P4 [S1 [S2 [S3 S4]]]]]]]]]]]]]]].
  cbv zeta.
  assert (L1 : List.length n1 = List.length sizes)
    by (rewrite <- (length_map pattern), P1, repeat_length; reflexivity).
  assert (L2 : List.length n2 = List.length sizes)
    by (rewrite <- (length_map pattern), P2, repeat_length; reflexivity).
  assert (L3 : List.length n3 = List.length sizes)
    by (rewrite <- (length_map pattern), P3, repeat_length; reflexivity).
  destruct (block_reads w' (objects w) n1 (n2 ++ n3 ++ n4) _ sizes Hobj P1 S1)
    as [G1 Z1].
  destruct (block_reads w' (objects w ++ n1) n2 (n3 ++ n4) _ sizes
              ltac:(rewrite Hobj, <- !app_assoc; reflexivity) P2 S2) as [G2 Z2].
  destruct (block_reads w' ((objects w ++ n1) ++ n2) n3 n4 _ sizes
              ltac:(rewrite Hobj, <- !app_assoc; reflexivity) P3 S3) as [G3 Z3].
  destruct (block_reads w' (((objects w ++ n1) ++ n2) ++ n3) n4 [] _ sizes
              ltac:(rewrite Hobj, <- !app_assoc, app_nil_r; reflexivity) P4 S4)
    as [G4 Z4].
  rewrite !length_app, ?L1, ?L2, ?L3 in *.
  split; [exact Hres|]. split; [exact Hresults|].
  split; [exact G1|]. split; [exact G2|]. split; [exact G3|]. split; [exact G4|].
  rewrite Hres. unfold report_input, patterns. cbn [map fst snd].
  rewrite Z1, Z2, Z3, Z4. reflexivity.
Qed.
End RunReportFacts.

(** ** The tags of the records of a run *)

(** X11. Whenever [run_comprehensive_validation] returns, whatever the clock,
    the random generator and the tests, each of the four patterns is bound
    to one record per size, and each of these records, read through the
    store, carries its pattern and, in the order of [sizes], its size, and
    is one of [self.results]: [validate_transformation] had appended the
    record before the orchestrator wrote the two keys into it. *)
Theorem run_tags_every_record {F : Type} {A : Arith F} {L : Libm F}
    (clock : nat -> F) (np_random_uniform : Z -> F -> F -> Z -> result (list F))
    (pearsonr spearmanr ks_2samp : list F -> list F -> result (F * F))
    (sizes : list Z) (w w' : World) (res : list (string * list ref)) :
  run_comprehensive_validation clock np_random_uniform pearsonr spearmanr ks_2samp
    (Some sizes) w = (Ok res, w') ->
  map fst res = patterns
  /\ forall p refs,
       In (p, refs) res ->
       map (get_size w') refs = map inr sizes
       /\ Forall (fun a => get_pattern w' a = p /\ In a (results (suite w'))) refs.
Proof.
  intros Hrun.
  destruct (run_reads clock np_random_uniform pearsonr spearmanr ks_2samp
              sizes w w' res Hrun) as [Hres [Hresults [G1 [G2 [G3 [G4 Hin]]]]]].
  split; [rewrite Hres; reflexivity|].
  intros p refs Hp. split.
  - apply (in_map (fun pr => (fst pr, map (get_size w') (snd pr)))) in Hp.
    fold (report_input w' res) in Hp. rewrite Hin in Hp. cbn [fst snd] in Hp.
    apply in_map_iff in Hp. destruct Hp as [q [Hq _]]. injection Hq as _ Hq.
    symmetry. exact Hq.
  - rewrite Hres in Hp. cbn [In] in Hp. rewrite Hresults.
    destruct Hp as [Hp|[Hp|[Hp|[Hp|[]]]]]; injection Hp as <- <-;
      apply Forall_forall; intros a Ha.
    + split; [exact (proj1 (Forall_forall _ _) G1 a Ha)|].
      apply in_or_app. right. apply in_or_app. left. exact Ha.
    + split; [exact (proj1 (Forall_forall _ _) G2 a Ha)|].
      apply in_or_app. right. apply in_or_app. right. apply in_or_app. left. exact Ha.
    + split; [exact (proj1 (Forall_forall _ _) G3 a Ha)|].
      apply in_or_app. right. apply in_or_app. right. apply in_or_app. right.
      apply in_or_app. left. exact Ha.
    + split; [exact (proj1 (Forall_forall _ _) G4 a Ha)|].
      apply in_or_app. right. apply in_or_app. right. apply in_or_app. right.
      apply in_or_app. right. exact Ha.
Qed.

Lemma run_tags_every_record_witness :
  let out :=
    @run_comprehensive_validation float binary64 soft_libm counting_clock
      zeros_uniform pearsonr_checked test_zero test_zero (Some [2%Z]) fresh in
  let res := [("fibonacci"%string, [0%nat]); ("golden_ratio"%string, [1%nat]);
              ("prime_modulo"%string, [2%nat]); ("random"%string, [3%nat])] in
  map fst res = patterns
  /\ forall p refs,
       In (p, refs) res ->
       map (get_size (snd out)) refs = map inr [2%Z]
       /\ Forall (fun a => get_pattern (snd out) a = p
                           /\ In a (results (suite (snd out)))) refs.
Proof.
  cbv zeta.
  apply (@run_tags_every_record float binary64 soft_libm counting_clock
           zeros_uniform pearsonr_checked test_zero test_zero [2%Z] fresh).
  vm_compute. reflexivity.
Defined.

(** X12. After a run of the orchestrator that returns, on a suite that held
    no result before and for a list of sizes that is not empty,
    [_organize_results()] gives back the very suite result the run
    returned: the tags the orchestrator writes into a record after
    [validate_transformation] has stored it are seen through
    [self.results].  (For an empty list of sizes the run returns the four
    patterns bound to empty lists, and [_organize_results()] the empty
    dictionary.) *)
Theorem organize_recovers_the_run {F : Type} {A : Arith F} {L : Libm F}
    (clock : nat -> F) (np_random_uniform : Z -> F -> F -> Z -> result (list F))
    (pearsonr spearmanr ks_2samp : list F -> list F -> result (F * F))
    (sizes : list Z) (w w' : World) (res : list (string * list ref)) :
  results (suite w) = [] -> sizes <> [] ->
  run_comprehensive_validation clock np_random_uniform pearsonr spearmanr ks_2samp
    (Some sizes) w = (Ok res, w') ->
  _organize_results w' = (Ok res, w').
Proof.
  intros Hempty Hsizes Hrun.
  destruct (run_reads clock np_random_uniform pearsonr spearmanr ks_2samp
              sizes w w' res Hrun) as [Hres [Hresults [G1 [G2 [G3 [G4 _]]]]]].
  unfold _organize_results. f_equal. f_equal.
  rewrite Hresults, Hempty, Hres. cbn [app].
  assert (Hk : forall a, seq a (List.length sizes) <> []).
  { intros a. destruct sizes; [contradiction|discriminate]. }
  rewrite !fold_left_app.
  pose proof (organize_block w' _ "fibonacci" [] G1 eq_refl (Hk _)) as E1.
  pose proof (fun d H => organize_block w' _ "golden_ratio" d G2 H (Hk _)) as E2.
  pose proof (fun d H => organize_block w' _ "prime_modulo" d G3 H (Hk _)) as E3.
  pose proof (fun d H => organize_block w' _ "random" d G4 H (Hk _)) as E4.
  unfold ref in *.
  rewrite E1, E2, E3, E4 by reflexivity. reflexivity.
Qed.

Lemma organize_recovers_the_run_witness :
  let out :=
    @run_comprehensive_validation float binary64 soft_libm counting_clock
      zeros_uniform pearsonr_checked test_zero test_zero (Some [2%Z]) fresh in
  _organize_results (snd out)
  = (Ok [("fibonacci"%string, [0%nat]); ("golden_ratio"%string, [1%nat]);
         ("prime_modulo"%string, [2%nat]); ("random"%string, [3%nat])],
     snd out).
Proof.
  cbv zeta.
  apply (@organize_recovers_the_run float binary64 soft_libm counting_clock
           zeros_uniform pearsonr_checked test_zero test_zero [2%Z] fresh).
  - reflexivity.
  - discriminate.
  - vm_compute. reflexivity.
Defined.

(** X13. The report shows no measured value.  Two runs of the orchestrator
    on the same list of sizes that both return, whatever the clock, the
    random generator, the three tests and the state they started from, make
    [generate_report] return one and the same text: the report depends on
    the pattern names, the number of records and their sizes only (the
    lines meant for the scores are the constant strings [.4f], [.6f],
    [.2f]).  After such a run the report never raises. *)
Theorem report_shows_no_measurement {F : Type} {A : Arith F} {L : Libm F}
    (clock1 clock2 : nat -> F)
    (uniform1 uniform2 : Z -> F -> F -> Z -> result (list F))
    (pearsonr1 spearmanr1 ks1 pearsonr2 spearmanr2 ks2
       : list F -> list F -> result (F * F))
    (sizes : list Z) (w1 w1' w2 w2' : World) (res1 res2 : list (string * list ref)) :
  run_comprehensive_validation clock1 uniform1 pearsonr1 spearmanr1 ks1
    (Some sizes) w1 = (Ok res1, w1') ->
  run_comprehensive_validation clock2 uniform2 pearsonr2 spearmanr2 ks2
    (Some sizes) w2 = (Ok res2, w2') ->
  exists text,
    generate_report (Some res1) w1' = inr text
    /\ generate_report (Some res2) w2' = inr text.
Proof.
  intros H1 H2.
  destruct (run_reads _ _ _ _ _ sizes w1 w1' res1 H1) as [_ [_ [_ [_ [_ [_ I1]]]]]].
  destruct (run_reads _ _ _ _ _ sizes w2 w2' res2 H2) as [_ [_ [_ [_ [_ [_ I2]]]]]].
  assert (Heq : generate_report (Some res1) w1' = generate_report (Some res2) w2').
  { apply generate_report_input. rewrite I1, I2. reflexivity. }
  pose proof (generate_report_returns w1' res1) as Hret.
  destruct (generate_report (Some res1) w1') as [e|text] eqn:E.
  - exfalso. destruct Hret as [_ Hnot]. apply Hnot.
    apply Forall_forall. intros [p l] Hin. cbn [snd].
    apply Forall_forall. intros a Ha.
    apply (in_map (fun pr => (fst pr, map (get_size w1') (snd pr)))) in Hin.
    fold (report_input w1' res1) in Hin. rewrite I1 in Hin. cbn [fst snd] in Hin.
    apply in_map_iff in Hin. destruct Hin as [q [Hq _]]. injection Hq as _ Hq.
    apply (in_map (get_size w1')) in Ha. rewrite <- Hq in Ha.
    apply in_map_iff in Ha. destruct Ha as [n [Hn _]]. exists n. symmetry. exact Hn.
  - exists text. split; [reflexivity|]. rewrite <- Heq. reflexivity.
Qed.

Lemma report_shows_no_measurement_witness :
  let out1 :=
    @run_comprehensive_validation float binary64 soft_libm counting_clock
      zeros_uniform pearsonr_checked test_zero test_zero (Some [2%Z]) fresh in
  let out2 :=
    @run_comprehensive_validation float binary64 soft_libm (fun _ => PrimFloat.zero)
      zeros_uniform test_zero test_zero test_zero (Some [2%Z]) (snd out1) in
  exists text,
    generate_report
      (Some [("fibonacci"%string, [0%nat]); ("golden_ratio"%string, [1%nat]);
             ("prime_modulo"%string, [2%nat]); ("random"%string, [3%nat])])
      (snd out1) = inr text
    /\ generate_report
         (Some [("fibonacci"%string, [4%nat]); ("golden_ratio"%string, [5%nat]);
                ("prime_modulo"%string, [6%nat]); ("random"%string, [7%nat])])
         (snd out2) = inr text.
Proof.
  cbv zeta.
  apply (@report_shows_no_measurement float binary64 soft_libm counting_clock
           (fun _ => PrimFloat.zero) zeros_uniform zeros_uniform
           pearsonr_checked test_zero test_zero test_zero test_zero test_zero
           [2%Z] fresh _
           (snd (@run_comprehensive_validation float binary64 soft_libm
                   counting_clock zeros_uniform pearsonr_checked test_zero
                   test_zero (Some [2%Z]) fresh))).
  - vm_compute. reflexivity.
  - vm_compute. reflexivity.
Defined.

(** X14. [generate_report(results)] returns exactly when every record of
    [results] has the key ['size'], and the only exception it raises is
    [KeyError('size')]. *)
Theorem report_needs_every_size {F : Type} {A : Arith F}
    (res : list (string * list ref)) (w : World (F := F)) :
  ((exists text, generate_report (Some res) w = inr text)
   <-> Forall (fun pr => Forall (has_size w) (snd pr)) res)
  /\ (forall e, generate_report (Some res) w = inl e -> e = KeyError "size").
Proof.
  pose proof (generate_report_returns w res) as H.
  destruct (generate_report (Some res) w) as [e|text].
  - destruct H as [-> Hnot]. split.
    + split; [intros [text Ht]; discriminate Ht|intros Hall; contradiction].
    + intros e He. injection He as <-. reflexivity.
  - split.
    + split; [intros _; exact H|intros _; exists text; reflexivity].
    + intros e He. discriminate He.
Qed.

(** X15. Right after a call of [validate_transformation] that returns,
    [generate_report()] raises [KeyError('size')]: the record just stored
    has no ['size'] (only the orchestrator sets it), [_organize_results]
    files it under its pattern, and the report reads ['size'] of every
    record. *)
Theorem report_fails_after_direct_validation {F : Type} {A : Arith F} {L : Libm F}
    (clock : nat -> F)
    (pearsonr spearmanr ks_2samp : list F -> list F -> result (F * F))
    (data : list F) (w w' : World) (a : ref) :
  validate_transformation clock pearsonr spearmanr ks_2samp data w = (Ok a, w') ->
  generate_report None w' = inl (KeyError "size").
Proof.
  intros Hval.
  destruct (validate_untagged clock pearsonr spearmanr ks_2samp data w w' a Hval)
    as [Ha [Hres [_ [r [Hobj [_ Hsize]]]]]].
  assert (Hno : ~ has_size w' a).
  { intros [n Hn]. unfold get_size in Hn. rewrite Hobj, Ha in Hn.
    rewrite nth_error_app2, Nat.sub_diag in Hn by lia. cbn in Hn.
    rewrite Hsize in Hn. discriminate Hn. }
  change (generate_report None w')
    with (generate_report (Some (fold_left (organize_one w') (results (suite w')) [])) w').
  pose proof (generate_report_returns w'
                (fold_left (organize_one w') (results (suite w')) [])) as Hret.
  destruct (generate_report _ w') as [e|text].
  - destruct Hret as [-> _]. reflexivity.
  - exfalso. apply Hno.
    destruct (organize_groups w') as [_ Hgroups].
    set (g := filter (same_pattern w' (get_pattern w' a)) (results (suite w'))).
    assert (Hin : In a g).
    { apply filter_In. split.
      - rewrite Hres. apply in_or_app. right. left. reflexivity.
      - unfold same_pattern. apply String.eqb_refl. }
    assert (Hg : In (get_pattern w' a, g)
                   (fold_left (organize_one w') (results (suite w')) [])).
    { apply Hgroups. split; [|reflexivity]. intros E. rewrite E in Hin. exact Hin. }
    rewrite Forall_forall in Hret. specialize (Hret _ Hg). cbn [snd] in Hret.
    rewrite Forall_forall in Hret. apply Hret. exact Hin.
Qed.

Lemma report_fails_after_direct_validation_witness :
  generate_report None
    (snd (@validate_transformation float binary64 soft_libm counting_clock
            pearsonr_checked test_zero test_zero [1%float; 2%float] fresh))
  = inl (KeyError "size").
Proof.
  apply (@report_fails_after_direct_validation float binary64 soft_libm
           counting_clock pearsonr_checked test_zero test_zero
           [1%float; 2%float] fresh _ 0%nat).
  vm_compute. reflexivity.
Defined.

(** ** The transform in exact arithmetic: order and special values *)

Section ExactMonotone.
Import Exact.
Local Open Scope R_scope.

Lemma Rsgn_neg r : r < 0 -> Rsgn r = Lt.
Proof.
  intros H. unfold Rsgn. destruct (total_order_T r 0) as [[H1|H1]|H1]; auto; lra.
Qed.

Lemma Rsgn_zero : Rsgn 0 = Eq.
Proof.
  unfold Rsgn. destruct (total_order_T 0 0) as [[H1|H1]|H1]; auto; lra.
Qed.

Lemma exact_maximum (x e : R) : np_maximum (Fin x) (Fin e) = Fin (Rmax x e).
Proof.
  unfold np_maximum. change (f_isnan (Fin x)) with false. rewrite orb_false_r.
  unfold Rmax. destruct (Rle_dec x e) as [H|H].
  - destruct (Rle_lt_or_eq_dec x e H) as [Hlt|Heq].
    + rewrite exact_leb_false by exact Hlt. reflexivity.
    + subst e. rewrite exact_leb_true by lra. reflexivity.
  - rewrite exact_leb_true by lra. reflexivity.
Qed.

Lemma exact_sign_pos l : 0 < l -> np_sign (Fin l) = Fin 1.
Proof.
  intros H. unfold np_sign. simpl. unfold of_int.
  rewrite Rltb_true by lra. reflexivity.
Qed.

Lemma exact_sign_zero : np_sign (Fin 0) = Fin 0.
Proof.
  unfold np_sign. simpl. unfold of_int.
  rewrite Rltb_false by lra. unfold Reqb.
  destruct (Req_dec_T 0 0) as [_|H]; [reflexivity|contradiction].
Qed.

Lemma exact_signed_power (l : R) :
  f_mul (np_power (f_abs (Fin l)) (Fin phi_R)) (np_sign (Fin l))
  = Fin (signed_power l).
Proof.
  pose proof phi_R_bounds as Hphi. unfold signed_power.
  change (f_abs (Fin l)) with (Fin (Rabs l)).
  destruct (total_order_T l 0) as [[H|H]|H].
  - rewrite (Rsgn_neg l H), (Rabs_left l H).
    rewrite exact_power_pos by lra. rewrite exact_sign_neg by exact H.
    simpl. f_equal. ring.
  - subst l. rewrite Rsgn_zero, Rabs_R0, exact_sign_zero.
    simpl. rewrite (Rsgn_pos phi_R) by lra. rewrite Rsgn_zero. simpl.
    f_equal. ring.
  - rewrite (Rsgn_pos l H), (Rabs_right l) by lra.
    rewrite exact_power_pos by lra. rewrite exact_sign_pos by exact H.
    simpl. f_equal. ring.
Qed.

(** The transform of a finite number, with the default parameters. *)
Lemma exact_transform1_default (a x : R) :
  transform1 default (Fin a) (Fin x)
  = Fin (phi_R * signed_power (ln (Rmax x eps_R + eps_R)) * a + 1).
Proof.
  destruct exact_default as [Hphi [Heps [Ha Hb]]].
  assert (Hraw : raw1 default (Fin a) (Fin x)
                 = Fin (phi_R * signed_power (ln (Rmax x eps_R + eps_R)) * a + 1)).
  { unfold raw1. rewrite Hphi, Heps, Ha, Hb. rewrite exact_maximum.
    change (f_add (Fin (Rmax x eps_R)) (Fin eps_R)) with (Fin (Rmax x eps_R + eps_R)).
    assert (Hpos : 0 < Rmax x eps_R + eps_R).
    { pose proof eps_R_pos. pose proof (Rmax_r x eps_R). lra. }
    rewrite exact_log_pos by exact Hpos.
    set (l := ln (Rmax x eps_R + eps_R)).
    pose proof (exact_signed_power l) as Hsp.
    destruct (np_power (f_abs (Fin l)) (Fin phi_R)) as [pw| | |] eqn:Epw;
      destruct (np_sign (Fin l)) as [sg| | |] eqn:Esg;
      simpl in Hsp; try discriminate Hsp;
      try (destruct (Rsgn pw); discriminate Hsp);
      try (destruct (Rsgn sg); discriminate Hsp).
    injection Hsp as Hsp. simpl. f_equal. rewrite <- Hsp. ring. }
  unfold transform1. rewrite Hraw. reflexivity.
Qed.

Lemma signed_power_increasing (l1 l2 : R) :
  l1 < l2 -> signed_power l1 < signed_power l2.
Proof.
  intros H. pose proof phi_R_bounds as Hphi. unfold signed_power.
  assert (Hpow : forall c, 0 < Rpower c phi_R) by (intros c; apply exp_pos).
  destruct (total_order_T l1 0) as [[H1|H1]|H1];
    destruct (total_order_T l2 0) as [[H2|H2]|H2]; try lra.
  - rewrite (Rsgn_neg l1 H1), (Rsgn_neg l2 H2).
    apply Ropp_lt_contravar. apply Rlt_Rpower_l; lra.
  - subst l2. rewrite (Rsgn_neg l1 H1), Rsgn_zero.
    pose proof (Hpow (- l1)). lra.
  - rewrite (Rsgn_neg l1 H1), (Rsgn_pos l2 H2).
    pose proof (Hpow (- l1)). pose proof (Hpow l2). lra.
  - subst l1. rewrite Rsgn_zero, (Rsgn_pos l2 H2). apply Hpow.
  - rewrite (Rsgn_pos l1 H1), (Rsgn_pos l2 H2). apply Rlt_Rpower_l; lra.
Qed.
End ExactMonotone.

(** X16. In exact arithmetic, with the default parameters and a positive
    amplification, the transform preserves the order of finite inputs: it
    never decreases, and it is strictly increasing on the inputs from
    [epsilon] upwards (below [epsilon] every input is clamped to the same
    value).  The input [1 - epsilon] is sent to [beta = 1]. *)
Theorem transform_is_increasing (a x y : R) :
  (0 < a)%R -> (x <= y)%R ->
  exists tx ty,
    transform default [Fin x; Fin y] (Fin a) = [Fin tx; Fin ty]
    /\ (tx <= ty)%R
    /\ (Exact.eps_R <= x -> x < y -> tx < ty)%R
    /\ (x + Exact.eps_R = 1 -> tx = 1)%R.
Proof.
  intros Ha Hxy. rewrite transform_map. cbn [map].
  rewrite !exact_transform1_default. eexists. eexists. split; [reflexivity|].
  pose proof eps_R_pos as He. pose proof phi_R_bounds as Hphi.
  assert (Hinc : forall u v : R,
            (Rmax u Exact.eps_R < Rmax v Exact.eps_R)%R ->
            (Exact.phi_R * signed_power (ln (Rmax u Exact.eps_R + Exact.eps_R)) * a + 1
             < Exact.phi_R * signed_power (ln (Rmax v Exact.eps_R + Exact.eps_R)) * a + 1)%R).
  { intros u v Huv.
    assert (Hl : (ln (Rmax u Exact.eps_R + Exact.eps_R)
                  < ln (Rmax v Exact.eps_R + Exact.eps_R))%R).
    { apply ln_increasing; [|lra]. pose proof (Rmax_r u Exact.eps_R). lra. }
    apply signed_power_increasing in Hl.
    apply Rplus_lt_compat_r. apply Rmult_lt_compat_r; [exact Ha|].
    apply Rmult_lt_compat_l; [lra|exact Hl]. }
  split; [|split].
  - destruct (Rle_lt_or_eq_dec (Rmax x Exact.eps_R) (Rmax y Exact.eps_R)) as [H|H].
    + apply Rle_max_compat_r. exact Hxy.
    + left. apply Hinc. exact H.
    + rewrite H. right. reflexivity.
  - intros Hx Hlt. apply Hinc. rewrite !Rmax_left by lra. exact Hlt.
  - intros H1. pose proof eps_R_small. rewrite Rmax_left by lra. rewrite H1, ln_1.
    unfold signed_power. rewrite Rsgn_zero. ring.
Qed.

Lemma transform_is_increasing_witness :
  exists tx ty,
    transform default [Fin 1; Fin 2] (Fin 1) = [Fin tx; Fin ty]
    /\ (tx <= ty)%R
    /\ (Exact.eps_R <= 1 -> 1 < 2 -> tx < ty)%R
    /\ (1 + Exact.eps_R = 1 -> tx = 1)%R.
Proof.
  apply (transform_is_increasing 1 1 2); lra.
Defined.

Section ExactSpecial.
Import Exact.
Local Open Scope R_scope.

Lemma not_finite_falls_back (self : FractalHarmonicTransform (F := ieee))
    (a x : ieee) :
  is_finite (raw1 self a x) = false -> transform1 self a x = beta self.
Proof.
  unfold transform1, is_finite, np_where. intros H.
  apply negb_false_iff in H. rewrite H. reflexivity.
Qed.

Lemma mul_nan_l (y : ieee) : f_mul Nan y = Nan.
Proof. destruct y; reflexivity. Qed.

Lemma add_nan_l (y : ieee) : f_add Nan y = Nan.
Proof. destruct y; reflexivity. Qed.

Lemma mul_not_finite_l (x y : ieee) :
  is_finite x = false -> is_finite (f_mul x y) = false.
Proof.
  destruct x as [u| | |], y as [v| | |]; simpl; try discriminate; try reflexivity;
    intros _; destruct (Rsgn v); reflexivity.
Qed.

Lemma mul_not_finite_r (x y : ieee) :
  is_finite y = false -> is_finite (f_mul x y) = false.
Proof.
  destruct x as [u| | |], y as [v| | |]; simpl; try discriminate; try reflexivity;
    intros _; destruct (Rsgn u); reflexivity.
Qed.

Lemma add_not_finite_l (x y : ieee) :
  is_finite x = false -> is_finite (f_add x y) = false.
Proof.
  destruct x as [u| | |], y as [v| | |]; simpl; try discriminate; reflexivity.
Qed.

Lemma raw1_nan (self : FractalHarmonicTransform (F := ieee)) (a : ieee) :
  phi self = Fin phi_R -> is_finite (raw1 self a Nan) = false.
Proof.
  intros Hphi. unfold raw1. rewrite Hphi.
  apply add_not_finite_l, mul_not_finite_l, mul_not_finite_r.
  assert (Hl : np_log (f_add (np_maximum Nan (epsilon self)) (epsilon self)) = Nan).
  { unfold np_maximum. change (f_isnan Nan) with true. rewrite orb_true_r.
    rewrite add_nan_l. reflexivity. }
  rewrite Hl. reflexivity.
Qed.

Lemma raw1_inf (self : FractalHarmonicTransform (F := ieee)) (a : ieee) :
  phi self = Fin phi_R -> is_finite (raw1 self a Inf_pos) = false.
Proof.
  intros Hphi. pose proof phi_R_bounds as Hb. unfold raw1. rewrite Hphi.
  apply add_not_finite_l, mul_not_finite_l.
  set (l := np_log (f_add (np_maximum Inf_pos (epsilon self)) (epsilon self))).
  assert (Hl : l = Inf_pos \/ l = Nan).
  { unfold l, np_maximum. destruct (epsilon self) as [e| | |]; simpl; auto. }
  destruct Hl as [-> | ->].
  - simpl. rewrite (Rsgn_pos phi_R) by lra. simpl.
    apply mul_not_finite_l, mul_not_finite_r. reflexivity.
  - apply mul_not_finite_r. reflexivity.
Qed.
End ExactSpecial.

(** X17. In exact arithmetic, the inputs NaN and [+inf] are sent to [beta],
    for every [alpha], [beta], [epsilon] given to the constructor and every
    amplification: the element computed is not finite and is replaced. *)
Theorem special_inputs_fall_back_to_beta
    (alpha0 : option ieee) (beta0 epsilon0 amplification : ieee) :
  transform (__init__ alpha0 beta0 epsilon0) [Nan; Inf_pos] amplification
  = [beta0; beta0].
Proof.
  rewrite transform_map. cbn [map].
  rewrite !not_finite_falls_back; [reflexivity| |].
  - apply raw1_inf. cbn [__init__ phi]. apply exact_golden_ratio.
  - apply raw1_nan. cbn [__init__ phi]. apply exact_golden_ratio.
Qed.

(** * The dataset generators of [synthetic_validation_data.py] *)

(** ** Draws, arrays and the fractal loop *)

Section GeneratorFacts.
Import synthetic_validation_data.
Context {F : Type} {A : Arith F} {L : Libm F}.
Variable Rng : Type.
Variable np_random_normal : F -> F -> Rng -> F * Rng.
Variable np_random_uniform : F -> F -> Rng -> F * Rng.
Variable np_exp : F -> F.
Variable np_sin : F -> F.
Variable np_pi : F.
Variable self : SyntheticDataGenerator (F := F).

Lemma yields_ret (l : list F) : yields (ret Rng l) (List.length l).
Proof. intros rng. exists l, rng. split; reflexivity. Qed.

Lemma yields_bind {X} (m : G Rng X) (k : X -> G Rng (list F)) (n : nat) :
  (forall rng, exists x rng', m rng = (inr x, rng')) ->
  (forall x, yields (k x) n) ->
  yields (bind Rng m k) n.
Proof.
  intros Hm Hk rng. destruct (Hm rng) as [x [rng1 H1]].
  destruct (Hk x rng1) as [data [rng2 [H2 Hlen]]].
  exists data, rng2. unfold bind. rewrite H1. split; assumption.
Qed.

Lemma draws_yields (sample : Rng -> F * Rng) (n : nat) : yields (draws Rng sample n) n.
Proof.
  induction n as [|n IH]; intros rng; cbn [draws].
  - exists [], rng. split; reflexivity.
  - unfold bind, draw, ret. destruct (sample rng) as [x rng1].
    destruct (IH rng1) as [rest [rng2 [H Hlen]]]. rewrite H.
    exists (x :: rest), rng2. split; [reflexivity|cbn; rewrite Hlen; reflexivity].
Qed.

Lemma draw_array_yields (sample : Rng -> F * Rng) (size : Z) :
  (0 <= size)%Z -> yields (draw_array Rng sample size) (Z.to_nat size).
Proof.
  intros H. unfold draw_array. destruct (Z.ltb_spec size 0) as [Hneg|_]; [lia|].
  apply draws_yields.
Qed.

Lemma linspace_yields (start stop : F) (length : Z) :
  (0 <= length)%Z ->
  exists x_values,
    np_linspace start stop length = Ok x_values
    /\ List.length x_values = Z.to_nat length.
Proof.
  intros H. destruct (np_linspace_length start stop (Z.to_nat length)) as [d [Hd Hlen]].
  rewrite Z2Nat.id in Hd by exact H. exists d. split; assumption.
Qed.

Lemma linspace_negative (start stop : F) (length : Z) :
  (length < 0)%Z -> exists e, np_linspace start stop length = Raise e.
Proof.
  intros H. unfold np_linspace. destruct (Z.ltb_spec length 0) as [_|H']; [|lia].
  eexists. reflexivity.
Qed.

(** A generator that maps a function over [np.linspace]. *)
Lemma mapped_linspace_yields (start stop : F) (f : F -> F) (length : Z) :
  (0 <= length)%Z ->
  yields (bind Rng (numpy Rng (np_linspace start stop length))
            (fun x_values => ret Rng (map f x_values)))
         (Z.to_nat length).
Proof.
  intros H rng. destruct (linspace_yields start stop length H) as [xs [Hxs Hlen]].
  unfold bind. rewrite Hxs. cbn. exists (map f xs), rng.
  split; [reflexivity|rewrite length_map; exact Hlen].
Qed.

Lemma mapped_linspace_negative (start stop : F) (k : list F -> G Rng (list F))
    (length : Z) :
  (length < 0)%Z ->
  fails_or_empty (bind Rng (numpy Rng (np_linspace start stop length)) k).
Proof.
  intros H rng. destruct (linspace_negative start stop length H) as [e He].
  left. unfold bind. rewrite He. cbn. eexists. eexists. reflexivity.
Qed.

Lemma add_terms_length (x_values : list F) (coefficients : list F) :
  forall (i : Z) (result : list F),
    List.length result = List.length x_values ->
    List.length (add_terms x_values i coefficients result) = List.length x_values.
Proof.
  induction coefficients as [|c cs IH]; intros i result H; cbn [add_terms].
  - exact H.
  - apply IH. rewrite length_map, length_combine, H. apply Nat.min_id.
Qed.

Lemma grow_yields (steps : nat) :
  forall previous, yields (grow Rng np_random_normal steps previous) steps.
Proof.
  induction steps as [|k IH]; intros previous rng; cbn [grow].
  - exists [], rng. split; reflexivity.
  - unfold bind, draw, ret.
    destruct (np_random_normal _ _ rng) as [noise rng1].
    match goal with
    | |- context [grow Rng np_random_normal k ?c rng1] =>
        destruct (IH c rng1) as [rest [rng2 [H Hlen]]]; rewrite H
    end.
    eexists. eexists. split; [reflexivity|cbn; rewrite Hlen; reflexivity].
Qed.

(** **** The fractal generator *)

Lemma refine_singleton (length : Z) (x : F) (rng : Rng) :
  refine Rng np_random_normal length [x] rng
  = (inr (if (length <? 1)%Z then [] else [x]), rng).
Proof.
  unfold refine, bind, ret, last_element. cbn [interpolate last app ret].
  unfold ret. cbn [len List.length Z.of_nat Pos.of_succ_nat].
  destruct (Z.ltb_spec length 1) as [H|H]; [|reflexivity].
  unfold py_prefix. destruct (Z.ltb_spec length 0) as [H0|H0].
  - replace (Z.to_nat (Z.of_nat (List.length [x]) + length)) with 0%nat
      by (cbn [List.length]; lia).
    reflexivity.
  - replace (Z.to_nat length) with 0%nat by lia. reflexivity.
Qed.

Lemma refinements_singleton (iterations : nat) (length : Z) (x : F) (rng : Rng) :
  (1 <= length)%Z ->
  refinements Rng np_random_normal iterations length [x] rng = (inr [x], rng).
Proof.
  intros H. induction iterations as [|k IH]; cbn [refinements]; [reflexivity|].
  unfold bind. rewrite refine_singleton.
  destruct (Z.ltb_spec length 1) as [H1|_]; [lia|]. exact IH.
Qed.

Lemma fractal_constant (length : Z) (iterations : Z) (rng : Rng) :
  (1 <= length)%Z ->
  generate_fractal_sequence Rng np_random_normal self length iterations rng
  = (inr (repeat (f_of_int 1) (Z.to_nat length)), rng).
Proof.
  intros H. unfold generate_fractal_sequence, bind.
  rewrite refinements_singleton by exact H.
  cbn [len List.length Z.of_nat Pos.of_succ_nat].
  destruct (Z.ltb_spec 1 length) as [H1|H1].
  - cbn [last_element last]. unfold ret.
    replace (Z.to_nat length) with (S (Z.to_nat (length - 1))) by lia.
    reflexivity.
  - replace length with 1%Z by lia. reflexivity.
Qed.

Lemma fractal_raises (length : Z) (iterations : Z) (rng : Rng) :
  (length <= 0)%Z -> (2 <= iterations)%Z ->
  generate_fractal_sequence Rng np_random_normal self length iterations rng
  = (inl (IndexError "index -1 is out of bounds for axis 0 with size 0"), rng).
Proof.
  intros H Hi. unfold generate_fractal_sequence, bind.
  replace (Z.to_nat iterations) with (S (S (Z.to_nat (iterations - 2)))) by lia.
  cbn [refinements]. unfold bind. rewrite refine_singleton.
  destruct (Z.ltb_spec length 1) as [_|H1]; [|lia].
  reflexivity.
Qed.
End GeneratorFacts.

(** ** What each generator does on a length *)

Section GeneratorOutcomes.
Import synthetic_validation_data.
Context {F : Type} {A : Arith F} {L : Libm F} {C : IntToFloat F}.
Variable Rng : Type.
Variable np_random_normal : F -> F -> Rng -> F * Rng.
Variable np_random_uniform : F -> F -> Rng -> F * Rng.
Variable np_exp : F -> F.
Variable np_sin : F -> F.
Variable np_pi : F.
Variable self : SyntheticDataGenerator (F := F).

Lemma yields_zero_empty (g : G Rng (list F)) : yields g 0 -> fails_or_empty g.
Proof.
  intros H rng. destruct (H rng) as [data [rng' [Hg Hlen]]].
  destruct data; [|discriminate Hlen]. right. exists rng'. exact Hg.
Qed.

Lemma fibonacci_returns (length : Z) (rng : Rng) :
  (1 <= length)%Z ->
  (forall k, (k < Z.to_nat length)%nat -> checked_of_int (fibonacci k) <> None) ->
  exists data,
    generate_fibonacci_sequence Rng self length rng = (inr data, rng)
    /\ Forall2 (fun n x => checked_of_int n = Some x)
         (map fibonacci (seq 0 (Z.to_nat length))) data.
Proof.
  intros H Hconv. unfold generate_fibonacci_sequence.
  destruct (Z.leb_spec length 0) as [H0|_]; [lia|].
  pose proof (fibonacci_prefix (Z.to_nat length)) as Hp.
  rewrite Z2Nat.id in Hp by lia. rewrite Hp.
  destruct (float_array_converts (map fibonacci (seq 0 (Z.to_nat length))))
    as [data [Hd Hall]].
  { intros n Hn. apply in_map_iff in Hn. destruct Hn as [k [<- Hk]].
    apply Hconv. apply in_seq in Hk. lia. }
  unfold np_array_float. rewrite Hd. exists data. split; [reflexivity|exact Hall].
Qed.

Lemma fibonacci_raises (length : Z) (rng : Rng) (k : nat) :
  (k < Z.to_nat length)%nat -> checked_of_int (fibonacci k) = None ->
  generate_fibonacci_sequence Rng self length rng
  = (inl (OverflowError "int too large to convert to float"), rng).
Proof.
  intros Hk Hnone. unfold generate_fibonacci_sequence.
  destruct (Z.leb_spec length 0) as [H0|_]; [lia|].
  pose proof (fibonacci_prefix (Z.to_nat length)) as Hp.
  rewrite Z2Nat.id in Hp by lia. rewrite Hp.
  unfold np_array_float.
  rewrite (float_array_overflows _ (fibonacci k)); [reflexivity| |exact Hnone].
  apply in_map. apply in_seq. lia.
Qed.

Lemma fibonacci_nonpositive (length : Z) :
  (length <= 0)%Z -> fails_or_empty (generate_fibonacci_sequence Rng self length).
Proof.
  intros H rng. right. exists rng. unfold generate_fibonacci_sequence.
  destruct (Z.leb_spec length 0) as [_|H0]; [reflexivity|lia].
Qed.

Lemma golden_ratio_yields (length : Z) :
  yields (generate_golden_ratio_sequence Rng self length) (Z.to_nat length).
Proof.
  intros rng. eexists. eexists. split; [reflexivity|].
  unfold np_arange. rewrite !length_map, length_seq. f_equal. lia.
Qed.

Lemma prime_modulo_nonpositive (length : Z) :
  (length <= 0)%Z ->
  fails_or_empty (generate_prime_modulo_sequence Rng self length default_modulo).
Proof.
  intros H rng. right. exists rng.
  unfold generate_prime_modulo_sequence, _generate_primes, bind.
  destruct (Z.leb_spec (length * 3) 0) as [_|H0]; [|lia].
  cbn. unfold py_prefix. destruct (length <? 0)%Z; rewrite firstn_nil; reflexivity.
Qed.

Lemma polynomial_yields (length degree : Z) :
  (0 <= length)%Z -> (0 <= degree + 1)%Z ->
  yields (generate_polynomial_sequence Rng np_random_uniform self length degree)
         (Z.to_nat length).
Proof.
  intros H Hd rng. unfold generate_polynomial_sequence.
  destruct (linspace_yields (f_of_int (-5)) (f_of_int 5) length H) as [xs [Hxs Hlen]].
  unfold Ok in Hxs. unfold bind at 1. rewrite Hxs. cbn [numpy]. unfold ret at 1.
  unfold bind at 1.
  destruct (draw_array_yields Rng (np_random_uniform (f_of_int (-2)) (f_of_int 2))
              (degree + 1) Hd rng) as [cs [rng1 [Hcs _]]].
  rewrite Hcs. unfold bind, np_zeros.
  destruct (Z.ltb_spec length 0) as [Hneg|_]; [lia|]. unfold ret.
  eexists. eexists. split; [reflexivity|].
  rewrite add_terms_length; [exact Hlen|]. rewrite repeat_length, Hlen. reflexivity.
Qed.

Lemma quantum_yields (length : Z) :
  (0 <= length)%Z ->
  yields (generate_quantum_inspired_sequence Rng np_random_normal np_pi self length)
         (Z.to_nat length).
Proof.
  intros H rng. unfold generate_quantum_inspired_sequence, bind.
  destruct (draw_array_yields Rng (np_random_normal (f_of_int 0) (lit 1 10))
              length H rng) as [fl [rng1 [Hfl Hlen]]].
  rewrite Hfl. unfold ret. eexists. eexists. split; [reflexivity|].
  unfold add_arrays, np_arange.
  rewrite length_map, length_combine, !length_map, length_seq, Hlen.
  replace (Z.to_nat (length - 0)) with (Z.to_nat length) by lia. apply Nat.min_id.
Qed.

Lemma quantum_negative (length : Z) :
  (length < 0)%Z ->
  fails_or_empty
    (generate_quantum_inspired_sequence Rng np_random_normal np_pi self length).
Proof.
  intros H rng. left. unfold generate_quantum_inspired_sequence, bind, draw_array.
  destruct (Z.ltb_spec length 0) as [_|H']; [|lia].
  eexists. eexists. reflexivity.
Qed.

Lemma biological_yields (length : Z) :
  (1 <= length)%Z ->
  yields (generate_biological_sequence Rng np_random_normal self length)
         (Z.to_nat length).
Proof.
  intros H rng. unfold generate_biological_sequence, bind, np_zeros.
  destruct (Z.ltb_spec length 0) as [Hneg|_]; [lia|]. unfold ret at 1.
  assert (Hrep : repeat (f_of_int 0 : F) (Z.to_nat length)
                 = f_of_int 0 :: repeat (f_of_int 0) (Z.to_nat (length - 1))).
  { replace (Z.to_nat length) with (S (Z.to_nat (length - 1))) by lia. reflexivity. }
  rewrite Hrep.
  destruct (grow_yields Rng np_random_normal (Z.to_nat (length - 1)) (f_of_int 1) rng)
    as [rest [rng1 [Hrest Hlen]]].
  rewrite Hrest. unfold ret. eexists. eexists. split; [reflexivity|].
  cbn [List.length]. rewrite Hlen. lia.
Qed.

Lemma biological_nonpositive (length : Z) :
  (length <= 0)%Z ->
  fails_or_empty (generate_biological_sequence Rng np_random_normal self length).
Proof.
  intros H rng. left. unfold generate_biological_sequence, bind, np_zeros.
  destruct (Z.ltb_spec length 0) as [Hneg|Hpos].
  - eexists. eexists. reflexivity.
  - replace length with 0%Z by lia. eexists. eexists. reflexivity.
Qed.

(** Every generator of the suite, on a length that is not positive. *)
Lemma dataset_types_nonpositive (name : string) (gen : Z -> G Rng (list F))
    (length : Z) :
  In (name, gen)
     (dataset_types Rng np_random_normal np_random_uniform np_exp np_sin np_pi self) ->
  (length <= 0)%Z -> fails_or_empty (gen length).
Proof.
  intros Hin H. unfold dataset_types in Hin. cbn [In] in Hin.
  assert (Hlin : forall start stop (f : F -> F),
            fails_or_empty
              (bind Rng (numpy Rng (np_linspace start stop length))
                 (fun x_values => ret Rng (map f x_values)))).
  { intros start stop f. destruct (Z.ltb_spec length 0) as [Hneg|Hpos].
    - apply mapped_linspace_negative. exact Hneg.
    - apply yields_zero_empty. replace 0%nat with (Z.to_nat length) by lia.
      apply mapped_linspace_yields. exact Hpos. }
  repeat (destruct Hin as [Hin|Hin]; [injection Hin as <- <-|]);
    try contradiction.
  - apply fibonacci_nonpositive. exact H.
  - apply yields_zero_empty. replace 0%nat with (Z.to_nat length) by lia.
    apply golden_ratio_yields.
  - apply prime_modulo_nonpositive. exact H.
  - apply Hlin.
  - apply Hlin.
  - destruct (Z.ltb_spec length 0) as [Hneg|Hpos].
    + apply mapped_linspace_negative. exact Hneg.
    + apply yields_zero_empty. replace 0%nat with (Z.to_nat length) by lia.
      apply polynomial_yields; lia.
  - apply Hlin.
  - intros rng. left. eexists. eexists.
    apply (fractal_raises Rng np_random_normal self length default_iterations rng H).
    unfold default_iterations. lia.
  - destruct (Z.ltb_spec length 0) as [Hneg|Hpos].
    + apply quantum_negative. exact Hneg.
    + apply yields_zero_empty. replace 0%nat with (Z.to_nat length) by lia.
      apply quantum_yields. exact Hpos.
  - apply biological_nonpositive. exact H.
Qed.

(** Every generator of the suite but the two that turn Python integers into
    floats, on a positive length. *)
Lemma dataset_types_positive (name : string) (gen : Z -> G Rng (list F))
    (length : Z) :
  In (name, gen)
     (dataset_types Rng np_random_normal np_random_uniform np_exp np_sin np_pi self) ->
  name <> "fibonacci"%string -> name <> "prime_modulo"%string ->
  (1 <= length)%Z -> yields (gen length) (Z.to_nat length).
Proof.
  intros Hin Hfib Hname H. unfold dataset_types in Hin. cbn [In] in Hin.
  repeat (destruct Hin as [Hin|Hin]; [injection Hin as <- <-|]);
    try contradiction.
  - apply golden_ratio_yields.
  - apply mapped_linspace_yields. lia.
  - apply mapped_linspace_yields. lia.
  - apply polynomial_yields; lia.
  - apply (mapped_linspace_yields Rng (f_of_int 0) (f_mul (f_of_int 4) np_pi)
             (fun x => np_sin (f_mul default_frequency x))). lia.
  - intros rng. eexists. eexists.
    split; [apply (fractal_constant Rng np_random_normal self length
                     default_iterations rng H)|].
    apply repeat_length.
  - apply quantum_yields. lia.
  - apply biological_yields. exact H.
Qed.
End GeneratorOutcomes.

(** ** The keys and the loops of [generate_validation_suite] *)

Section KeyFacts.
Lemma to_int_not_nil (n : Z) :
  Z.to_int n <> Decimal.Pos Decimal.Nil /\ Z.to_int n <> Decimal.Neg Decimal.Nil.
Proof.
  split; intros H; pose proof (f_equal Z.of_int H) as H';
    rewrite DecimalZ.of_to in H'; cbn in H'; subst n; discriminate H.
Qed.

Lemma py_str_injective (n m : Z) : py_str n = py_str m -> n = m.
Proof.
  unfold py_str. intros H.
  destruct (to_int_not_nil n) as [Hn1 Hn2]. destruct (to_int_not_nil m) as [Hm1 Hm2].
  apply (f_equal NilZero.int_of_string) in H.
  rewrite !NilZero.isi in H by assumption.
  injection H as H. apply DecimalZ.to_int_inj. exact H.
Qed.

Lemma size_key_injective (n m : Z) :
  synthetic_validation_data.size_key n = synthetic_validation_data.size_key m ->
  n = m.
Proof.
  unfold synthetic_validation_data.size_key. cbn [String.append].
  intros H. injection H as H. apply py_str_injective. exact H.
Qed.

Lemma In_dict_set {V} (d : list (string * V)) (k0 : string) (v0 : V)
    (k : string) (v : V) :
  In (k, v) (dict_set d k0 v0) -> (k = k0 /\ v = v0) \/ In (k, v) d.
Proof.
  induction d as [|[k1 v1] d IH]; cbn.
  - intros [H|[]]. injection H as <- <-. left. split; reflexivity.
  - destruct (String.eqb_spec k1 k0) as [->|Hne]; cbn.
    + intros [H|H]; [injection H as <- <-; left; split; reflexivity|right; right; exact H].
    + intros [H|H]; [right; left; exact H|].
      destruct (IH H) as [Heq|Hin]; [left; exact Heq|right; right; exact Hin].
Qed.

Lemma dict_get_app_new {V} (d : list (string * V)) (k k' : string) (v : V) :
  k <> k' -> dict_get (d ++ [(k, v)]) k' = dict_get d k'.
Proof.
  intros Hne. induction d as [|[k1 v1] d IH]; cbn.
  - destruct (String.eqb_spec k k'); [contradiction|reflexivity].
  - destruct (String.eqb k1 k'); [reflexivity|exact IH].
Qed.
End KeyFacts.

Section SuiteFacts.
Import synthetic_validation_data.
Context {F : Type} {A : Arith F}.
Variable Rng : Type.

Lemma describe_returns (data : list F) (rng rng' : Rng) (info : DatasetInfo) :
  describe Rng data rng = (inr info, rng') ->
  data <> [] /\ ds_data info = data /\ ds_size info = len data.
Proof.
  unfold describe, bind, numpy, ret. destruct data as [|x data]; cbn.
  - discriminate.
  - intros H. injection H as <- _. repeat split. discriminate.
Qed.

Lemma describe_nonempty (data : list F) (rng : Rng) :
  data <> [] ->
  exists info,
    describe Rng data rng = (inr info, rng)
    /\ ds_data info = data /\ ds_size info = len data.
Proof.
  intros H. destruct data as [|x data]; [contradiction|].
  eexists. split; [reflexivity|]. split; reflexivity.
Qed.

Lemma generate_entry_entries (generator_func : Z -> G Rng (list F))
    (all : list Z) (entries : list (string * DatasetInfo)) (size : Z) (rng : Rng) :
  In size all ->
  (forall key info, In (key, info) entries -> entry_of generator_func all key info) ->
  forall key info,
    In (key, info) (fst (generate_entry Rng generator_func entries size rng)) ->
    entry_of generator_func all key info.
Proof.
  intros Hsize Hall key info. unfold generate_entry, bind.
  destruct (generator_func size rng) as [[e|data] rng1] eqn:Hgen;
    [cbn [fst]; apply Hall|].
  destruct (describe Rng data rng1) as [[e|info1] rng2] eqn:Hd;
    [cbn [fst]; apply Hall|].
  cbn [fst]. intros Hin. apply In_dict_set in Hin.
  destruct Hin as [[-> ->]|Hin]; [|apply Hall; exact Hin].
  destruct (describe_returns data rng1 rng2 info1 Hd) as [Hne [Hdata Hsz]].
  split; [rewrite Hdata; exact Hne|]. split; [rewrite Hdata; exact Hsz|].
  exists size, rng, rng1. rewrite Hdata. repeat split; assumption.
Qed.

Lemma for_sizes_entries (generator_func : Z -> G Rng (list F)) (all : list Z)
    (sizes : list Z) :
  forall (entries : list (string * DatasetInfo)) (rng : Rng),
    incl sizes all ->
    (forall key info, In (key, info) entries -> entry_of generator_func all key info) ->
    forall key info,
      In (key, info) (fst (for_sizes Rng generator_func sizes entries rng)) ->
      entry_of generator_func all key info.
Proof.
  induction sizes as [|size sizes IH]; intros entries rng Hincl Hall;
    cbn [for_sizes].
  - exact Hall.
  - pose proof (generate_entry_entries generator_func all entries size rng
                  (Hincl size (or_introl eq_refl)) Hall) as Hstep.
    destruct (generate_entry Rng generator_func entries size rng) as [entries1 rng1].
    cbn [fst] in Hstep. apply IH; [|exact Hstep].
    intros x Hx. apply Hincl. right. exact Hx.
Qed.

Lemma generate_entry_keeps (generator_func : Z -> G Rng (list F))
    (entries : list (string * DatasetInfo)) (size n : Z) (m : nat) (rng : Rng) :
  yields (generator_func n) m -> (1 <= m)%nat ->
  size = n \/ has_entry entries n m ->
  has_entry (fst (generate_entry Rng generator_func entries size rng)) n m.
Proof.
  intros Hy Hm Hcase. unfold generate_entry, bind.
  destruct (Z.eq_dec size n) as [->|Hne].
  - destruct (Hy rng) as [data [rng1 [Hgen Hlen]]]. rewrite Hgen.
    destruct (describe_nonempty data rng1) as [info [Hd [Hdata Hsz]]].
    { intros ->. cbn in Hlen. lia. }
    rewrite Hd. cbn [fst]. exists info. rewrite dict_get_set_same.
    split; [reflexivity|]. rewrite Hsz, Hdata. unfold len. rewrite Hlen.
    split; reflexivity.
  - destruct Hcase as [Heq|[info [Hget Hinfo]]]; [contradiction|].
    assert (Hkey : size_key size <> size_key n).
    { intros H. apply Hne. apply size_key_injective. exact H. }
    destruct (generator_func size rng) as [[e|data] rng1];
      [exists info; split; assumption|].
    destruct (describe Rng data rng1) as [[e|info1] rng2];
      [exists info; split; assumption|].
    cbn [fst]. exists info. rewrite dict_get_set_other by exact Hkey.
    split; assumption.
Qed.

Lemma for_sizes_keeps (generator_func : Z -> G Rng (list F)) (n : Z) (m : nat)
    (sizes : list Z) :
  yields (generator_func n) m -> (1 <= m)%nat ->
  forall (entries : list (string * DatasetInfo)) (rng : Rng),
    In n sizes \/ has_entry entries n m ->
    has_entry (fst (for_sizes Rng generator_func sizes entries rng)) n m.
Proof.
  intros Hy Hm. induction sizes as [|size sizes IH]; intros entries rng Hcase;
    cbn [for_sizes].
  - destruct Hcase as [[]|H]. exact H.
  - pose proof (generate_entry_keeps generator_func entries size n m rng Hy Hm) as Hstep.
    destruct (generate_entry Rng generator_func entries size rng) as [entries1 rng1].
    cbn [fst] in Hstep. apply IH.
    destruct Hcase as [[->|Hin]|H].
    + right. apply Hstep. left. reflexivity.
    + left. exact Hin.
    + right. apply Hstep. right. exact H.
Qed.

(** The outer loop binds each name, in order, to what the inner loop has
    built from some state of the random generator. *)
Lemma for_types_datasets (sizes : list Z) (types : list (string * (Z -> G Rng (list F)))) :
  forall (datasets : list (string * list (string * DatasetInfo))) (rng : Rng),
    NoDup (map fst types) ->
    (forall name, In name (map fst types) -> dict_get datasets name = None) ->
    exists built,
      fst (for_types Rng types sizes datasets rng) = datasets ++ built
      /\ Forall2 (fun t b =>
                    fst b = fst t
                    /\ exists rng0,
                         snd b = fst (for_sizes Rng (snd t) sizes [] rng0))
                 types built.
Proof.
  induction types as [|[name gen] types IH]; intros datasets rng Hnd Hfresh;
    cbn [for_types].
  - exists []. rewrite app_nil_r. split; [reflexivity|constructor].
  - destruct (for_sizes Rng gen sizes [] rng) as [entries rng1] eqn:Hfs.
    rewrite dict_set_new by (apply Hfresh; left; reflexivity).
    inversion Hnd as [|? ? Hnotin Hnd']; subst.
    destruct (IH (datasets ++ [(name, entries)]) rng1 Hnd') as [built [Hbuilt Hall]].
    { intros name' Hin. rewrite dict_get_app_new.
      - apply Hfresh. right. exact Hin.
      - intros ->. apply Hnotin. exact Hin. }
    exists ((name, entries) :: built). rewrite Hbuilt, <- app_assoc.
    split; [reflexivity|]. constructor; [|exact Hall].
    split; [reflexivity|]. exists rng. cbn [fst snd]. rewrite Hfs. reflexivity.
Qed.
End SuiteFacts.

Section SuiteTheoremFacts.
Lemma Forall2_In_r {X Y} (P : X -> Y -> Prop) (l1 : list X) (l2 : list Y) (b : Y) :
  Forall2 P l1 l2 -> In b l2 -> exists a, In a l1 /\ P a b.
Proof.
  induction 1 as [|x y l1 l2 Hxy _ IH]; intros Hin; [contradiction|].
  destruct Hin as [->|Hin].
  - exists x. split; [left; reflexivity|exact Hxy].
  - destruct (IH Hin) as [a [Ha HP]]. exists a. split; [right; exact Ha|exact HP].
Qed.

Lemma Forall2_In_l {X Y} (P : X -> Y -> Prop) (l1 : list X) (l2 : list Y) (a : X) :
  Forall2 P l1 l2 -> In a l1 -> exists b, In b l2 /\ P a b.
Proof.
  induction 1 as [|x y l1 l2 Hxy _ IH]; intros Hin; [contradiction|].
  destruct Hin as [->|Hin].
  - exists y. split; [left; reflexivity|exact Hxy].
  - destruct (IH Hin) as [b [Hb HP]]. exists b. split; [right; exact Hb|exact HP].
Qed.

Lemma Forall2_fst {X Y} (l1 : list (string * X)) (l2 : list (string * Y))
    (Q : string * X -> string * Y -> Prop) :
  Forall2 (fun t b => fst b = fst t /\ Q t b) l1 l2 -> map fst l2 = map fst l1.
Proof.
  induction 1 as [|x y l1 l2 [Hxy _] _ IH]; [reflexivity|].
  cbn [map]. rewrite Hxy, IH. reflexivity.
Qed.
End SuiteTheoremFacts.

Section SuiteShape.
Import synthetic_validation_data.
Context {F : Type} {A : Arith F} {L : Libm F} {C : IntToFloat F}.
Variable Rng : Type.
Variable np_random_normal : F -> F -> Rng -> F * Rng.
Variable np_random_uniform : F -> F -> Rng -> F * Rng.
Variable np_exp : F -> F.
Variable np_sin : F -> F.
Variable np_pi : F.
Variable timestamp_now : string.
Variable self : SyntheticDataGenerator (F := F).

Lemma suite_datasets (sizes : list Z) (rng : Rng) :
  Forall2 (fun t b =>
             fst b = fst t
             /\ exists rng0, snd b = fst (for_sizes Rng (snd t) sizes [] rng0))
    (dataset_types Rng np_random_normal np_random_uniform np_exp np_sin np_pi self)
    (datasets (fst (generate_validation_suite Rng np_random_normal np_random_uniform
                      np_exp np_sin np_pi timestamp_now self (Some sizes) rng))).
Proof.
  unfold generate_validation_suite.
  destruct (for_types_datasets Rng sizes
              (dataset_types Rng np_random_normal np_random_uniform np_exp np_sin
                 np_pi self) [] rng) as [built [Hbuilt Hall]].
  - unfold dataset_types. cbn [map fst].
    repeat (constructor; [cbn [In]; intuition discriminate|]). constructor.
  - reflexivity.
  - destruct (for_types Rng _ sizes [] rng) as [ds rng1]. cbn [fst] in Hbuilt.
    cbn [fst datasets]. rewrite Hbuilt. exact Hall.
Qed.
End SuiteShape.

(** ** What the generators and the suite of datasets give *)

(** X18. The fractal generator draws nothing and is constant: for a length
    of one or more, [generate_fractal_sequence] returns that many copies of
    [1.0] and leaves the random generator as it found it (the sequence it
    refines has one element, so the loop over its neighbours never runs);
    for a length of zero or less it raises [IndexError]. *)
Theorem fractal_dataset_is_constant {F : Type} {A : Arith F} (Rng : Type)
    (np_random_normal : F -> F -> Rng -> F * Rng)
    (self : synthetic_validation_data.SyntheticDataGenerator) (rng : Rng) :
  (forall length, (1 <= length)%Z ->
     synthetic_validation_data.generate_fractal_sequence Rng np_random_normal
       self length synthetic_validation_data.default_iterations rng
     = (inr (repeat (f_of_int 1) (Z.to_nat length)), rng))
  /\ (forall length, (length <= 0)%Z ->
        synthetic_validation_data.generate_fractal_sequence Rng np_random_normal
          self length synthetic_validation_data.default_iterations rng
        = (inl (synthetic_validation_data.IndexError
                  "index -1 is out of bounds for axis 0 with size 0"), rng)).
Proof.
  split; intros length H.
  - apply fractal_constant. exact H.
  - apply fractal_raises; [exact H|].
    unfold synthetic_validation_data.default_iterations. lia.
Qed.

(** X19. The ten generators of [generate_validation_suite], on a length:
    for a length of zero or less each of them raises or returns the empty
    array; for a length [n] of one or more each of them, but the two that
    turn Python integers into floats (Fibonacci and prime-modulo), returns
    exactly [n] values, whatever the state of the random generator. *)
Theorem generators_and_lengths {F : Type} {A : Arith F} {L : Libm F}
    {C : IntToFloat F} (Rng : Type)
    (np_random_normal np_random_uniform : F -> F -> Rng -> F * Rng)
    (np_exp np_sin : F -> F) (np_pi : F)
    (self : synthetic_validation_data.SyntheticDataGenerator)
    (name : string) (gen : Z -> synthetic_validation_data.G Rng (list F)) :
  In (name, gen)
     (synthetic_validation_data.dataset_types Rng np_random_normal
        np_random_uniform np_exp np_sin np_pi self) ->
  (forall length, (length <= 0)%Z -> fails_or_empty (gen length))
  /\ (name <> "fibonacci"%string -> name <> "prime_modulo"%string ->
      forall length, (1 <= length)%Z -> yields (gen length) (Z.to_nat length)).
Proof.
  intros Hin. split.
  - intros length H.
    apply (dataset_types_nonpositive Rng np_random_normal np_random_uniform
             np_exp np_sin np_pi self name gen length Hin H).
  - intros Hfib Hname length H.
    apply (dataset_types_positive Rng np_random_normal np_random_uniform
             np_exp np_sin np_pi self name gen length Hin Hfib Hname H).
Qed.

Lemma generators_and_lengths_witness :
  let self : synthetic_validation_data.SyntheticDataGenerator (F := float) :=
    fst (synthetic_validation_data.__init__ nat (fun _ => 0%nat) 42) in
  let normal := fun (loc scale : float) (rng : nat) => (loc, S rng) in
  let gen := synthetic_validation_data.generate_biological_sequence nat normal self in
  (forall length, (length <= 0)%Z -> fails_or_empty (gen length))
  /\ ("biological"%string <> "fibonacci"%string ->
      "biological"%string <> "prime_modulo"%string ->
      forall length, (1 <= length)%Z -> yields (gen length) (Z.to_nat length)).
Proof.
  cbv zeta.
  apply (@generators_and_lengths float binary64 soft_libm binary64_int nat
           (fun (loc scale : float) (rng : nat) => (loc, S rng))
           (fun (loc scale : float) (rng : nat) => (loc, S rng))
           (fun x => x) (fun x => x) PrimFloat.zero
           (fst (synthetic_validation_data.__init__ nat (fun _ => 0%nat) 42))
           "biological").
  cbn. tauto.
Defined.

(** X20. What [generate_validation_suite] stores, for every list of sizes
    and every state of the random generator: the ten dataset types in the
    order of the source, each bound to a dictionary whose entries all hold
    a dataset that is not empty, with ['size'] its number of values, under
    the key [size_n] of a size [n >= 1] of the list.  A size for which the
    generator raises or returns nothing (every size below 1) leaves no
    entry. *)
Theorem validation_suite_entries {F : Type} {A : Arith F} {L : Libm F}
    {C : IntToFloat F} (Rng : Type)
    (np_random_normal np_random_uniform : F -> F -> Rng -> F * Rng)
    (np_exp np_sin : F -> F) (np_pi : F) (timestamp_now : string)
    (self : synthetic_validation_data.SyntheticDataGenerator)
    (sizes : list Z) (rng : Rng) :
  let suite :=
    fst (synthetic_validation_data.generate_validation_suite Rng np_random_normal
           np_random_uniform np_exp np_sin np_pi timestamp_now self (Some sizes) rng) in
  map fst (synthetic_validation_data.datasets suite)
  = ["fibonacci"; "golden_ratio"; "prime_modulo"; "logarithmic"; "exponential";
     "polynomial"; "sinusoidal"; "fractal"; "quantum_inspired"; "biological"]%string
  /\ forall name entries key info,
       In (name, entries) (synthetic_validation_data.datasets suite) ->
       In (key, info) entries ->
       synthetic_validation_data.ds_data info <> []
       /\ synthetic_validation_data.ds_size info
          = len (synthetic_validation_data.ds_data info)
       /\ exists n, In n sizes /\ (1 <= n)%Z
                    /\ key = synthetic_validation_data.size_key n.
Proof.
  cbv zeta.
  pose proof (suite_datasets Rng np_random_normal np_random_uniform np_exp np_sin
                np_pi timestamp_now self sizes rng) as Hall.
  split.
  - rewrite (Forall2_fst _ _ _ Hall). reflexivity.
  - intros name entries key info Hin Hentry.
    destruct (Forall2_In_r _ _ _ _ Hall Hin) as [[name' gen] [Ht [Hname [rng0 Hb]]]].
    cbn [fst snd] in Hname, Hb. subst entries.
    assert (He : entry_of gen sizes key info).
    { apply (for_sizes_entries Rng gen sizes sizes [] rng0); [apply incl_refl| |exact Hentry].
      intros k i []. }
    destruct He as [Hne [Hsz [n [r [r' [Hn [Hkey Hgen]]]]]]].
    split; [exact Hne|]. split; [exact Hsz|].
    exists n. split; [exact Hn|]. split; [|exact Hkey].
    destruct (Z_le_gt_dec n 0) as [Hle|Hgt]; [|lia].
    exfalso.
    destruct (dataset_types_nonpositive Rng np_random_normal np_random_uniform
                np_exp np_sin np_pi self name' gen n Ht Hle r)
      as [[e [r1 Hr]]|[r1 Hr]]; rewrite Hr in Hgen.
    + discriminate Hgen.
    + injection Hgen as Hd _. apply Hne. symmetry. exact Hd.
Qed.

(** X21. A size that fails does not cost the other sizes their entries.
    For every size [n >= 1] of the list, whatever other sizes the list
    holds, each of the eight dataset types that are not built from Python
    integers ends up with the entry [size_n], and it holds [n] values. *)
Theorem validation_suite_isolates_failures {F : Type} {A : Arith F} {L : Libm F}
    {C : IntToFloat F} (Rng : Type)
    (np_random_normal np_random_uniform : F -> F -> Rng -> F * Rng)
    (np_exp np_sin : F -> F) (np_pi : F) (timestamp_now : string)
    (self : synthetic_validation_data.SyntheticDataGenerator)
    (sizes : list Z) (rng : Rng) (n : Z) (name : string) :
  In n sizes -> (1 <= n)%Z ->
  In name ["golden_ratio"; "logarithmic"; "exponential"; "polynomial";
           "sinusoidal"; "fractal"; "quantum_inspired"; "biological"]%string ->
  exists entries info,
    In (name, entries)
       (synthetic_validation_data.datasets
          (fst (synthetic_validation_data.generate_validation_suite Rng
                  np_random_normal np_random_uniform np_exp np_sin np_pi
                  timestamp_now self (Some sizes) rng)))
    /\ dict_get entries (synthetic_validation_data.size_key n) = Some info
    /\ synthetic_validation_data.ds_size info = n
    /\ len (synthetic_validation_data.ds_data info) = n.
Proof.
  intros Hn Hpos Hname.
  pose proof (suite_datasets Rng np_random_normal np_random_uniform np_exp np_sin
                np_pi timestamp_now self sizes rng) as Hall.
  assert (Ht : exists gen,
            In (name, gen)
               (synthetic_validation_data.dataset_types Rng np_random_normal
                  np_random_uniform np_exp np_sin np_pi self)
            /\ name <> "fibonacci"%string /\ name <> "prime_modulo"%string).
  { unfold synthetic_validation_data.dataset_types. cbn [In] in Hname |- *.
    repeat (destruct Hname as [<-|Hname];
            [eexists; split; [tauto|split; discriminate]|]).
    contradiction. }
  destruct Ht as [gen [Ht [Hnf Hnp]]].
  destruct (Forall2_In_l _ _ _ _ Hall Ht) as [[name' entries] [Hin [Hname' [rng0 Hb]]]].
  cbn [fst snd] in Hname', Hb. subst name' entries.
  pose proof (dataset_types_positive Rng np_random_normal np_random_uniform
                np_exp np_sin np_pi self name gen n Ht Hnf Hnp Hpos) as Hy.
  destruct (for_sizes_keeps Rng gen n (Z.to_nat n) sizes Hy ltac:(lia) [] rng0
              (or_introl Hn)) as [info [Hget [Hsz Hlen]]].
  eexists. exists info. split; [exact Hin|]. split; [exact Hget|].
  split; [rewrite Hsz; lia|unfold len; rewrite Hlen; lia].
Qed.

Lemma validation_suite_isolates_failures_witness :
  let normal := fun (loc scale : float) (rng : nat) => (loc, S rng) in
  let self : synthetic_validation_data.SyntheticDataGenerator (F := float) :=
    fst (synthetic_validation_data.__init__ nat (fun _ => 0%nat) 42) in
  exists entries info,
    In ("biological"%string, entries)
       (synthetic_validation_data.datasets
          (fst (@synthetic_validation_data.generate_validation_suite float binary64
                  soft_libm binary64_int nat normal normal (fun x => x) (fun x => x)
                  PrimFloat.zero "now" self (Some [0; 3; -1]%Z) 0%nat)))
    /\ dict_get entries (synthetic_validation_data.size_key 3) = Some info
    /\ synthetic_validation_data.ds_size info = 3%Z
    /\ len (synthetic_validation_data.ds_data info) = 3%Z.
Proof.
  cbv zeta.
  apply (@validation_suite_isolates_failures float binary64 soft_libm binary64_int nat
           (fun (loc scale : float) (rng : nat) => (loc, S rng))
           (fun (loc scale : float) (rng : nat) => (loc, S rng))
           (fun x => x) (fun x => x) PrimFloat.zero "now"
           (fst (synthetic_validation_data.__init__ nat (fun _ => 0%nat) 42))
           [0; 3; -1]%Z 0%nat 3%Z "biological").
  - cbn. tauto.
  - lia.
  - cbn. tauto.
Defined.

(** ** The Fibonacci generator and the largest float *)

Section FibonacciOverflow.
Import synthetic_validation_data.
Variable Rng : Type.

Lemma binary64_fibonacci_returns (self : SyntheticDataGenerator (F := float))
    (length : Z) (rng : Rng) :
  (1 <= length <= 1476)%Z ->
  exists data,
    generate_fibonacci_sequence Rng self length rng = (inr data, rng)
    /\ List.length data = Z.to_nat length.
Proof.
  intros H.
  destruct (fibonacci_returns Rng self length rng) as [data [Hd Hall]]; [lia| |].
  - intros k Hk. apply binary64_converts.
    pose proof (fibonacci_step k). pose proof (fibonacci_monotone k 1475 ltac:(lia)).
    pose proof fibonacci_1475_fits. lia.
  - exists data. split; [exact Hd|].
    apply Forall2_length in Hall. rewrite length_map, length_seq in Hall.
    symmetry. exact Hall.
Qed.

Lemma binary64_fibonacci_raises (self : SyntheticDataGenerator (F := float))
    (length : Z) (rng : Rng) :
  (1477 <= length)%Z ->
  generate_fibonacci_sequence Rng self length rng
  = (inl (OverflowError "int too large to convert to float"), rng).
Proof.
  intros H. apply (fibonacci_raises Rng self length rng 1476); [lia|].
  apply binary64_overflows. pose proof fibonacci_1476_overflows. lia.
Qed.

Lemma exact_fibonacci (self : SyntheticDataGenerator (F := ieee)) (n : nat)
    (rng : Rng) :
  generate_fibonacci_sequence Rng self (Z.of_nat n) rng
  = (inr (map (fun k => Fin (IZR (fibonacci k))) (seq 0 n)), rng).
Proof.
  unfold generate_fibonacci_sequence.
  destruct (Z.leb_spec (Z.of_nat n) 0) as [H|H].
  - replace n with 0%nat by lia. reflexivity.
  - rewrite fibonacci_prefix.
    unfold np_array_float. rewrite exact_float_array, map_map. reflexivity.
Qed.
End FibonacciOverflow.

(** X22. The Fibonacci generator of the dataset module stops at the largest
    float.  On machine numbers [generate_fibonacci_sequence] returns its
    [n] values for a length [n] from 1 to 1476, and raises [OverflowError]
    for every length from 1477 on, where a Fibonacci number no longer fits
    a float; it draws nothing either way.  In exact arithmetic it returns
    the first [n] Fibonacci numbers for every [n]. *)
Theorem fibonacci_generator_overflows (Rng : Type) (rng : Rng) :
  (forall (self : synthetic_validation_data.SyntheticDataGenerator (F := float))
          (length : Z),
      (1 <= length <= 1476)%Z ->
      exists data,
        synthetic_validation_data.generate_fibonacci_sequence Rng self length rng
        = (inr data, rng)
        /\ len data = length)
  /\ (forall (self : synthetic_validation_data.SyntheticDataGenerator (F := float))
             (length : Z),
         (1477 <= length)%Z ->
         synthetic_validation_data.generate_fibonacci_sequence Rng self length rng
         = (inl (synthetic_validation_data.OverflowError
                   "int too large to convert to float"), rng))
  /\ (forall (self : synthetic_validation_data.SyntheticDataGenerator (F := ieee))
             (n : nat),
         synthetic_validation_data.generate_fibonacci_sequence Rng self
           (Z.of_nat n) rng
         = (inr (map (fun k => Fin (IZR (fibonacci k))) (seq 0 n)), rng)).
Proof.
  split; [|split].
  - intros self length H.
    destruct (binary64_fibonacci_returns Rng self length rng H) as [data [Hd Hlen]].
    exists data. split; [exact Hd|]. unfold len. rewrite Hlen. lia.
  - intros self length H. apply binary64_fibonacci_raises. exact H.
  - intros self n. apply exact_fibonacci.
Qed.

(** X23. On machine numbers the suite of datasets has no large Fibonacci
    dataset.  Whatever the list of sizes, the dictionary that
    [generate_validation_suite] stores under ['fibonacci'] has the entry
    [size_n], of [n] values, for every size [n] of the list from 1 to 1476,
    and no entry [size_n] for any [n] from 1477 on: the [OverflowError] is
    caught and the size left out. *)
Theorem validation_suite_lacks_large_fibonacci (L : Libm float) (Rng : Type)
    (np_random_normal np_random_uniform : float -> float -> Rng -> float * Rng)
    (np_exp np_sin : float -> float) (np_pi : float) (timestamp_now : string)
    (self : synthetic_validation_data.SyntheticDataGenerator (F := float))
    (sizes : list Z) (rng : Rng) :
  exists entries,
    In ("fibonacci"%string, entries)
       (synthetic_validation_data.datasets
          (fst (@synthetic_validation_data.generate_validation_suite float binary64
                  L binary64_int Rng np_random_normal np_random_uniform np_exp
                  np_sin np_pi timestamp_now self (Some sizes) rng)))
    /\ (forall n, In n sizes -> (1 <= n <= 1476)%Z ->
          has_entry entries n (Z.to_nat n))
    /\ (forall n, (1477 <= n)%Z ->
          dict_get entries (synthetic_validation_data.size_key n) = None).
Proof.
  pose proof (@suite_datasets float binary64 L binary64_int Rng np_random_normal
                np_random_uniform np_exp np_sin np_pi timestamp_now self sizes rng)
    as Hall.
  assert (Ht : In ("fibonacci"%string,
                   synthetic_validation_data.generate_fibonacci_sequence Rng self)
                 (@synthetic_validation_data.dataset_types float binary64 L
                    binary64_int Rng np_random_normal np_random_uniform np_exp
                    np_sin np_pi self)).
  { left. reflexivity. }
  destruct (Forall2_In_l _ _ _ _ Hall Ht) as [[name' entries] [Hin [Hname' [rng0 Hb]]]].
  cbn [fst snd] in Hname', Hb. subst name' entries.
  eexists. split; [exact Hin|]. split.
  - intros n Hn Hrange.
    apply (for_sizes_keeps Rng _ n (Z.to_nat n) sizes); [|lia|left; exact Hn].
    intros r. destruct (binary64_fibonacci_returns Rng self n r Hrange)
      as [data [Hd Hlen]].
    exists data, r. split; assumption.
  - intros n Hn.
    destruct (dict_get _ (synthetic_validation_data.size_key n)) as [info|] eqn:Hget;
      [|reflexivity].
    exfalso. apply dict_get_In in Hget.
    assert (He : entry_of (synthetic_validation_data.generate_fibonacci_sequence Rng self)
                   sizes (synthetic_validation_data.size_key n) info).
    { apply (for_sizes_entries Rng _ sizes sizes [] rng0);
        [apply incl_refl| |exact Hget].
      intros k i []. }
    destruct He as [_ [_ [m [r [r' [_ [Hkey Hgen]]]]]]].
    apply size_key_injective in Hkey. subst m.
    rewrite binary64_fibonacci_raises in Hgen by exact Hn. discriminate Hgen.
Qed.

(** ** The sieve of the dataset module, and the two modules compared *)

Section DatasetPrimes.
Context {F : Type} {A : Arith F} {L : Libm F}.
Local Open Scope Z_scope.

Lemma dataset_primes_sound (self : synthetic_validation_data.SyntheticDataGenerator) :
  (forall ub r, f_to_int (f_sqrt (f_of_int ub)) = Some r ->
     0 <= r /\ ub < (r + 1) * (r + 1)) ->
  forall n l,
    synthetic_validation_data._generate_primes self n = Ok l -> first_primes n l.
Proof.
  intros Hsqrt n l. unfold synthetic_validation_data._generate_primes.
  destruct (Z.leb_spec n 0) as [Hn|Hn].
  - intros H. injection H as <-.
    split; [cbn; lia|]. split; [constructor|]. split; intros; contradiction.
  - destruct (if n <? 10 then _ else _) as [e|ub]; [discriminate|].
    unfold py_int at 1. destruct (f_to_int (f_sqrt (f_of_int ub))) as [root|] eqn:Hroot;
      [|discriminate].
    destruct (Hsqrt ub root Hroot) as [Hr Hub].
    intros H. injection H as H. symmetry in H.
    destruct (sieve_prefix ub root n l Hub Hr Hn H) as [H1 [H2 [H3 [H4 _]]]].
    split; [lia|]. split; [exact H2|]. split; assumption.
Qed.
End DatasetPrimes.

Lemma exact_dataset_primes_return
    (self : synthetic_validation_data.SyntheticDataGenerator (F := ieee)) (n : Z) :
  exists l, synthetic_validation_data._generate_primes self n = Ok l.
Proof.
  unfold synthetic_validation_data._generate_primes.
  destruct (n <=? 0)%Z; [eexists; reflexivity|].
  assert (Hub : exists ub,
            (if (n <? 10)%Z
             then Ok 30%Z
             else py_int (f_add (f_mul (f_of_int n) (np_log (f_of_int n)))
                    (f_mul (f_of_int n) (np_log (np_log (f_of_int n : ieee))))))
            = Ok ub /\ (0 <= ub)%Z).
  { destruct (Z.ltb_spec n 10) as [H|H].
    - exists 30%Z. split; [reflexivity|lia].
    - apply exact_upper_bound. lia. }
  destruct Hub as [ub [-> Hub]]. unfold Ok at 1.
  assert (Hroot : exists r, py_int (f_sqrt (f_of_int ub : ieee)) = Ok r).
  { cbn. unfold Exact.of_int, Exact.Rltb.
    destruct (Rlt_dec (IZR ub) 0) as [H|H]; [apply IZR_le in Hub; lra|].
    eexists. reflexivity. }
  destruct Hroot as [r ->]. unfold Ok at 1. eexists. reflexivity.
Qed.

(** X24. The sieve of the dataset module: in exact arithmetic
    [SyntheticDataGenerator._generate_primes(n)] returns for every [n], and
    what it returns are the smallest primes in increasing order, at most
    [n] of them; on machine numbers, for [n < 10] (where the sieve runs up
    to 30), they are the first [n] primes. *)
Theorem dataset_primes_are_the_first_primes :
  (forall (self : synthetic_validation_data.SyntheticDataGenerator (F := ieee))
          (n : Z),
      exists l, synthetic_validation_data._generate_primes self n = Ok l
                /\ first_primes n l)
  /\ (forall (L : Libm float)
             (self : synthetic_validation_data.SyntheticDataGenerator (F := float))
             (n : Z),
         (n < 10)%Z ->
         @synthetic_validation_data._generate_primes float binary64 L self n
         = Ok (firstn (Z.to_nat n) [2; 3; 5; 7; 11; 13; 17; 19; 23]%Z)).
Proof.
  split.
  - intros self n. destruct (exact_dataset_primes_return self n) as [l Hl].
    exists l. split; [exact Hl|].
    apply (@dataset_primes_sound ieee exact exact_libm self); [|exact Hl].
    intros ub r H. destruct (exact_sqrt_floor ub r H) as [H0 [_ H1]].
    split; assumption.
  - intros L self n Hn. destruct (Z.leb_spec n 0) as [Hle|Hgt].
    + unfold synthetic_validation_data._generate_primes.
      destruct (Z.leb_spec n 0) as [_|H]; [|lia].
      replace (Z.to_nat n) with 0%nat by lia. reflexivity.
    + assert (H : (n = 1 \/ n = 2 \/ n = 3 \/ n = 4 \/ n = 5 \/ n = 6
                   \/ n = 7 \/ n = 8 \/ n = 9)%Z) by lia.
      destruct H as [H|[H|[H|[H|[H|[H|[H|[H|H]]]]]]]]; subst n;
        vm_compute; reflexivity.
Qed.

Lemma binary64_fibonacci_values (Rng : Type)
    (self : synthetic_validation_data.SyntheticDataGenerator (F := float))
    (n : nat) (rng : Rng) :
  (n <= 92)%nat ->
  synthetic_validation_data.generate_fibonacci_sequence Rng self (Z.of_nat n) rng
  = (inr (map (fun k => Binary64.of_int (fibonacci k)) (seq 0 n)), rng).
Proof.
  intros Hn. unfold synthetic_validation_data.generate_fibonacci_sequence.
  destruct (Z.leb_spec (Z.of_nat n) 0) as [H|H].
  - replace n with 0%nat by lia. reflexivity.
  - rewrite fibonacci_prefix.
    unfold synthetic_validation_data.np_array_float.
    rewrite binary64_small_fibonacci; [reflexivity|].
    intros k Hk. apply in_seq in Hk. lia.
Qed.

(** X25. The generators of the two modules compared.  The Fibonacci
    generator of the dataset module returns, without a draw, the dataset the
    validation suite generates for the pattern [fibonacci], the first [n]
    Fibonacci numbers: in exact arithmetic for every size [n >= 0], on
    machine numbers for [n <= 92], where the Fibonacci numbers are below
    [2^63].  At size [-1] the two differ: the suite gives [[1.0]], the
    dataset module the empty array.  The golden-ratio sequence of the
    dataset module starts at the power 1, that of the suite at the power 0:
    the first is the second, taken one size larger, without its first
    value. *)
Theorem generators_of_the_two_modules (Rng : Type) (np_random_seed : Z -> Rng)
    (seed : Z) (rng : Rng) :
  (forall (np_random_uniform : Z -> ieee -> ieee -> Z -> result (list ieee))
          (n : nat),
      let fib := map (fun k => Fin (IZR (fibonacci k))) (seq 0 n) in
      generate_synthetic_data np_random_uniform ValidationSuite_init (Z.of_nat n)
        "fibonacci" = Ok fib
      /\ synthetic_validation_data.generate_fibonacci_sequence Rng
           (fst (synthetic_validation_data.__init__ Rng np_random_seed seed))
           (Z.of_nat n) rng = (inr fib, rng))
  /\ (forall (L : Libm float)
             (np_random_uniform : Z -> float -> float -> Z -> result (list float))
             (n : nat),
         (n <= 92)%nat ->
         let fib := map (fun k => Binary64.of_int (fibonacci k)) (seq 0 n) in
         @generate_synthetic_data float binary64 L np_random_uniform
           ValidationSuite_init (Z.of_nat n) "fibonacci" = Ok fib
         /\ synthetic_validation_data.generate_fibonacci_sequence Rng
              (fst (@synthetic_validation_data.__init__ float binary64 Rng
                      np_random_seed seed))
              (Z.of_nat n) rng = (inr fib, rng))
  /\ (forall (F : Type) (A : Arith F) (L : Libm F) (C : IntToFloat F)
             (np_random_uniform : Z -> F -> F -> Z -> result (list F)),
         let self := fst (synthetic_validation_data.__init__ Rng np_random_seed seed) in
         (generate_synthetic_data np_random_uniform ValidationSuite_init (-1)
            "fibonacci" = Ok [f_of_int 1]
          /\ synthetic_validation_data.generate_fibonacci_sequence Rng self (-1) rng
             = (inr [], rng))
         /\ forall n : nat,
              exists first rest,
                generate_synthetic_data np_random_uniform ValidationSuite_init
                  (Z.of_nat (S n)) "golden_ratio" = Ok (first :: rest)
                /\ synthetic_validation_data.generate_golden_ratio_sequence Rng self
                     (Z.of_nat n) rng = (inr rest, rng)).
Proof.
  split; [|split].
  - intros np_random_uniform n. cbv zeta. split.
    + unfold generate_synthetic_data. cbn [String.eqb Ascii.eqb Bool.eqb].
      rewrite fibonacci_prefix, map_map. reflexivity.
    + apply exact_fibonacci.
  - intros L np_random_uniform n Hn. cbv zeta. split.
    + unfold generate_synthetic_data. cbn [String.eqb Ascii.eqb Bool.eqb].
      rewrite fibonacci_prefix, map_map. reflexivity.
    + apply binary64_fibonacci_values. exact Hn.
  - intros F A L C np_random_uniform. cbv zeta. split; [split; reflexivity|].
    intros n. unfold generate_synthetic_data. cbn [String.eqb Ascii.eqb Bool.eqb].
    unfold synthetic_validation_data.generate_golden_ratio_sequence,
      synthetic_validation_data.ret, synthetic_validation_data.np_arange, py_range.
    rewrite Nat2Z.id. cbn [seq map].
    eexists. eexists. split; [reflexivity|].
    f_equal. f_equal.
    replace (Z.to_nat (Z.of_nat n + 1 - 1)) with n by lia.
    rewrite <- seq_shift, !map_map. apply map_ext. intros k.
    cbn [synthetic_validation_data.__init__ fst synthetic_validation_data.phi].
    unfold ValidationSuite_init. cbn [fht]. unfold default. cbn [__init__ phi].
    unfold golden_ratio. f_equal. f_equal. lia.
Qed.

(** ** The two component scores on machine numbers *)

Lemma signless_not_negative (x : float) :
  Binary64.signless x = true ->
  PrimFloat.is_nan x = true \/ PrimFloat.leb PrimFloat.zero x = true.
Proof.
  intros H. destruct (PrimFloat.is_nan x) eqn:E; [left; reflexivity|right].
  apply leb_zero_signless; assumption.
Qed.

(** X26. On machine numbers, the stability score and the breakthrough score
    are never negative: for every instance and every pair of sequences (of
    any lengths), each of the two is NaN or at least zero. *)
Theorem component_scores_not_negative
    (self : FractalHarmonicTransform (F := float))
    (original transformed : list float) (s : ScoreSet) :
  calculate_consciousness_score self original transformed = Ok s ->
  (PrimFloat.is_nan (stability_score s) = true
   \/ PrimFloat.leb PrimFloat.zero (stability_score s) = true)
  /\ (PrimFloat.is_nan (breakthrough_score s) = true
      \/ PrimFloat.leb PrimFloat.zero (breakthrough_score s) = true).
Proof.
  unfold calculate_consciousness_score.
  match goal with
  | |- context [match ?r with inl _ => _ | inr _ => _ end] =>
      destruct r as [ex|corr]; [discriminate|]
  end.
  intros H. injection H as <-. cbn [stability_score breakthrough_score].
  split; apply signless_not_negative.
  - apply div_signless; [apply sum_abs_signless|].
    apply of_int_signless. pose proof (len_nonneg original). lia.
  - match goal with
    | |- context [if ?c then _ else _] => destruct c
    end.
    + apply div_signless; [apply std_signless|apply mean_abs_signless].
    + reflexivity.
Qed.

Lemma component_scores_not_negative_witness :
  exists s : ScoreSet (F := float),
    calculate_consciousness_score default [1%float; 2%float] [(-3)%float; 5%float]
    = Ok s
    /\ (PrimFloat.is_nan (stability_score s) = true
        \/ PrimFloat.leb PrimFloat.zero (stability_score s) = true)
    /\ (PrimFloat.is_nan (breakthrough_score s) = true
        \/ PrimFloat.leb PrimFloat.zero (breakthrough_score s) = true).
Proof.
  eexists. split; [vm_compute; reflexivity|].
  apply (component_scores_not_negative default [1%float; 2%float]
           [(-3)%float; 5%float]).
  vm_compute. reflexivity.
Defined.
